(** * The request-authorization and resource-CRUD contract of the CRM backend

    A shallow embedding of [backend/server.ts], of the zod schemas of
    [backend/schema.ts] and of the tables of [backend/db.sql].

    - JSON values and request bodies are an inductive type; a JS object is an
      insertion-ordered association list.
    - A table is the list of its rows, a row a record with the columns of
      [db.sql]; timestamps are the TEXT values the server writes.
    - Every [pool.query] is one SQL statement: it returns rows or throws, and a
      handler's [try]/[catch] turns a throw into a 400 response.
    - What lives in libraries and in the environment (jsonwebtoken, bcryptjs,
      zod's e-mail and URL patterns, [Date], the database's JSON input
      conversion, ILIKE and collation) is collected in the class [Env]. *)

From Stdlib Require Import ZArith String Ascii List Bool Lia Permutation DecimalString
  Sorted.
Import ListNotations.
Local Open Scope string_scope.
Local Open Scope list_scope.

Set Implicit Arguments.
Set Warnings "-register-all".

(** ** JavaScript values *)

Module Js.

Inductive json : Type :=
| JNull
| JBool (b : bool)
| JNum (n : Z)
| JStr (s : string)
| JArr (items : list json)
| JObj (members : list (string * json)).

(** A JS object: keys in insertion order. *)
Definition object := list (string * json).

(** [o[k]]: [None] is [undefined]. *)
Fixpoint get (k : string) (o : object) : option json :=
  match o with
  | [] => None
  | (k', v) :: rest => if String.eqb k k' then Some v else get k rest
  end.

(** [{ k: v, ...o }]: the keys of [o] win over the literal's. *)
Definition spread (k : string) (v : json) (o : object) : object :=
  match get k o with
  | Some _ => o
  | None => (k, v) :: o
  end.

(** Truthiness of a string-or-undefined, as [if (parsed.first_name)] tests it:
    the value when it is a non-empty string. *)
Definition truthy (v : option string) : option string :=
  match v with
  | Some EmptyString => None
  | Some s => Some s
  | None => None
  end.

(** [s.split(sep)] for a one-character separator. *)
Fixpoint split (sep : ascii) (s : string) : list string :=
  match s with
  | EmptyString => [EmptyString]
  | String c rest =>
      if Ascii.eqb c sep then EmptyString :: split sep rest
      else match split sep rest with
           | piece :: pieces => String c piece :: pieces
           | [] => [String c EmptyString]
           end
  end.

(** [!s.includes(c)] *)
Fixpoint avoids (c : ascii) (s : string) : Prop :=
  match s with
  | EmptyString => True
  | String a rest => Ascii.eqb a c = false /\ avoids c rest
  end.

(** [xs.join(sep)]. *)
Fixpoint join (sep : string) (xs : list string) : string :=
  match xs with
  | [] => EmptyString
  | [x] => x
  | x :: rest => x ++ sep ++ join sep rest
  end.

(** What [join] makes of an element: [null] is the empty string, an array its
    own [join(",")], any other object the fixed text. *)
Fixpoint text (v : json) : string :=
  match v with
  | JNull => EmptyString
  | JBool true => "true"
  | JBool false => "false"
  | JNum n => NilZero.string_of_int (Z.to_int n)
  | JStr s => s
  | JArr items => join "," (map text items)
  | JObj _ => "[object Object]"
  end.

(** The line feed. *)
Definition LF : string := String (ascii_of_nat 10) EmptyString.

Definition lower_ascii (c : ascii) : ascii :=
  let n := nat_of_ascii c in
  if andb (Nat.leb 65 n) (Nat.leb n 90) then ascii_of_nat (n + 32) else c.

Fixpoint toLowerCase (s : string) : string :=
  match s with
  | EmptyString => EmptyString
  | String c rest => String (lower_ascii c) (toLowerCase rest)
  end.

End Js.
Import Js.

(** ** Errors and the [try]/[catch] monad *)

Module Zod.

(** The issue codes the schemas of [schema.ts] can raise. *)
Inductive code : Type :=
| invalid_type | too_small | invalid_string | invalid_enum_value | invalid_date.

Record issue : Type := Issue { at_key : string; why : code }.

End Zod.

(** PostgreSQL's errors, by condition name. *)
Inductive pg_error : Type :=
| syntax_error
| foreign_key_violation
| invalid_text_representation
| undefined_column
| invalid_row_count_in_limit_clause
| invalid_row_count_in_result_offset_clause.

(** What a handler's [catch (err)] can receive. *)
Inductive error : Type :=
| ZodError (issues : list Zod.issue)
| DatabaseError (e : pg_error).

Inductive result (A : Type) : Type :=
| Ok (a : A)
| Throw (e : error).
Arguments Ok {A} a.
Arguments Throw {A} e.

Definition bind {A B : Type} (r : result A) (k : A -> result B) : result B :=
  match r with
  | Ok a => k a
  | Throw e => Throw e
  end.

Declare Scope try_scope.
Delimit Scope try_scope with try.
Notation "x <- c ;; k" := (bind c (fun x => k))
  (at level 61, c at next level, right associativity) : try_scope.
Notation "' pat <- c ;; k" := (bind c (fun x => match x with pat => k end))
  (at level 61, pat pattern, c at next level, right associativity) : try_scope.
Local Open Scope try_scope.


(** ** The environment: the libraries and the database engine *)

(** What [jwt.sign] is given and [jwt.verify] hands back as [req.user]. *)
Record JwtPayload : Type := { jwt_id : string; jwt_role : string }.

Inductive JwtError : Type := JsonWebTokenError | TokenExpiredError.

Class Env : Type := {
  (** [process.env.JWT_SECRET || "your_jwt_secret"] *)
  JWT_SECRET : string;
  (** [jwt.sign(payload, secret, { expiresIn })] at a clock reading in seconds *)
  jwt_sign : JwtPayload -> string -> Z -> Z -> string;
  (** [jwt.verify(token, secret, callback)] at a clock reading in seconds *)
  jwt_verify : string -> string -> Z -> JwtError + JwtPayload;
  (** [bcrypt.compare(password, hash)] *)
  bcrypt_compare : string -> string -> bool;
  (** zod's [.email()] and [.url()] patterns *)
  is_email : string -> bool;
  is_url : string -> bool;
  (** [new Date(v)], rendered by [toISOString]; [None] is an invalid date *)
  coerce_date : json -> option string;
  (** the driver's and the engine's conversion of a parameter to a JSON column;
      [None] is "invalid input syntax for type json" *)
  pg_json_in : json -> option json;
  (** [value ILIKE pattern] *)
  ilike : string -> string -> bool;
  (** the collation's order on TEXT *)
  text_leb : string -> string -> bool
}.

(** What the code relies on from those libraries. *)
Class EnvLaws (E : Env) : Prop := {
  (** no e-mail address is empty *)
  is_email_nonempty : is_email "" = false;
  (** a token is one non-empty word: base64url segments joined by dots *)
  jwt_sign_word : forall p k ttl t, avoids " " (jwt_sign p k ttl t);
  jwt_sign_nonempty : forall p k ttl t, jwt_sign p k ttl t <> "";
  (** a token verifies under its key until it expires *)
  jwt_verify_sign : forall p k ttl t t',
    (t <= t' < t + ttl)%Z -> jwt_verify (jwt_sign p k ttl t) k t' = inr p
}.

(** ** zod *)

Module z.

Import Zod.

(** A schema reads a value that is there. *)
Definition schema (A : Type) := json -> code + A.

Definition string : schema String.string :=
  fun v => match v with JStr s => inr s | _ => inl invalid_type end.

Definition number : schema BinNums.Z :=
  fun v => match v with JNum n => inr n | _ => inl invalid_type end.

Definition boolean : schema bool :=
  fun v => match v with JBool b => inr b | _ => inl invalid_type end.

Definition any : schema json := fun v => inr v.

(** A check added to a schema: [.min(1)], [.email()], [.positive()], ... *)
Definition refine {A : Type} (ok : A -> bool) (c : code) (s : schema A) : schema A :=
  fun v => match s v with
           | inr a => if ok a then inr a else inl c
           | inl e => inl e
           end.

Definition min (n : nat) : schema String.string -> schema String.string :=
  refine (fun s => Nat.leb n (String.length s)) too_small.

Definition email `{Env} : schema String.string -> schema String.string :=
  refine is_email invalid_string.

Definition url `{Env} : schema String.string -> schema String.string :=
  refine is_url invalid_string.

(** Numbers are integers in this model, so [.int()] checks nothing more. *)
Definition int : schema BinNums.Z -> schema BinNums.Z := refine (fun _ => true) invalid_type.

Definition positive : schema BinNums.Z -> schema BinNums.Z :=
  refine (fun n => Z.ltb 0 n) too_small.

Definition nonnegative : schema BinNums.Z -> schema BinNums.Z :=
  refine (fun n => Z.leb 0 n) too_small.

Definition enum (values : list String.string) : schema String.string :=
  fun v => match v with
           | JStr s => if existsb (String.eqb s) values then inr s else inl invalid_enum_value
           | _ => inl invalid_type
           end.

(** [z.coerce.date()] *)
Definition coerce_date_schema `{Env} : schema String.string :=
  fun v => match coerce_date v with Some d => inr d | None => inl invalid_date end.

(** [.nullable()]: [null] passes as [None]. *)
Definition nullable {A : Type} (s : schema A) : schema (option A) :=
  fun v => match v with
           | JNull => inr None
           | _ => match s v with inr a => inr (Some a) | inl e => inl e end
           end.

(** A key of an object schema reads a value that may be [undefined]. *)
Definition key (A : Type) := option json -> code + A.

Definition required {A : Type} (s : schema A) : key A :=
  fun v => match v with Some j => s j | None => inl invalid_type end.

(** [.optional()]: the key stays absent from the parsed object. *)
Definition optional {A : Type} (s : schema A) : key (option A) :=
  fun v => match v with
           | Some j => match s j with inr a => inr (Some a) | inl e => inl e end
           | None => inr None
           end.

(** [.default(d)] *)
Definition default {A : Type} (d : A) (s : schema A) : key A :=
  fun v => match v with Some j => s j | None => inr d end.

(** Parsing an object collects the issues of all its keys. *)
Inductive validation (A : Type) : Type :=
| Valid (a : A)
| Invalid (issues : list issue).
Arguments Valid {A} a.
Arguments Invalid {A} issues.

Definition field {A : Type} (o : object) (name : String.string) (k : key A) : validation A :=
  match k (get name o) with
  | inr a => Valid a
  | inl c => Invalid [Issue name c]
  end.

Definition ap {A B : Type} (f : validation (A -> B)) (x : validation A) : validation B :=
  match f, x with
  | Valid g, Valid a => Valid (g a)
  | Valid _, Invalid i => Invalid i
  | Invalid i, Valid _ => Invalid i
  | Invalid i, Invalid j => Invalid (i ++ j)
  end.

(** [schema.parse(input)]: the parsed object, or a thrown [ZodError]. *)
Definition parse {A : Type} (v : validation A) : result A :=
  match v with
  | Valid a => Ok a
  | Invalid i => Throw (ZodError i)
  end.


End z.

Notation "f <*> x" := (z.ap f x) (at level 50, left associativity).

(** ** The tables of [db.sql]

    TEXT columns are strings, NUMERIC columns integers, a nullable column an
    option; a JSON column holds a JSON value, [JNull] being SQL NULL. *)

Module User.
Record t : Type := {
  id : string; username : string; email : string; password_hash : string;
  role : string; created_at : string; updated_at : string }.
End User.

Module Client.
Record t : Type := {
  id : string; first_name : string; last_name : string; email : string;
  phone : string; address : string; status : string; additional_details : json;
  created_at : string; updated_at : string }.
End Client.

Module ClientPropertyInterest.
Record t : Type := {
  id : string; client_id : string; property_type : string;
  preferred_location : string; price_min : option Z; price_max : option Z;
  additional_notes : option string; created_at : string }.
End ClientPropertyInterest.

Module Property.
Record t : Type := {
  id : string; address : string; property_type : string; price : Z;
  status : string; description : option string;
  created_at : string; updated_at : string }.
End Property.

Module Appointment.
Record t : Type := {
  id : string; client_id : string; property_id : option string;
  agent_id : string; appointment_date : string; appointment_time : string;
  notes : option string; is_confirmed : bool;
  created_at : string; updated_at : string }.
End Appointment.

Module CommunicationLog.
Record t : Type := {
  id : string; client_id : string; user_id : string;
  communication_type : string; note : string; follow_up_flag : bool;
  timestamp : string }.
End CommunicationLog.

Module ClientDocument.
Record t : Type := {
  id : string; client_id : string; document_name : string;
  document_url : string; document_type : string; uploaded_at : string }.
End ClientDocument.

Module UserSettings.
Record t : Type := {
  id : string; user_id : string; dashboard_preferences : json;
  notification_settings : json; configuration : json; updated_at : string }.
End UserSettings.

(** The database: one list of rows per table. *)
Record Db : Type := {
  users : list User.t;
  clients : list Client.t;
  client_property_interests : list ClientPropertyInterest.t;
  properties : list Property.t;
  appointments : list Appointment.t;
  communication_logs : list CommunicationLog.t;
  client_documents : list ClientDocument.t;
  user_settings : list UserSettings.t }.

Definition with_users (db : Db) (rows : list User.t) : Db :=
  {| users := rows; clients := clients db;
     client_property_interests := client_property_interests db;
     properties := properties db; appointments := appointments db;
     communication_logs := communication_logs db;
     client_documents := client_documents db; user_settings := user_settings db |}.

Definition with_clients (db : Db) (rows : list Client.t) : Db :=
  {| users := users db; clients := rows;
     client_property_interests := client_property_interests db;
     properties := properties db; appointments := appointments db;
     communication_logs := communication_logs db;
     client_documents := client_documents db; user_settings := user_settings db |}.

Definition with_client_property_interests (db : Db) (rows : list ClientPropertyInterest.t) : Db :=
  {| users := users db; clients := clients db;
     client_property_interests := rows;
     properties := properties db; appointments := appointments db;
     communication_logs := communication_logs db;
     client_documents := client_documents db; user_settings := user_settings db |}.

Definition with_properties (db : Db) (rows : list Property.t) : Db :=
  {| users := users db; clients := clients db;
     client_property_interests := client_property_interests db;
     properties := rows; appointments := appointments db;
     communication_logs := communication_logs db;
     client_documents := client_documents db; user_settings := user_settings db |}.

Definition with_appointments (db : Db) (rows : list Appointment.t) : Db :=
  {| users := users db; clients := clients db;
     client_property_interests := client_property_interests db;
     properties := properties db; appointments := rows;
     communication_logs := communication_logs db;
     client_documents := client_documents db; user_settings := user_settings db |}.

Definition with_communication_logs (db : Db) (rows : list CommunicationLog.t) : Db :=
  {| users := users db; clients := clients db;
     client_property_interests := client_property_interests db;
     properties := properties db; appointments := appointments db;
     communication_logs := rows;
     client_documents := client_documents db; user_settings := user_settings db |}.

Definition with_client_documents (db : Db) (rows : list ClientDocument.t) : Db :=
  {| users := users db; clients := clients db;
     client_property_interests := client_property_interests db;
     properties := properties db; appointments := appointments db;
     communication_logs := communication_logs db;
     client_documents := rows; user_settings := user_settings db |}.

(** ** The schemas of [schema.ts] *)

Module LoginInput.
Record t : Type := { username : string; password : string }.
End LoginInput.

Module UpdateClientInput.
Record t : Type := {
  id : string; first_name : option string; last_name : option string;
  email : option string; phone : option string; address : option string;
  status : option string; additional_details : option (option json) }.
End UpdateClientInput.

Module SearchInput.
Record t : Type := {
  query : option string; limit : Z; offset : Z;
  sort_by : string; sort_order : string }.
End SearchInput.

Module UpdateClientPropertyInterestInput.
Record t : Type := {
  id : string; client_id : option string; property_type : option string;
  preferred_location : option string; price_min : option (option Z);
  price_max : option (option Z); additional_notes : option (option string) }.
End UpdateClientPropertyInterestInput.

Module UpdateCommunicationLogInput.
Record t : Type := {
  id : string; client_id : option string; user_id : option string;
  communication_type : option string; note : option string;
  follow_up_flag : option bool; timestamp : option string }.
End UpdateCommunicationLogInput.

Module UpdateClientDocumentInput.
Record t : Type := {
  id : string; client_id : option string; document_name : option string;
  document_url : option string; document_type : option string }.
End UpdateClientDocumentInput.

Section Schemas.
Context `{Env}.

(** [createUserInputSchema.shape.username] and [.password_hash]. *)
Definition createUserInputSchema_username : z.key string := z.required (z.min 1 z.string).
Definition createUserInputSchema_password_hash : z.key string := z.required (z.min 1 z.string).

(** [createUserInputSchema.pick({ username: true }).extend({ password:
    createUserInputSchema.shape.password_hash })] *)
Definition loginSchema (input : object) : result LoginInput.t :=
  z.parse (z.Valid LoginInput.Build_t
    <*> z.field input "username" createUserInputSchema_username
    <*> z.field input "password" createUserInputSchema_password_hash).

Definition updateClientInputSchema (input : object) : result UpdateClientInput.t :=
  z.parse (z.Valid UpdateClientInput.Build_t
    <*> z.field input "id" (z.required z.string)
    <*> z.field input "first_name" (z.optional (z.min 1 z.string))
    <*> z.field input "last_name" (z.optional (z.min 1 z.string))
    <*> z.field input "email" (z.optional (z.email z.string))
    <*> z.field input "phone" (z.optional (z.min 1 z.string))
    <*> z.field input "address" (z.optional (z.min 1 z.string))
    <*> z.field input "status" (z.optional (z.min 1 z.string))
    <*> z.field input "additional_details" (z.optional (z.nullable z.any))).

(** The five search schemas differ in the columns [sort_by] may name. *)
Definition searchInputSchema (columns : list string) (by_default : string)
    (input : object) : result SearchInput.t :=
  z.parse (z.Valid SearchInput.Build_t
    <*> z.field input "query" (z.optional z.string)
    <*> z.field input "limit" (z.default 10%Z (z.positive (z.int z.number)))
    <*> z.field input "offset" (z.default 0%Z (z.nonnegative (z.int z.number)))
    <*> z.field input "sort_by" (z.default by_default (z.enum columns))
    <*> z.field input "sort_order" (z.default "desc" (z.enum ["asc"; "desc"]))).

Definition searchUserInputSchema : object -> result SearchInput.t :=
  searchInputSchema ["username"; "email"; "created_at"] "created_at".

Definition searchClientInputSchema : object -> result SearchInput.t :=
  searchInputSchema ["first_name"; "last_name"; "created_at"] "created_at".

Definition updateClientPropertyInterestInputSchema (input : object)
    : result UpdateClientPropertyInterestInput.t :=
  z.parse (z.Valid UpdateClientPropertyInterestInput.Build_t
    <*> z.field input "id" (z.required z.string)
    <*> z.field input "client_id" (z.optional z.string)
    <*> z.field input "property_type" (z.optional (z.min 1 z.string))
    <*> z.field input "preferred_location" (z.optional (z.min 1 z.string))
    <*> z.field input "price_min" (z.optional (z.nullable z.number))
    <*> z.field input "price_max" (z.optional (z.nullable z.number))
    <*> z.field input "additional_notes" (z.optional (z.nullable z.string))).

Definition updateCommunicationLogInputSchema (input : object)
    : result UpdateCommunicationLogInput.t :=
  z.parse (z.Valid UpdateCommunicationLogInput.Build_t
    <*> z.field input "id" (z.required z.string)
    <*> z.field input "client_id" (z.optional z.string)
    <*> z.field input "user_id" (z.optional z.string)
    <*> z.field input "communication_type" (z.optional (z.min 1 z.string))
    <*> z.field input "note" (z.optional (z.min 1 z.string))
    <*> z.field input "follow_up_flag" (z.optional z.boolean)
    <*> z.field input "timestamp" (z.optional z.coerce_date_schema)).

Definition updateClientDocumentInputSchema (input : object)
    : result UpdateClientDocumentInput.t :=
  z.parse (z.Valid UpdateClientDocumentInput.Build_t
    <*> z.field input "id" (z.required z.string)
    <*> z.field input "client_id" (z.optional z.string)
    <*> z.field input "document_name" (z.optional (z.min 1 z.string))
    <*> z.field input "document_url" (z.optional (z.url z.string))
    <*> z.field input "document_type" (z.optional (z.min 1 z.string))).

End Schemas.

(** ** The SQL statements the handlers send *)

Module Pg.

Fixpoint mapM {A B : Type} (f : A -> result B) (l : list A) : result (list B) :=
  match l with
  | [] => Ok []
  | a :: rest => b <- f a ;; bs <- mapM f rest ;; Ok (b :: bs)
  end.

Section Table.
Context {R : Type}.
(** the primary key column [id] *)
Variable pk : R -> string.

(** [SELECT * FROM t WHERE id=$1] *)
Definition where_id (id : string) (table : list R) : list R :=
  filter (fun r => String.eqb (pk r) id) table.

(** The rows a [DELETE FROM t WHERE id=$1] leaves. *)
Definition where_not_id (id : string) (table : list R) : list R :=
  filter (fun r => negb (String.eqb (pk r) id)) table.

(** [DELETE FROM t WHERE id=$1 RETURNING *]: the table left and the rows
    deleted. The foreign keys of [db.sql] name no ON DELETE action, so a row
    that another table references cannot go. *)
Definition delete_returning (referenced : bool) (id : string) (table : list R)
    : result (list R * list R) :=
  match where_id id table with
  | [] => Ok (table, [])
  | row :: rows =>
      if referenced then Throw (DatabaseError foreign_key_violation)
      else Ok (where_not_id id table, row :: rows)
  end.

(** [UPDATE t SET a1, ..., an WHERE id=$k RETURNING *]: the table left and
    the rows updated. An empty SET list does not parse; a parameter that does
    not convert to its column's type fails the statement. *)
Definition update_returning {A : Type} (convert : A -> result A) (assign : A -> R -> R)
    (fields : list A) (id : string) (table : list R) : result (list R * list R) :=
  match fields with
  | [] => Throw (DatabaseError syntax_error)
  | _ =>
      bound <- mapM convert fields ;;
      let updated r := fold_left (fun r a => assign a r) bound r in
      Ok (map (fun r => if String.eqb (pk r) id then updated r else r) table,
          map updated (where_id id table))
  end.

(** [... LIMIT $i OFFSET $j] *)
Definition limit_offset (limit offset : Z) (rows : list R) : result (list R) :=
  if (limit <? 0)%Z then Throw (DatabaseError invalid_row_count_in_limit_clause)
  else if (offset <? 0)%Z then Throw (DatabaseError invalid_row_count_in_result_offset_clause)
  else Ok (firstn (Z.to_nat limit) (skipn (Z.to_nat offset) rows)).

Fixpoint insert (le : R -> R -> bool) (x : R) (sorted : list R) : list R :=
  match sorted with
  | [] => [x]
  | y :: rest => if le x y then x :: sorted else y :: insert le x rest
  end.

Definition sort (le : R -> R -> bool) (rows : list R) : list R :=
  fold_right (insert le) [] rows.

(** [... ORDER BY column direction], the column and the direction being
    spliced into the statement's text. *)
Definition order_by `{Env} (column : option (R -> string)) (direction : string)
    (rows : list R) : result (list R) :=
  match column with
  | None => Throw (DatabaseError undefined_column)
  | Some c =>
      if String.eqb (toLowerCase direction) "asc"
      then Ok (sort (fun a b => text_leb (c a) (c b)) rows)
      else if String.eqb (toLowerCase direction) "desc"
      then Ok (sort (fun a b => text_leb (c b) (c a)) rows)
      else Throw (DatabaseError syntax_error)
  end.

End Table.

End Pg.

(** ** What an UPDATE assigns, per table *)

Module ClientSet.
Import Client.

Inductive t : Type :=
| first_name (v : string) | last_name (v : string) | email (v : string)
| phone (v : string) | address (v : string) | status (v : string)
| additional_details (v : json) | updated_at (v : string).

Definition assign (a : t) (c : Client.t) : Client.t :=
  match a with
  | first_name v =>
      Build_t (id c) v (Client.last_name c) (Client.email c) (Client.phone c)
        (Client.address c) (Client.status c) (Client.additional_details c) (created_at c)
        (Client.updated_at c)
  | last_name v =>
      Build_t (id c) (Client.first_name c) v (Client.email c) (Client.phone c)
        (Client.address c) (Client.status c) (Client.additional_details c) (created_at c)
        (Client.updated_at c)
  | email v =>
      Build_t (id c) (Client.first_name c) (Client.last_name c) v (Client.phone c)
        (Client.address c) (Client.status c) (Client.additional_details c) (created_at c)
        (Client.updated_at c)
  | phone v =>
      Build_t (id c) (Client.first_name c) (Client.last_name c) (Client.email c) v
        (Client.address c) (Client.status c) (Client.additional_details c) (created_at c)
        (Client.updated_at c)
  | address v =>
      Build_t (id c) (Client.first_name c) (Client.last_name c) (Client.email c)
        (Client.phone c) v (Client.status c) (Client.additional_details c) (created_at c)
        (Client.updated_at c)
  | status v =>
      Build_t (id c) (Client.first_name c) (Client.last_name c) (Client.email c)
        (Client.phone c) (Client.address c) v (Client.additional_details c) (created_at c)
        (Client.updated_at c)
  | additional_details v =>
      Build_t (id c) (Client.first_name c) (Client.last_name c) (Client.email c)
        (Client.phone c) (Client.address c) (Client.status c) v (created_at c)
        (Client.updated_at c)
  | updated_at v =>
      Build_t (id c) (Client.first_name c) (Client.last_name c) (Client.email c)
        (Client.phone c) (Client.address c) (Client.status c) (Client.additional_details c)
        (created_at c) v
  end.

(** Only the JSON column converts its parameter. *)
Definition convert `{Env} (a : t) : result t :=
  match a with
  | additional_details v =>
      match pg_json_in v with
      | Some j => Ok (additional_details j)
      | None => Throw (DatabaseError invalid_text_representation)
      end
  | _ => Ok a
  end.

End ClientSet.

Module ClientPropertyInterestSet.
Import ClientPropertyInterest.

Inductive t : Type :=
| property_type (v : string) | preferred_location (v : string)
| price_min (v : option Z) | price_max (v : option Z)
| additional_notes (v : option string).

Definition assign (a : t) (r : ClientPropertyInterest.t) : ClientPropertyInterest.t :=
  match a with
  | property_type v =>
      Build_t (id r) (client_id r) v (ClientPropertyInterest.preferred_location r)
        (ClientPropertyInterest.price_min r) (ClientPropertyInterest.price_max r)
        (ClientPropertyInterest.additional_notes r) (created_at r)
  | preferred_location v =>
      Build_t (id r) (client_id r) (ClientPropertyInterest.property_type r) v
        (ClientPropertyInterest.price_min r) (ClientPropertyInterest.price_max r)
        (ClientPropertyInterest.additional_notes r) (created_at r)
  | price_min v =>
      Build_t (id r) (client_id r) (ClientPropertyInterest.property_type r)
        (ClientPropertyInterest.preferred_location r) v
        (ClientPropertyInterest.price_max r) (ClientPropertyInterest.additional_notes r)
        (created_at r)
  | price_max v =>
      Build_t (id r) (client_id r) (ClientPropertyInterest.property_type r)
        (ClientPropertyInterest.preferred_location r) (ClientPropertyInterest.price_min r)
        v (ClientPropertyInterest.additional_notes r) (created_at r)
  | additional_notes v =>
      Build_t (id r) (client_id r) (ClientPropertyInterest.property_type r)
        (ClientPropertyInterest.preferred_location r) (ClientPropertyInterest.price_min r)
        (ClientPropertyInterest.price_max r) v (created_at r)
  end.

End ClientPropertyInterestSet.

Module CommunicationLogSet.
Import CommunicationLog.

Inductive t : Type :=
| communication_type (v : string) | note (v : string)
| follow_up_flag (v : bool) | timestamp (v : string).

Definition assign (a : t) (r : CommunicationLog.t) : CommunicationLog.t :=
  match a with
  | communication_type v =>
      Build_t (id r) (client_id r) (user_id r) v (CommunicationLog.note r)
        (CommunicationLog.follow_up_flag r) (CommunicationLog.timestamp r)
  | note v =>
      Build_t (id r) (client_id r) (user_id r) (CommunicationLog.communication_type r) v
        (CommunicationLog.follow_up_flag r) (CommunicationLog.timestamp r)
  | follow_up_flag v =>
      Build_t (id r) (client_id r) (user_id r) (CommunicationLog.communication_type r)
        (CommunicationLog.note r) v (CommunicationLog.timestamp r)
  | timestamp v =>
      Build_t (id r) (client_id r) (user_id r) (CommunicationLog.communication_type r)
        (CommunicationLog.note r) (CommunicationLog.follow_up_flag r) v
  end.

End CommunicationLogSet.

Module ClientDocumentSet.
Import ClientDocument.

Inductive t : Type :=
| document_name (v : string) | document_url (v : string) | document_type (v : string).

Definition assign (a : t) (r : ClientDocument.t) : ClientDocument.t :=
  match a with
  | document_name v =>
      Build_t (id r) (client_id r) v (ClientDocument.document_url r)
        (ClientDocument.document_type r) (uploaded_at r)
  | document_url v =>
      Build_t (id r) (client_id r) (ClientDocument.document_name r) v
        (ClientDocument.document_type r) (uploaded_at r)
  | document_type v =>
      Build_t (id r) (client_id r) (ClientDocument.document_name r)
        (ClientDocument.document_url r) v (uploaded_at r)
  end.

End ClientDocumentSet.

(** ** Responses and middleware *)

Inductive payload : Type :=
| message (text : string)
| error_message (err : error)
| status_text
| token_and_user (token : string) (user : User.t)
| user_row (row : User.t)
| user_rows (rows : list User.t)
| client_row (row : Client.t)
| client_rows (rows : list Client.t)
| interest_row (row : ClientPropertyInterest.t)
| log_row (row : CommunicationLog.t)
| document_row (row : ClientDocument.t)
| csv_attachment (data : string).

Record Response : Type := { status : Z; sent : payload }.

(** [res.status(code).json(body)], [res.json(body)], [res.sendStatus(code)] *)
Definition res_status_json (code : Z) (body : payload) : Response :=
  {| status := code; sent := body |}.
Definition res_json (body : payload) : Response := res_status_json 200 body.
Definition res_sendStatus (code : Z) : Response := {| status := code; sent := status_text |}.

(** A handler's [try { ... } catch (err) { return res.status(400).json({
    message: err.message }) }]: the statement that threw changed nothing. *)
Definition catch (db : Db) (r : result (Db * Response)) : Db * Response :=
  match r with
  | Ok done => done
  | Throw err => (db, res_status_json 400 (error_message err))
  end.

(** A middleware answers, or calls [next()] with [req.user] set. *)
Inductive middleware : Type :=
| Respond (r : Response)
| Next (user : JwtPayload).

Section Server.
Context `{Env}.

(** [authHeader && authHeader.split(" ")[1]] *)
Definition token_of (authHeader : option string) : option string :=
  match authHeader with
  | None => None
  | Some EmptyString => Some EmptyString
  | Some header => nth_error (split " " header) 1
  end.

Definition authenticateToken (authHeader : option string) (now : Z) : middleware :=
  match token_of authHeader with
  | None | Some EmptyString => Respond (res_sendStatus 401)
  | Some token =>
      match jwt_verify token JWT_SECRET now with
      | inl _ => Respond (res_sendStatus 403)
      | inr user => Next user
      end
  end.

(** [app.METHOD(path, authenticateToken, handler)] *)
Definition protected (authHeader : option string) (now : Z) (db : Db)
    (handler : JwtPayload -> Db * Response) : Db * Response :=
  match authenticateToken authHeader now with
  | Respond r => (db, r)
  | Next user => handler user
  end.

(** [SELECT * FROM users WHERE username=$1 OR email=$1] *)
Definition users_by_login (identifier : string) (table : list User.t) : list User.t :=
  filter (fun u => String.eqb (User.username u) identifier
                   || String.eqb (User.email u) identifier) table.

(** *** POST /api/auth/login *)
Definition post_auth_login (db : Db) (body : object) (now : Z) : Db * Response :=
  catch db (
    input <- loginSchema body ;;
    let username := LoginInput.username input in
    let password := LoginInput.password input in
    match users_by_login username (users db) with
    | [] => Ok (db, res_status_json 401 (message "Authentication failed"))
    | userRecord :: _ =>
        if bcrypt_compare password (User.password_hash userRecord) then
          let token := jwt_sign {| jwt_id := User.id userRecord;
                                   jwt_role := User.role userRecord |}
                                JWT_SECRET 3600 now in
          Ok (db, res_json (token_and_user token userRecord))
        else Ok (db, res_status_json 401 (message "Authentication failed"))
    end).

(** [req.query] as the query-string parser leaves it: every value a string. *)
Definition query_object (query : list (string * string)) : object :=
  map (fun kv => (fst kv, JStr (snd kv))) query.

Definition user_column (name : string) : option (User.t -> string) :=
  let name := toLowerCase name in
  if String.eqb name "id" then Some User.id
  else if String.eqb name "username" then Some User.username
  else if String.eqb name "email" then Some User.email
  else if String.eqb name "password_hash" then Some User.password_hash
  else if String.eqb name "role" then Some User.role
  else if String.eqb name "created_at" then Some User.created_at
  else if String.eqb name "updated_at" then Some User.updated_at
  else None.

Definition client_column (name : string) : option (Client.t -> string) :=
  let name := toLowerCase name in
  if String.eqb name "id" then Some Client.id
  else if String.eqb name "first_name" then Some Client.first_name
  else if String.eqb name "last_name" then Some Client.last_name
  else if String.eqb name "email" then Some Client.email
  else if String.eqb name "phone" then Some Client.phone
  else if String.eqb name "address" then Some Client.address
  else if String.eqb name "status" then Some Client.status
  else if String.eqb name "created_at" then Some Client.created_at
  else if String.eqb name "updated_at" then Some Client.updated_at
  else None.

(** *** GET /api/users *)
Definition get_users (db : Db) (user : JwtPayload) (query : list (string * string))
    : Db * Response :=
  if negb (String.eqb (jwt_role user) "admin") && negb (String.eqb (jwt_role user) "manager")
  then (db, res_status_json 403 (message "Forbidden"))
  else catch db (
    queryParams <- searchUserInputSchema (query_object query) ;;
    let matching :=
      match truthy (SearchInput.query queryParams) with
      | Some q => filter (fun u => ilike (User.username u) ("%" ++ q ++ "%")
                                   || ilike (User.email u) ("%" ++ q ++ "%")) (users db)
      | None => users db
      end in
    sorted <- Pg.order_by (user_column (SearchInput.sort_by queryParams))
                          (SearchInput.sort_order queryParams) matching ;;
    rows <- Pg.limit_offset (SearchInput.limit queryParams)
                            (SearchInput.offset queryParams) sorted ;;
    Ok (db, res_json (user_rows rows))).

(** *** GET /api/users/:id *)
Definition get_users_id (db : Db) (id : string) : Db * Response :=
  match Pg.where_id User.id id (users db) with
  | [] => (db, res_status_json 404 (message "User not found"))
  | row :: _ => (db, res_json (user_row row))
  end.

(** Whether a row of another table names this user by a foreign key. *)
Definition user_referenced (db : Db) (id : string) : bool :=
  existsb (fun a => String.eqb (Appointment.agent_id a) id) (appointments db)
  || existsb (fun l => String.eqb (CommunicationLog.user_id l) id) (communication_logs db)
  || existsb (fun s => String.eqb (UserSettings.user_id s) id) (user_settings db).

(** *** DELETE /api/users/:id *)
Definition delete_users_id (db : Db) (user : JwtPayload) (id : string) : Db * Response :=
  if negb (String.eqb (jwt_role user) "admin")
  then (db, res_status_json 403 (message "Forbidden"))
  else catch db (
    ' (table, rows) <- Pg.delete_returning User.id (user_referenced db id) id (users db) ;;
    match rows with
    | [] => Ok (with_users db table, res_status_json 404 (message "User not found"))
    | _ => Ok (with_users db table, res_json (message "User deleted successfully"))
    end).

(** *** GET /api/clients *)
Definition get_clients (db : Db) (query : list (string * string)) : Db * Response :=
  catch db (
    queryParams <- searchClientInputSchema (query_object query) ;;
    let matching :=
      match truthy (SearchInput.query queryParams) with
      | Some q => filter (fun c => ilike (Client.first_name c) ("%" ++ q ++ "%")
                                   || ilike (Client.last_name c) ("%" ++ q ++ "%")
                                   || ilike (Client.email c) ("%" ++ q ++ "%")) (clients db)
      | None => clients db
      end in
    sorted <- Pg.order_by (client_column (SearchInput.sort_by queryParams))
                          (SearchInput.sort_order queryParams) matching ;;
    rows <- Pg.limit_offset (SearchInput.limit queryParams)
                            (SearchInput.offset queryParams) sorted ;;
    Ok (db, res_json (client_rows rows))).

(** *** GET /api/clients/:id *)
Definition get_clients_id (db : Db) (id : string) : Db * Response :=
  match Pg.where_id Client.id id (clients db) with
  | [] => (db, res_status_json 404 (message "Client not found"))
  | row :: _ => (db, res_json (client_row row))
  end.

(** [if (v) { fields.push(...); values.push(v) }] *)
Definition push_if {A B : Type} (v : option A) (field : A -> B) : list B :=
  match v with
  | Some a => [field a]
  | None => []
  end.

(** The value when there is one, and a fallback otherwise. *)
Definition or_else {A : Type} (o : option A) (a : A) : A :=
  match o with
  | Some x => x
  | None => a
  end.

(** A nullable value as the parameter it becomes. *)
Definition or_null (v : option json) : json :=
  match v with
  | Some j => j
  | None => JNull
  end.

(** *** PUT /api/clients/:id *)
Definition put_clients_id (db : Db) (id : string) (body : object) (now : string)
    : Db * Response :=
  catch db (
    parsed <- updateClientInputSchema (spread "id" (JStr id) body) ;;
    let fields :=
      push_if (truthy (UpdateClientInput.first_name parsed)) ClientSet.first_name
      ++ push_if (truthy (UpdateClientInput.last_name parsed)) ClientSet.last_name
      ++ push_if (truthy (UpdateClientInput.email parsed)) ClientSet.email
      ++ push_if (truthy (UpdateClientInput.phone parsed)) ClientSet.phone
      ++ push_if (truthy (UpdateClientInput.address parsed)) ClientSet.address
      ++ push_if (truthy (UpdateClientInput.status parsed)) ClientSet.status
      ++ push_if (UpdateClientInput.additional_details parsed)
                 (fun v => ClientSet.additional_details (or_null v))
      ++ [ClientSet.updated_at now] in
    ' (table, rows) <- Pg.update_returning Client.id ClientSet.convert ClientSet.assign
                         fields id (clients db) ;;
    match rows with
    | [] => Ok (with_clients db table, res_status_json 404 (message "Client not found"))
    | row :: _ => Ok (with_clients db table, res_json (client_row row))
    end).

(** What the SET list of PUT /api/clients/:id amounts to on a row, given
    the parsed body, the converted [additional_details] and the clock. *)
Definition merged (parsed : UpdateClientInput.t) (details : option json) (now : string)
    (c : Client.t) : Client.t :=
  Client.Build_t (Client.id c)
    (or_else (UpdateClientInput.first_name parsed) (Client.first_name c))
    (or_else (UpdateClientInput.last_name parsed) (Client.last_name c))
    (or_else (UpdateClientInput.email parsed) (Client.email c))
    (or_else (UpdateClientInput.phone parsed) (Client.phone c))
    (or_else (UpdateClientInput.address parsed) (Client.address c))
    (or_else (UpdateClientInput.status parsed) (Client.status c))
    (or_else details (Client.additional_details c))
    (Client.created_at c) now.

(** Whether a row of another table names this client by a foreign key. *)
Definition client_referenced (db : Db) (id : string) : bool :=
  existsb (fun i => String.eqb (ClientPropertyInterest.client_id i) id)
          (client_property_interests db)
  || existsb (fun a => String.eqb (Appointment.client_id a) id) (appointments db)
  || existsb (fun l => String.eqb (CommunicationLog.client_id l) id) (communication_logs db)
  || existsb (fun d => String.eqb (ClientDocument.client_id d) id) (client_documents db).

(** *** DELETE /api/clients/:id *)
Definition delete_clients_id (db : Db) (id : string) : Db * Response :=
  catch db (
    ' (table, rows) <- Pg.delete_returning Client.id (client_referenced db id) id (clients db) ;;
    match rows with
    | [] => Ok (with_clients db table, res_status_json 404 (message "Client not found"))
    | _ => Ok (with_clients db table, res_json (message "Client deleted successfully"))
    end).

(** [Object.keys] and [Object.values] of a client row, in column order. *)
Definition client_keys : list string :=
  ["id"; "first_name"; "last_name"; "email"; "phone"; "address"; "status";
   "additional_details"; "created_at"; "updated_at"].

Definition client_values (c : Client.t) : list string :=
  [Client.id c; Client.first_name c; Client.last_name c; Client.email c;
   Client.phone c; Client.address c; Client.status c;
   text (Client.additional_details c); Client.created_at c; Client.updated_at c].

(** *** GET /api/clients/export *)
Definition get_clients_export (db : Db) (user : JwtPayload) : Db * Response :=
  if negb (String.eqb (jwt_role user) "admin") && negb (String.eqb (jwt_role user) "support")
  then (db, res_status_json 403 (message "Forbidden"))
  else
    match clients db with
    | [] => (db, res_status_json 404 (message "No clients found for export"))
    | _ =>
        let header := join "," client_keys in
        let rows := join LF (map (fun c => join "," (client_values c)) (clients db)) in
        (db, res_json (csv_attachment (header ++ LF ++ rows)))
    end.

(** *** PUT /api/client-property-interests/:id *)
Definition put_client_property_interests_id (db : Db) (id : string) (body : object)
    : Db * Response :=
  catch db (
    parsed <- updateClientPropertyInterestInputSchema (spread "id" (JStr id) body) ;;
    let fields :=
      push_if (truthy (UpdateClientPropertyInterestInput.property_type parsed))
              ClientPropertyInterestSet.property_type
      ++ push_if (truthy (UpdateClientPropertyInterestInput.preferred_location parsed))
                 ClientPropertyInterestSet.preferred_location
      ++ push_if (UpdateClientPropertyInterestInput.price_min parsed)
                 ClientPropertyInterestSet.price_min
      ++ push_if (UpdateClientPropertyInterestInput.price_max parsed)
                 ClientPropertyInterestSet.price_max
      ++ push_if (UpdateClientPropertyInterestInput.additional_notes parsed)
                 ClientPropertyInterestSet.additional_notes in
    ' (table, rows) <- Pg.update_returning ClientPropertyInterest.id Ok
                         ClientPropertyInterestSet.assign fields id
                         (client_property_interests db) ;;
    match rows with
    | [] => Ok (with_client_property_interests db table,
                res_status_json 404 (message "Record not found"))
    | row :: _ => Ok (with_client_property_interests db table, res_json (interest_row row))
    end).

(** *** PUT /api/communication-logs/:id *)
Definition put_communication_logs_id (db : Db) (id : string) (body : object)
    : Db * Response :=
  catch db (
    parsed <- updateCommunicationLogInputSchema (spread "id" (JStr id) body) ;;
    let fields :=
      push_if (truthy (UpdateCommunicationLogInput.communication_type parsed))
              CommunicationLogSet.communication_type
      ++ push_if (truthy (UpdateCommunicationLogInput.note parsed)) CommunicationLogSet.note
      ++ push_if (UpdateCommunicationLogInput.follow_up_flag parsed)
                 CommunicationLogSet.follow_up_flag
      ++ push_if (UpdateCommunicationLogInput.timestamp parsed)
                 CommunicationLogSet.timestamp in
    ' (table, rows) <- Pg.update_returning CommunicationLog.id Ok
                         CommunicationLogSet.assign fields id (communication_logs db) ;;
    match rows with
    | [] => Ok (with_communication_logs db table,
                res_status_json 404 (message "Log not found"))
    | row :: _ => Ok (with_communication_logs db table, res_json (log_row row))
    end).

(** *** PUT /api/client-documents/:id *)
Definition put_client_documents_id (db : Db) (id : string) (body : object)
    : Db * Response :=
  catch db (
    parsed <- updateClientDocumentInputSchema (spread "id" (JStr id) body) ;;
    let fields :=
      push_if (truthy (UpdateClientDocumentInput.document_name parsed))
              ClientDocumentSet.document_name
      ++ push_if (truthy (UpdateClientDocumentInput.document_url parsed))
                 ClientDocumentSet.document_url
      ++ push_if (truthy (UpdateClientDocumentInput.document_type parsed))
                 ClientDocumentSet.document_type in
    ' (table, rows) <- Pg.update_returning ClientDocument.id Ok
                         ClientDocumentSet.assign fields id (client_documents db) ;;
    match rows with
    | [] => Ok (with_client_documents db table,
                res_status_json 404 (message "Document not found"))
    | row :: _ => Ok (with_client_documents db table, res_json (document_row row))
    end).

(** Whether an appointment names this property by its foreign key. *)
Definition property_referenced (db : Db) (id : string) : bool :=
  existsb (fun a => match Appointment.property_id a with
                    | Some p => String.eqb p id
                    | None => false
                    end) (appointments db).

(** *** DELETE /api/client-property-interests/:id *)
Definition delete_client_property_interests_id (db : Db) (id : string) : Db * Response :=
  catch db (
    ' (table, rows) <- Pg.delete_returning ClientPropertyInterest.id false id
                         (client_property_interests db) ;;
    match rows with
    | [] => Ok (with_client_property_interests db table,
                res_status_json 404 (message "Record not found"))
    | _ => Ok (with_client_property_interests db table,
               res_json (message "Record deleted successfully"))
    end).

(** *** DELETE /api/properties/:id *)
Definition delete_properties_id (db : Db) (id : string) : Db * Response :=
  catch db (
    ' (table, rows) <- Pg.delete_returning Property.id (property_referenced db id) id
                         (properties db) ;;
    match rows with
    | [] => Ok (with_properties db table, res_status_json 404 (message "Property not found"))
    | _ => Ok (with_properties db table, res_json (message "Property deleted successfully"))
    end).

(** *** DELETE /api/appointments/:id *)
Definition delete_appointments_id (db : Db) (id : string) : Db * Response :=
  catch db (
    ' (table, rows) <- Pg.delete_returning Appointment.id false id (appointments db) ;;
    match rows with
    | [] => Ok (with_appointments db table,
                res_status_json 404 (message "Appointment not found"))
    | _ => Ok (with_appointments db table,
               res_json (message "Appointment deleted successfully"))
    end).

(** *** DELETE /api/communication-logs/:id *)
Definition delete_communication_logs_id (db : Db) (id : string) : Db * Response :=
  catch db (
    ' (table, rows) <- Pg.delete_returning CommunicationLog.id false id
                         (communication_logs db) ;;
    match rows with
    | [] => Ok (with_communication_logs db table,
                res_status_json 404 (message "Log not found"))
    | _ => Ok (with_communication_logs db table,
               res_json (message "Communication log deleted successfully"))
    end).

(** *** DELETE /api/client-documents/:id *)
Definition delete_client_documents_id (db : Db) (id : string) : Db * Response :=
  catch db (
    ' (table, rows) <- Pg.delete_returning ClientDocument.id false id (client_documents db) ;;
    match rows with
    | [] => Ok (with_client_documents db table,
                res_status_json 404 (message "Document not found"))
    | _ => Ok (with_client_documents db table,
               res_json (message "Client document deleted successfully"))
    end).

End Server.

(** ** Routing

    Express tries the routes in the order [server.ts] registers them and runs
    the first whose method and path match; every handler here answers without
    calling [next()], so no later route sees the request. *)

Inductive Method : Type := GET | POST | PUT | DELETE.

Definition Method_eqb (a b : Method) : bool :=
  match a, b with
  | GET, GET | POST, POST | PUT, PUT | DELETE, DELETE => true
  | _, _ => false
  end.

(** A path is the list of its non-empty segments. *)
Inductive segment : Type :=
| lit (name : string)
| param (name : string).

Inductive pattern : Type :=
| segments (l : list segment)
| anything.

(** The routes of [server.ts]. *)
Inductive route : Type :=
| auth_login | auth_logout | auth_forgot_password
| users_create | users_list | users_get | users_update | users_delete
| clients_create | clients_list | clients_get | clients_update | clients_delete
| clients_import | clients_export
| interests_create | interests_list | interests_get | interests_update | interests_delete
| properties_create | properties_list | properties_get | properties_update
| properties_delete
| appointments_create | appointments_list | appointments_get | appointments_update
| appointments_delete
| logs_create | logs_list | logs_get | logs_update | logs_delete
| documents_create | documents_list | documents_get | documents_update | documents_delete
| settings_get | settings_update
| single_page_app.

Definition collection (name : string) : pattern := segments [lit "api"; lit name].
Definition item (name : string) : pattern := segments [lit "api"; lit name; param "id"].

(** In registration order. *)
Definition routes : list (Method * pattern * route) :=
  [ (POST, segments [lit "api"; lit "auth"; lit "login"], auth_login);
    (POST, segments [lit "api"; lit "auth"; lit "logout"], auth_logout);
    (POST, segments [lit "api"; lit "auth"; lit "forgot-password"], auth_forgot_password);
    (POST, collection "users", users_create);
    (GET, collection "users", users_list);
    (GET, item "users", users_get);
    (PUT, item "users", users_update);
    (DELETE, item "users", users_delete);
    (POST, collection "clients", clients_create);
    (GET, collection "clients", clients_list);
    (GET, item "clients", clients_get);
    (PUT, item "clients", clients_update);
    (DELETE, item "clients", clients_delete);
    (POST, segments [lit "api"; lit "clients"; lit "import"], clients_import);
    (GET, segments [lit "api"; lit "clients"; lit "export"], clients_export);
    (POST, collection "client-property-interests", interests_create);
    (GET, collection "client-property-interests", interests_list);
    (GET, item "client-property-interests", interests_get);
    (PUT, item "client-property-interests", interests_update);
    (DELETE, item "client-property-interests", interests_delete);
    (POST, collection "properties", properties_create);
    (GET, collection "properties", properties_list);
    (GET, item "properties", properties_get);
    (PUT, item "properties", properties_update);
    (DELETE, item "properties", properties_delete);
    (POST, collection "appointments", appointments_create);
    (GET, collection "appointments", appointments_list);
    (GET, item "appointments", appointments_get);
    (PUT, item "appointments", appointments_update);
    (DELETE, item "appointments", appointments_delete);
    (POST, collection "communication-logs", logs_create);
    (GET, collection "communication-logs", logs_list);
    (GET, item "communication-logs", logs_get);
    (PUT, item "communication-logs", logs_update);
    (DELETE, item "communication-logs", logs_delete);
    (POST, collection "client-documents", documents_create);
    (GET, collection "client-documents", documents_list);
    (GET, item "client-documents", documents_get);
    (PUT, item "client-documents", documents_update);
    (DELETE, item "client-documents", documents_delete);
    (GET, segments [lit "api"; lit "user-settings"; param "user_id"], settings_get);
    (PUT, segments [lit "api"; lit "user-settings"; param "id"], settings_update);
    (GET, anything, single_page_app) ].

(** A literal segment matches whatever its case, a parameter any segment;
    the match binds [req.params]. *)
Fixpoint match_segments (pat : list segment) (path : list string)
    : option (list (string * string)) :=
  match pat, path with
  | [], [] => Some []
  | lit name :: pat', s :: path' =>
      if String.eqb (toLowerCase name) (toLowerCase s) then match_segments pat' path'
      else None
  | param name :: pat', s :: path' =>
      match match_segments pat' path' with
      | Some params => Some ((name, s) :: params)
      | None => None
      end
  | _, _ => None
  end.

Definition match_pattern (pat : pattern) (path : list string)
    : option (list (string * string)) :=
  match pat with
  | segments l => match_segments l path
  | anything => Some []
  end.

(** The first route that takes the request, with its [req.params]. *)
Fixpoint first_match (table : list (Method * pattern * route)) (m : Method)
    (path : list string) : option (route * list (string * string)) :=
  match table with
  | [] => None
  | (m', pat, r) :: rest =>
      if Method_eqb m m' then
        match match_pattern pat path with
        | Some params => Some (r, params)
        | None => first_match rest m path
        end
      else first_match rest m path
  end.

Definition dispatch : Method -> list string -> option (route * list (string * string)) :=
  first_match routes.

Record Request : Type := {
  method : Method;
  path : list string;
  authorization : option string;
  query : list (string * string);
  body : object }.

(** The clock: [Date.now()] in seconds, and [new Date().toISOString()]. *)
Record Clock : Type := { seconds : Z; toISOString : string }.

Definition req_param (name : string) (params : list (string * string)) : string :=
  match find (fun kv => String.eqb (fst kv) name) params with
  | Some kv => snd kv
  | None => EmptyString
  end.

(** The application on one request. [None]: the request went to a route
    whose handler this development does not cover, or to none. *)
Definition app `{Env} (db : Db) (req : Request) (clock : Clock) : option (Db * Response) :=
  let guarded := protected (authorization req) (seconds clock) db in
  match dispatch (method req) (path req) with
  | Some (auth_login, _) => Some (post_auth_login db (body req) (seconds clock))
  | Some (users_list, _) => Some (guarded (fun user => get_users db user (query req)))
  | Some (users_get, params) => Some (guarded (fun _ => get_users_id db (req_param "id" params)))
  | Some (users_delete, params) =>
      Some (guarded (fun user => delete_users_id db user (req_param "id" params)))
  | Some (clients_list, _) => Some (guarded (fun _ => get_clients db (query req)))
  | Some (clients_get, params) =>
      Some (guarded (fun _ => get_clients_id db (req_param "id" params)))
  | Some (clients_update, params) =>
      Some (guarded (fun _ => put_clients_id db (req_param "id" params) (body req)
                                (toISOString clock)))
  | Some (clients_delete, params) =>
      Some (guarded (fun _ => delete_clients_id db (req_param "id" params)))
  | Some (clients_export, _) => Some (guarded (fun user => get_clients_export db user))
  | Some (interests_update, params) =>
      Some (guarded (fun _ => put_client_property_interests_id db (req_param "id" params)
                                (body req)))
  | Some (interests_delete, params) =>
      Some (guarded (fun _ => delete_client_property_interests_id db (req_param "id" params)))
  | Some (properties_delete, params) =>
      Some (guarded (fun _ => delete_properties_id db (req_param "id" params)))
  | Some (appointments_delete, params) =>
      Some (guarded (fun _ => delete_appointments_id db (req_param "id" params)))
  | Some (logs_update, params) =>
      Some (guarded (fun _ => put_communication_logs_id db (req_param "id" params) (body req)))
  | Some (logs_delete, params) =>
      Some (guarded (fun _ => delete_communication_logs_id db (req_param "id" params)))
  | Some (documents_update, params) =>
      Some (guarded (fun _ => put_client_documents_id db (req_param "id" params) (body req)))
  | Some (documents_delete, params) =>
      Some (guarded (fun _ => delete_client_documents_id db (req_param "id" params)))
  | _ => None
  end.

(** ** A reference environment and the seed data of [db.sql]

    A small, executable stand-in for each library of [Env], so that the
    handlers can be run on concrete requests; and the rows [db.sql] inserts. *)

Module Demo.

Definition bit (b : bool) : ascii := if b then "1"%char else "0"%char.

(** A string as the bits of its characters: a stand-in for base64url. *)
Fixpoint encode (s : string) : string :=
  match s with
  | EmptyString => EmptyString
  | String (Ascii b0 b1 b2 b3 b4 b5 b6 b7) rest =>
      String (bit b0) (String (bit b1) (String (bit b2) (String (bit b3)
        (String (bit b4) (String (bit b5) (String (bit b6) (String (bit b7)
          (encode rest))))))))
  end.

Definition unbit (c : ascii) : option bool :=
  if Ascii.eqb c "1" then Some true
  else if Ascii.eqb c "0" then Some false
  else None.

Fixpoint decode (s : string) : option string :=
  match s with
  | EmptyString => Some EmptyString
  | String c0 (String c1 (String c2 (String c3
      (String c4 (String c5 (String c6 (String c7 rest))))))) =>
      match unbit c0, unbit c1, unbit c2, unbit c3,
            unbit c4, unbit c5, unbit c6, unbit c7, decode rest with
      | Some b0, Some b1, Some b2, Some b3, Some b4, Some b5, Some b6, Some b7, Some r =>
          Some (String (Ascii b0 b1 b2 b3 b4 b5 b6 b7) r)
      | _, _, _, _, _, _, _, _, _ => None
      end
  | _ => None
  end.

Fixpoint encode_positive (p : positive) : string :=
  match p with
  | xH => EmptyString
  | xO q => String "0" (encode_positive q)
  | xI q => String "1" (encode_positive q)
  end.

Fixpoint decode_positive (s : string) : option positive :=
  match s with
  | EmptyString => Some xH
  | String c rest =>
      match unbit c, decode_positive rest with
      | Some true, Some q => Some (xI q)
      | Some false, Some q => Some (xO q)
      | _, _ => None
      end
  end.

Definition encode_Z (n : Z) : string :=
  match n with
  | Z0 => "z"
  | Zpos p => String "p" (encode_positive p)
  | Zneg p => String "n" (encode_positive p)
  end.

Definition decode_Z (s : string) : option Z :=
  match s with
  | String c rest =>
      if Ascii.eqb c "z" then match rest with EmptyString => Some Z0 | _ => None end
      else if Ascii.eqb c "p" then option_map Zpos (decode_positive rest)
      else if Ascii.eqb c "n" then option_map Zneg (decode_positive rest)
      else None
  | EmptyString => None
  end.

(** A token names its subject, its role, the key it was signed with and the
    second it expires at. *)
Definition sign (p : JwtPayload) (key : string) (expiresIn now : Z) : string :=
  encode (jwt_id p) ++ "." ++ encode (jwt_role p) ++ "." ++ encode key
  ++ "." ++ encode_Z (now + expiresIn).

Definition verify (token key : string) (now : Z) : JwtError + JwtPayload :=
  match split "." token with
  | [a; b; c; d] =>
      match decode a, decode b, decode c, decode_Z d with
      | Some id, Some role, Some signer, Some exp =>
          if String.eqb signer key then
            if (now <? exp)%Z then inr {| jwt_id := id; jwt_role := role |}
            else inl TokenExpiredError
          else inl JsonWebTokenError
      | _, _, _, _ => inl JsonWebTokenError
      end
  | _ => inl JsonWebTokenError
  end.

Fixpoint has_at (s : string) : bool :=
  match s with
  | EmptyString => false
  | String c rest => Ascii.eqb c "@" || has_at rest
  end.

Fixpoint contains (needle hay : string) : bool :=
  String.prefix needle hay ||
  match hay with
  | EmptyString => false
  | String _ rest => contains needle rest
  end.

(** The pattern [%q%], for a [q] without wildcards. *)
Definition strip (pat : string) : string :=
  match pat with
  | String _ rest => String.substring 0 (String.length rest - 1) rest
  | EmptyString => EmptyString
  end.

#[export] Instance env : Env := {|
  JWT_SECRET := "your_jwt_secret";
  jwt_sign := sign;
  jwt_verify := verify;
  bcrypt_compare := fun password hash => String.eqb hash ("hash_" ++ password);
  is_email := has_at;
  is_url := String.prefix "http";
  coerce_date := fun v => match v with
                          | JStr (String c s) => Some (String c s)
                          | _ => None
                          end;
  pg_json_in := fun v => match v with
                         | JStr _ | JArr _ => None
                         | _ => Some v
                         end;
  ilike := fun value pat => contains (toLowerCase (strip pat)) (toLowerCase value);
  text_leb := String.leb
|}.

Definition user (id username email password_hash role at_ : string) : User.t :=
  User.Build_t id username email password_hash role at_ at_.

Definition seed_users : list User.t :=
  [ user "u1" "admin_user" "admin@estatehub.co.uk" "hash_admin" "admin" "2023-10-01T12:00:00";
    user "u2" "agent_john" "john.doe@estatehub.co.uk" "hash_john" "agent" "2023-10-02T09:00:00";
    user "u3" "agent_jane" "jane.smith@estatehub.co.uk" "hash_jane" "agent" "2023-10-03T10:00:00";
    user "u4" "support_sam" "sam.support@estatehub.co.uk" "hash_sam" "support" "2023-10-04T08:30:00";
    user "u5" "manager_mike" "mike.manager@estatehub.co.uk" "hash_mike" "manager" "2023-10-05T11:15:00" ].

Definition alice : Client.t :=
  Client.Build_t "c1" "Alice" "Wonderland" "alice@sample.co.uk" "07123456789"
    "123 Baker Street, London, UK" "active" (JObj [("preferred_contact", JStr "email")])
    "2023-10-01T13:00:00" "2023-10-01T13:00:00".

Definition bob : Client.t :=
  Client.Build_t "c2" "Bob" "Builder" "bob.builder@sample.co.uk" "07987654321"
    "456 High Street, Manchester, UK" "prospective" JNull
    "2023-10-02T14:00:00" "2023-10-02T14:00:00".

Definition charlie : Client.t :=
  Client.Build_t "c3" "Charlie" "Chaplin" "charlie.chaplin@sample.co.uk" "07894561234"
    "789 Low Street, Birmingham, UK" "active" (JObj [("interest", JStr "commercial")])
    "2023-10-03T15:00:00" "2023-10-03T15:00:00".

Definition seed : Db := {|
  users := seed_users;
  clients := [alice; bob; charlie];
  client_property_interests :=
    [ ClientPropertyInterest.Build_t "cpi1" "c1" "residential" "London"
        (Some 500000%Z) (Some 1000000%Z) (Some "Looking for modern apartment")
        "2023-10-02T12:00:00";
      ClientPropertyInterest.Build_t "cpi2" "c2" "commercial" "Manchester"
        (Some 200000%Z) (Some 500000%Z) (Some "Need space for small business")
        "2023-10-03T16:30:00" ];
  properties :=
    [ Property.Build_t "p1" "10 Downing Street, London, UK" "residential" 750000
        "for sale" (Some "Historic building with modern amenities")
        "2023-10-04T10:00:00" "2023-10-04T10:00:00";
      Property.Build_t "p2" "1 King Street, Manchester, UK" "commercial" 350000
        "sold" (Some "Prime location for business")
        "2023-10-05T11:00:00" "2023-10-05T11:00:00" ];
  appointments :=
    [ Appointment.Build_t "a1" "c1" (Some "p1") "u2" "2023-10-05" "14:00"
        (Some "Initial viewing appointment") true
        "2023-10-04T11:00:00" "2023-10-04T11:00:00";
      Appointment.Build_t "a2" "c2" None "u3" "2023-10-06" "16:00"
        (Some "Discuss property requirements") false
        "2023-10-05T12:00:00" "2023-10-05T12:00:00" ];
  communication_logs :=
    [ CommunicationLog.Build_t "cl1" "c1" "u2" "email" "Sent property brochure" false
        "2023-10-02T10:00:00";
      CommunicationLog.Build_t "cl2" "c2" "u3" "call"
        "Left voicemail regarding appointment" true "2023-10-03T11:30:00";
      CommunicationLog.Build_t "cl3" "c1" "u4" "meeting" "Discussed financing options" true
        "2023-10-04T09:00:00" ];
  client_documents :=
    [ ClientDocument.Build_t "cd1" "c1" "ID Proof"
        "https://picsum.photos/seed/id1/300/200" "id" "2023-10-02T14:00:00";
      ClientDocument.Build_t "cd2" "c2" "Contract"
        "https://picsum.photos/seed/contract1/300/200" "contract" "2023-10-03T15:30:00" ];
  user_settings :=
    [ UserSettings.Build_t "us1" "u1"
        (JObj [("theme", JStr "dark"); ("layout", JStr "grid")])
        (JObj [("email", JBool true); ("in_app", JBool true)])
        (JObj [("language", JStr "en-UK")]) "2023-10-01T14:00:00";
      UserSettings.Build_t "us2" "u2"
        (JObj [("theme", JStr "light"); ("layout", JStr "list")])
        (JObj [("email", JBool false); ("in_app", JBool true)])
        (JObj [("language", JStr "en-UK")]) "2023-10-02T15:00:00" ]
|}.

(** The seed data with nothing but its clients. *)
Definition clients_only : Db := {|
  users := seed_users; clients := [alice; bob; charlie];
  client_property_interests := []; properties := []; appointments := [];
  communication_logs := []; client_documents := []; user_settings := [] |}.

End Demo.

(** ** Concrete requests on the seed data *)

Definition request (m : Method) (p : list string) (auth : option string)
    (q : list (string * string)) (b : object) : Request :=
  {| method := m; path := p; authorization := auth; query := q; body := b |}.

Definition admin_u1 : JwtPayload := {| jwt_id := "u1"; jwt_role := "admin" |}.
Definition agent_u2 : JwtPayload := {| jwt_id := "u2"; jwt_role := "agent" |}.
Definition support_u4 : JwtPayload := {| jwt_id := "u4"; jwt_role := "support" |}.

(** A token signed at second 0, and the header that carries it. *)
Definition bearer (p : JwtPayload) : option string :=
  Some ("Bearer " ++ Demo.sign p "your_jwt_secret" 3600 0)%string.

(** Two readings of the clock. *)
Definition noon : Clock := {| seconds := 60; toISOString := "2024-05-01T12:00:00.000Z" |}.
Definition first_of_may : string := "2024-05-01T09:00:00.000Z".

Definition john : User.t :=
  Demo.user "u2" "agent_john" "john.doe@estatehub.co.uk" "hash_john" "agent"
    "2023-10-02T09:00:00".

Definition credentials (identifier password : string) : object :=
  [("username", JStr identifier); ("password", JStr password)].

Definition alice_prospective : Client.t :=
  Client.Build_t "c1" "Alice" "Wonderland" "alice@sample.co.uk" "07123456789"
    "123 Baker Street, London, UK" "prospective"
    (JObj [("preferred_contact", JStr "email")]) "2023-10-01T13:00:00" first_of_may.

Definition rename_alice : object :=
  [("first_name", JStr "Alicia"); ("additional_details", JNull)].

(** * The rest of the API

    The handlers of [server.ts] that the first part leaves out, on the same
    tables and schemas. *)

(** ** What else a handler can catch *)

Inductive exception : Type :=
| Raised (e : error)
| unique_violation
| not_null_violation
| TypeError
| ReadError.

Inductive attempt (A : Type) : Type :=
| Done (a : A)
| Raise (x : exception).
Arguments Done {A} a.
Arguments Raise {A} x.

Definition and_then {A B : Type} (r : attempt A) (k : A -> attempt B) : attempt B :=
  match r with
  | Done a => k a
  | Raise x => Raise x
  end.

Definition attempted {A : Type} (r : result A) : attempt A :=
  match r with
  | Ok a => Done a
  | Throw e => Raise (Raised e)
  end.

Declare Scope attempt_scope.
Delimit Scope attempt_scope with attempt.
Notation "x <-- c ;; k" := (and_then c (fun x => k))
  (at level 61, c at next level, right associativity) : attempt_scope.
Notation "' pat <-- c ;; k" := (and_then c (fun x => match x with pat => k end))
  (at level 61, pat pattern, c at next level, right associativity) : attempt_scope.
Local Open Scope attempt_scope.

(** What a request brings besides its text: the identifier [uuidv4()] mints
    for it, the salt [bcrypt.hash] draws, and the path of the file multer
    stored, if one was uploaded. *)
Record Runtime : Type := { uuidv4 : string; salt : string; file : option string }.

(** The libraries the remaining handlers call. *)
Class Services : Type := {
  (** [bcrypt.hash(password, rounds)], with the salt it draws *)
  bcrypt_hash : string -> Z -> string -> string;
  (** the JSON column value that the parameter [JSON.stringify(v)] becomes;
      [None] is "invalid input syntax for type json" *)
  stringified_json_in : json -> option json;
  (** [XLSX.utils.sheet_to_json] of the first sheet of [XLSX.readFile(path)];
      [None] when the file cannot be read *)
  sheet_to_json : string -> option (list object)
}.

(** What the code relies on from bcryptjs, and from [JSON.stringify], whose
    text the database always reads back as JSON. *)
Class ServicesLaws (E : Env) (S : Services) : Prop := {
  bcrypt_compare_hash : forall password rounds salt,
    bcrypt_compare password (bcrypt_hash password rounds salt) = true;
  stringified_json_in_accepts : forall v, stringified_json_in v <> None
}.

(** ** More of JavaScript *)

Module JsMore.

(** Truthiness of a JSON value. *)
Definition truthy_json (v : json) : bool :=
  match v with
  | JNull => false
  | JBool b => b
  | JNum n => negb (Z.eqb n 0)
  | JStr s => negb (String.eqb s "")
  | JArr _ | JObj _ => true
  end.

(** [v || null] for a string that may be [undefined] or [null]. *)
Definition string_or_null (v : option (option string)) : option string :=
  match v with
  | Some (Some s) => truthy (Some s)
  | _ => None
  end.

(** [v || null] for any value that may be [undefined] or [null]. *)
Definition json_or_null (v : option (option json)) : json :=
  match v with
  | Some (Some j) => if truthy_json j then j else JNull
  | _ => JNull
  end.

(** A query parameter that may be [undefined] or [null], as the driver
    sends it: both are NULL. *)
Definition nullable {A : Type} (v : option (option A)) : option A :=
  match v with
  | Some (Some a) => Some a
  | _ => None
  end.

(** [if (v)] for a number that may be [undefined]. *)
Definition truthy_number (v : option Z) : option Z :=
  match v with
  | Some n => if Z.eqb n 0 then None else Some n
  | None => None
  end.

(** [if (v)] for a JSON value that may be [undefined] or [null]. *)
Definition truthy_value (v : option (option json)) : option json :=
  match v with
  | Some (Some j) => if truthy_json j then Some j else None
  | _ => None
  end.

(** [req.query.name], when it is a non-empty string. *)
Definition query_param (name : string) (query : list (string * string)) : option string :=
  truthy (option_map snd (find (fun kv => String.eqb (fst kv) name) query)).

(** [s.split("T")[0]] *)
Definition before_T (s : string) : string :=
  match split "T" s with
  | piece :: _ => piece
  | [] => EmptyString
  end.

End JsMore.
Import JsMore.

(** ** The other schemas of [schema.ts] *)

Module CreateUserInput.
Record t : Type := {
  username : string; email : string; password_hash : string; role : string }.
End CreateUserInput.

Module UpdateUserInput.
Record t : Type := {
  id : string; username : option string; email : option string;
  password_hash : option string; role : option string }.
End UpdateUserInput.

Module CreateClientInput.
Record t : Type := {
  first_name : string; last_name : string; email : string; phone : string;
  address : string; status : string; additional_details : option (option json) }.
End CreateClientInput.

Module CreateClientPropertyInterestInput.
Record t : Type := {
  client_id : string; property_type : string; preferred_location : string;
  price_min : option (option Z); price_max : option (option Z);
  additional_notes : option (option string) }.
End CreateClientPropertyInterestInput.

Module CreatePropertyInput.
Record t : Type := {
  address : string; property_type : string; price : Z; status : string;
  description : option (option string) }.
End CreatePropertyInput.

Module UpdatePropertyInput.
Record t : Type := {
  id : string; address : option string; property_type : option string;
  price : option Z; status : option string; description : option (option string) }.
End UpdatePropertyInput.

Module CreateAppointmentInput.
Record t : Type := {
  client_id : string; property_id : option (option string); agent_id : string;
  appointment_date : string; appointment_time : string;
  notes : option (option string); is_confirmed : bool }.
End CreateAppointmentInput.

Module UpdateAppointmentInput.
Record t : Type := {
  id : string; client_id : option string; property_id : option (option string);
  agent_id : option string; appointment_date : option string;
  appointment_time : option string; notes : option (option string);
  is_confirmed : option bool }.
End UpdateAppointmentInput.

Module CreateCommunicationLogInput.
Record t : Type := {
  client_id : string; user_id : string; communication_type : string;
  note : string; follow_up_flag : bool; timestamp : string }.
End CreateCommunicationLogInput.

Module CreateClientDocumentInput.
Record t : Type := {
  client_id : string; document_name : string; document_url : string;
  document_type : string }.
End CreateClientDocumentInput.

Module UpdateUserSettingsInput.
Record t : Type := {
  id : string; user_id : option string;
  dashboard_preferences : option (option json);
  notification_settings : option (option json);
  configuration : option (option json) }.
End UpdateUserSettingsInput.

Section MoreSchemas.
Context `{Env}.

(** A required [z.coerce.date()]: a missing key is [new Date(undefined)], an
    invalid date. *)
Definition required_date : z.key string :=
  fun v => match v with
           | Some j => z.coerce_date_schema j
           | None => inl Zod.invalid_date
           end.

Definition createUserInputSchema (input : object) : result CreateUserInput.t :=
  z.parse (z.Valid CreateUserInput.Build_t
    <*> z.field input "username" createUserInputSchema_username
    <*> z.field input "email" (z.required (z.email z.string))
    <*> z.field input "password_hash" createUserInputSchema_password_hash
    <*> z.field input "role" (z.required (z.min 1 z.string))).

Definition updateUserInputSchema (input : object) : result UpdateUserInput.t :=
  z.parse (z.Valid UpdateUserInput.Build_t
    <*> z.field input "id" (z.required z.string)
    <*> z.field input "username" (z.optional (z.min 1 z.string))
    <*> z.field input "email" (z.optional (z.email z.string))
    <*> z.field input "password_hash" (z.optional (z.min 1 z.string))
    <*> z.field input "role" (z.optional (z.min 1 z.string))).

Definition createClientInputSchema (input : object) : result CreateClientInput.t :=
  z.parse (z.Valid CreateClientInput.Build_t
    <*> z.field input "first_name" (z.required (z.min 1 z.string))
    <*> z.field input "last_name" (z.required (z.min 1 z.string))
    <*> z.field input "email" (z.required (z.email z.string))
    <*> z.field input "phone" (z.required (z.min 1 z.string))
    <*> z.field input "address" (z.required (z.min 1 z.string))
    <*> z.field input "status" (z.required (z.min 1 z.string))
    <*> z.field input "additional_details" (z.optional (z.nullable z.any))).

Definition createClientPropertyInterestInputSchema (input : object)
    : result CreateClientPropertyInterestInput.t :=
  z.parse (z.Valid CreateClientPropertyInterestInput.Build_t
    <*> z.field input "client_id" (z.required z.string)
    <*> z.field input "property_type" (z.required (z.min 1 z.string))
    <*> z.field input "preferred_location" (z.required (z.min 1 z.string))
    <*> z.field input "price_min" (z.optional (z.nullable z.number))
    <*> z.field input "price_max" (z.optional (z.nullable z.number))
    <*> z.field input "additional_notes" (z.optional (z.nullable z.string))).

Definition createPropertyInputSchema (input : object) : result CreatePropertyInput.t :=
  z.parse (z.Valid CreatePropertyInput.Build_t
    <*> z.field input "address" (z.required (z.min 1 z.string))
    <*> z.field input "property_type" (z.required (z.min 1 z.string))
    <*> z.field input "price" (z.required z.number)
    <*> z.field input "status" (z.required (z.min 1 z.string))
    <*> z.field input "description" (z.optional (z.nullable z.string))).

Definition updatePropertyInputSchema (input : object) : result UpdatePropertyInput.t :=
  z.parse (z.Valid UpdatePropertyInput.Build_t
    <*> z.field input "id" (z.required z.string)
    <*> z.field input "address" (z.optional (z.min 1 z.string))
    <*> z.field input "property_type" (z.optional (z.min 1 z.string))
    <*> z.field input "price" (z.optional z.number)
    <*> z.field input "status" (z.optional (z.min 1 z.string))
    <*> z.field input "description" (z.optional (z.nullable z.string))).

Definition searchPropertyInputSchema : object -> result SearchInput.t :=
  searchInputSchema ["address"; "price"; "created_at"] "created_at".

Definition createAppointmentInputSchema (input : object)
    : result CreateAppointmentInput.t :=
  z.parse (z.Valid CreateAppointmentInput.Build_t
    <*> z.field input "client_id" (z.required z.string)
    <*> z.field input "property_id" (z.optional (z.nullable z.string))
    <*> z.field input "agent_id" (z.required z.string)
    <*> z.field input "appointment_date" required_date
    <*> z.field input "appointment_time" (z.required (z.min 1 z.string))
    <*> z.field input "notes" (z.optional (z.nullable z.string))
    <*> z.field input "is_confirmed" (z.default false z.boolean)).

Definition updateAppointmentInputSchema (input : object)
    : result UpdateAppointmentInput.t :=
  z.parse (z.Valid UpdateAppointmentInput.Build_t
    <*> z.field input "id" (z.required z.string)
    <*> z.field input "client_id" (z.optional z.string)
    <*> z.field input "property_id" (z.optional (z.nullable z.string))
    <*> z.field input "agent_id" (z.optional z.string)
    <*> z.field input "appointment_date" (z.optional z.coerce_date_schema)
    <*> z.field input "appointment_time" (z.optional (z.min 1 z.string))
    <*> z.field input "notes" (z.optional (z.nullable z.string))
    <*> z.field input "is_confirmed" (z.optional z.boolean)).

Definition createCommunicationLogInputSchema (input : object)
    : result CreateCommunicationLogInput.t :=
  z.parse (z.Valid CreateCommunicationLogInput.Build_t
    <*> z.field input "client_id" (z.required z.string)
    <*> z.field input "user_id" (z.required z.string)
    <*> z.field input "communication_type" (z.required (z.min 1 z.string))
    <*> z.field input "note" (z.required (z.min 1 z.string))
    <*> z.field input "follow_up_flag" (z.default false z.boolean)
    <*> z.field input "timestamp" required_date).

Definition createClientDocumentInputSchema (input : object)
    : result CreateClientDocumentInput.t :=
  z.parse (z.Valid CreateClientDocumentInput.Build_t
    <*> z.field input "client_id" (z.required z.string)
    <*> z.field input "document_name" (z.required (z.min 1 z.string))
    <*> z.field input "document_url" (z.required (z.url z.string))
    <*> z.field input "document_type" (z.required (z.min 1 z.string))).

Definition updateUserSettingsInputSchema (input : object)
    : result UpdateUserSettingsInput.t :=
  z.parse (z.Valid UpdateUserSettingsInput.Build_t
    <*> z.field input "id" (z.required z.string)
    <*> z.field input "user_id" (z.optional z.string)
    <*> z.field input "dashboard_preferences" (z.optional (z.nullable z.any))
    <*> z.field input "notification_settings" (z.optional (z.nullable z.any))
    <*> z.field input "configuration" (z.optional (z.nullable z.any))).

End MoreSchemas.

(** ** What the other UPDATE statements assign *)

Module UserSet.
Import User.

Inductive t : Type :=
| username (v : string) | email (v : string) | password_hash (v : string)
| role (v : string) | updated_at (v : string).

Definition assign (a : t) (u : User.t) : User.t :=
  match a with
  | username v =>
      Build_t (id u) v (User.email u) (User.password_hash u) (User.role u) (created_at u)
        (User.updated_at u)
  | email v =>
      Build_t (id u) (User.username u) v (User.password_hash u) (User.role u)
        (created_at u) (User.updated_at u)
  | password_hash v =>
      Build_t (id u) (User.username u) (User.email u) v (User.role u) (created_at u)
        (User.updated_at u)
  | role v =>
      Build_t (id u) (User.username u) (User.email u) (User.password_hash u) v
        (created_at u) (User.updated_at u)
  | updated_at v =>
      Build_t (id u) (User.username u) (User.email u) (User.password_hash u)
        (User.role u) (created_at u) v
  end.

End UserSet.

Module PropertySet.
Import Property.

Inductive t : Type :=
| address (v : string) | property_type (v : string) | price (v : Z)
| status (v : string) | description (v : option string) | updated_at (v : string).

Definition assign (a : t) (p : Property.t) : Property.t :=
  match a with
  | address v =>
      Build_t (id p) v (Property.property_type p) (Property.price p) (Property.status p)
        (Property.description p) (created_at p) (Property.updated_at p)
  | property_type v =>
      Build_t (id p) (Property.address p) v (Property.price p) (Property.status p)
        (Property.description p) (created_at p) (Property.updated_at p)
  | price v =>
      Build_t (id p) (Property.address p) (Property.property_type p) v
        (Property.status p) (Property.description p) (created_at p)
        (Property.updated_at p)
  | status v =>
      Build_t (id p) (Property.address p) (Property.property_type p) (Property.price p)
        v (Property.description p) (created_at p) (Property.updated_at p)
  | description v =>
      Build_t (id p) (Property.address p) (Property.property_type p) (Property.price p)
        (Property.status p) v (created_at p) (Property.updated_at p)
  | updated_at v =>
      Build_t (id p) (Property.address p) (Property.property_type p) (Property.price p)
        (Property.status p) (Property.description p) (created_at p) v
  end.

End PropertySet.

Module AppointmentSet.
Import Appointment.

Inductive t : Type :=
| client_id (v : string) | property_id (v : option string) | agent_id (v : string)
| appointment_date (v : string) | appointment_time (v : string)
| notes (v : option string) | is_confirmed (v : bool) | updated_at (v : string).

Definition assign (a : t) (r : Appointment.t) : Appointment.t :=
  match a with
  | client_id v =>
      Build_t (id r) v (Appointment.property_id r) (Appointment.agent_id r)
        (Appointment.appointment_date r) (Appointment.appointment_time r)
        (Appointment.notes r) (Appointment.is_confirmed r) (created_at r)
        (Appointment.updated_at r)
  | property_id v =>
      Build_t (id r) (Appointment.client_id r) v (Appointment.agent_id r)
        (Appointment.appointment_date r) (Appointment.appointment_time r)
        (Appointment.notes r) (Appointment.is_confirmed r) (created_at r)
        (Appointment.updated_at r)
  | agent_id v =>
      Build_t (id r) (Appointment.client_id r) (Appointment.property_id r) v
        (Appointment.appointment_date r) (Appointment.appointment_time r)
        (Appointment.notes r) (Appointment.is_confirmed r) (created_at r)
        (Appointment.updated_at r)
  | appointment_date v =>
      Build_t (id r) (Appointment.client_id r) (Appointment.property_id r)
        (Appointment.agent_id r) v (Appointment.appointment_time r)
        (Appointment.notes r) (Appointment.is_confirmed r) (created_at r)
        (Appointment.updated_at r)
  | appointment_time v =>
      Build_t (id r) (Appointment.client_id r) (Appointment.property_id r)
        (Appointment.agent_id r) (Appointment.appointment_date r) v
        (Appointment.notes r) (Appointment.is_confirmed r) (created_at r)
        (Appointment.updated_at r)
  | notes v =>
      Build_t (id r) (Appointment.client_id r) (Appointment.property_id r)
        (Appointment.agent_id r) (Appointment.appointment_date r)
        (Appointment.appointment_time r) v (Appointment.is_confirmed r) (created_at r)
        (Appointment.updated_at r)
  | is_confirmed v =>
      Build_t (id r) (Appointment.client_id r) (Appointment.property_id r)
        (Appointment.agent_id r) (Appointment.appointment_date r)
        (Appointment.appointment_time r) (Appointment.notes r) v (created_at r)
        (Appointment.updated_at r)
  | updated_at v =>
      Build_t (id r) (Appointment.client_id r) (Appointment.property_id r)
        (Appointment.agent_id r) (Appointment.appointment_date r)
        (Appointment.appointment_time r) (Appointment.notes r)
        (Appointment.is_confirmed r) (created_at r) v
  end.

End AppointmentSet.

Module UserSettingsSet.
Import UserSettings.

Inductive t : Type :=
| dashboard_preferences (v : json) | notification_settings (v : json)
| configuration (v : json) | updated_at (v : string).

Definition assign (a : t) (r : UserSettings.t) : UserSettings.t :=
  match a with
  | dashboard_preferences v =>
      Build_t (id r) (user_id r) v (UserSettings.notification_settings r)
        (UserSettings.configuration r) (UserSettings.updated_at r)
  | notification_settings v =>
      Build_t (id r) (user_id r) (UserSettings.dashboard_preferences r) v
        (UserSettings.configuration r) (UserSettings.updated_at r)
  | configuration v =>
      Build_t (id r) (user_id r) (UserSettings.dashboard_preferences r)
        (UserSettings.notification_settings r) v (UserSettings.updated_at r)
  | updated_at v =>
      Build_t (id r) (user_id r) (UserSettings.dashboard_preferences r)
        (UserSettings.notification_settings r) (UserSettings.configuration r) v
  end.

(** The three JSON columns are sent as [JSON.stringify(value)]. *)
Definition convert `{Services} (a : t) : result t :=
  let converted (column : json -> t) (v : json) :=
    match stringified_json_in v with
    | Some j => Ok (column j)
    | None => Throw (DatabaseError invalid_text_representation)
    end in
  match a with
  | dashboard_preferences v => converted dashboard_preferences v
  | notification_settings v => converted notification_settings v
  | configuration v => converted configuration v
  | updated_at v => Ok (updated_at v)
  end.

End UserSettingsSet.

Definition with_user_settings (db : Db) (rows : list UserSettings.t) : Db :=
  {| users := users db; clients := clients db;
     client_property_interests := client_property_interests db;
     properties := properties db; appointments := appointments db;
     communication_logs := communication_logs db;
     client_documents := client_documents db; user_settings := rows |}.

(** ** INSERT, and the constraints of [db.sql] *)

Module Sql.

Section Table.
Context {R : Type}.
Variable pk : R -> string.

(** How many rows carry this key. *)
Definition count (key : R -> string) (k : string) (table : list R) : nat :=
  length (filter (fun r => String.eqb (key r) k) table).

(** [INSERT INTO t (...) VALUES (...) RETURNING *]: the table left and the
    row inserted. A NOT NULL column refuses NULL, then the primary key and
    the UNIQUE columns refuse a value that is taken, then a foreign key
    refuses a value that no row of the table it names has. *)
Definition insert_returning (missing taken dangling : bool) (row : R) (table : list R)
    : attempt (list R * R) :=
  if missing then Raise not_null_violation
  else if existsb (fun r => String.eqb (pk r) (pk row)) table || taken
  then Raise unique_violation
  else if dangling then Raise (Raised (DatabaseError foreign_key_violation))
  else Done (table ++ [row], row).

(** A UNIQUE column after an UPDATE: no updated row may share its value. *)
Definition shared (key : R -> string) (updated table : list R) : bool :=
  existsb (fun r => Nat.ltb 1 (count key (key r) table)) updated.

End Table.

(** [SELECT * FROM t WHERE c1 AND ... AND cn], or all of [t] without a
    condition. *)
Definition where_all {R : Type} (conditions : list (R -> bool)) (table : list R) : list R :=
  filter (fun r => forallb (fun c => c r) conditions) table.

End Sql.

(** ** Responses of the remaining handlers *)

Inductive content : Type :=
| former (p : payload)
| exception_message (x : exception)
| property_row (row : Property.t)
| property_rows (rows : list Property.t)
| appointment_row (row : Appointment.t)
| appointment_rows (rows : list Appointment.t)
| interest_rows (rows : list ClientPropertyInterest.t)
| log_rows (rows : list CommunicationLog.t)
| document_rows (rows : list ClientDocument.t)
| settings_row (row : UserSettings.t)
| import_result (text : string) (data : list object).

Record Reply : Type := { code : Z; content_of : content }.

Definition reply (c : Z) (p : payload) : Reply := {| code := c; content_of := former p |}.

(** A response of the first part, as a reply. *)
Definition upgrade (r : Response) : Reply := reply (status r) (sent r).

(** The [catch] of a handler that can meet the other exceptions too. *)
Definition rescue (db : Db) (r : attempt (Db * Reply)) : Db * Reply :=
  match r with
  | Done done => done
  | Raise (Raised e) => (db, reply 400 (error_message e))
  | Raise x => (db, {| code := 400; content_of := exception_message x |})
  end.

(** ** The remaining handlers *)

Section MoreServer.
Context `{Env} `{Services}.

Definition has_id {R : Type} (pk : R -> string) (id : string) (table : list R) : bool :=
  existsb (fun r => String.eqb (pk r) id) table.

(** *** POST /api/auth/logout *)
Definition post_auth_logout (db : Db) : Db * Reply :=
  (db, reply 200 (message "Logout successful")).

(** *** POST /api/users *)
Definition post_users (db : Db) (user : JwtPayload) (body : object) (now : string)
    (rt : Runtime) : Db * Reply :=
  if negb (String.eqb (jwt_role user) "admin")
  then (db, reply 403 (message "Forbidden"))
  else rescue db (
    parsed <-- attempted (createUserInputSchema body) ;;
    let id := uuidv4 rt in
    let hashedPassword := bcrypt_hash (CreateUserInput.password_hash parsed) 10 (salt rt) in
    let row := User.Build_t id (CreateUserInput.username parsed)
                 (CreateUserInput.email parsed) hashedPassword
                 (CreateUserInput.role parsed) now now in
    let taken :=
      existsb (fun u => String.eqb (User.username u) (User.username row)) (users db)
      || existsb (fun u => String.eqb (User.email u) (User.email row)) (users db) in
    ' (table, row) <-- Sql.insert_returning User.id false taken false row (users db) ;;
    Done (with_users db table, reply 201 (user_row row))).

(** *** PUT /api/users/:id *)
Definition put_users_id (db : Db) (user : JwtPayload) (id : string) (body : object)
    (now : string) (rt : Runtime) : Db * Reply :=
  if negb (String.eqb (jwt_role user) "admin")
  then (db, reply 403 (message "Forbidden"))
  else rescue db (
    parsed <-- attempted (updateUserInputSchema (spread "id" (JStr id) body)) ;;
    let fields :=
      push_if (truthy (UpdateUserInput.username parsed)) UserSet.username
      ++ push_if (truthy (UpdateUserInput.email parsed)) UserSet.email
      ++ push_if (truthy (UpdateUserInput.password_hash parsed))
                 (fun p => UserSet.password_hash (bcrypt_hash p 10 (salt rt)))
      ++ push_if (truthy (UpdateUserInput.role parsed)) UserSet.role
      ++ [UserSet.updated_at now] in
    ' (table, rows) <-- attempted (Pg.update_returning User.id Ok UserSet.assign
                                     fields id (users db)) ;;
    if Sql.shared User.username rows table || Sql.shared User.email rows table
    then Raise unique_violation
    else match rows with
         | [] => Done (with_users db table, reply 404 (message "User not found"))
         | row :: _ => Done (with_users db table, reply 200 (user_row row))
         end).

(** The parameter of a JSON column. *)
Definition json_parameter (v : json) : attempt json :=
  match pg_json_in v with
  | Some j => Done j
  | None => Raise (Raised (DatabaseError invalid_text_representation))
  end.

(** *** POST /api/clients *)
Definition post_clients (db : Db) (body : object) (now : string) (rt : Runtime)
    : Db * Reply :=
  rescue db (
    parsed <-- attempted (createClientInputSchema body) ;;
    let id := uuidv4 rt in
    details <-- json_parameter (json_or_null (CreateClientInput.additional_details parsed)) ;;
    let row := Client.Build_t id (CreateClientInput.first_name parsed)
                 (CreateClientInput.last_name parsed) (CreateClientInput.email parsed)
                 (CreateClientInput.phone parsed) (CreateClientInput.address parsed)
                 (CreateClientInput.status parsed) details now now in
    ' (table, row) <-- Sql.insert_returning Client.id false false false row (clients db) ;;
    Done (with_clients db table, reply 201 (client_row row))).

(** *** POST /api/clients/import *)
Definition post_clients_import (db : Db) (user : JwtPayload) (rt : Runtime) : Db * Reply :=
  if negb (String.eqb (jwt_role user) "admin") && negb (String.eqb (jwt_role user) "support")
  then (db, reply 403 (message "Forbidden"))
  else rescue db (
    filePath <-- match file rt with
                 | Some path => Done path
                 | None => Raise TypeError
                 end ;;
    jsonData <-- match sheet_to_json filePath with
                 | Some data => Done data
                 | None => Raise ReadError
                 end ;;
    Done (db, {| code := 200;
                 content_of := import_result "Bulk import completed successfully"
                                 jsonData |})).

(** *** POST /api/client-property-interests *)
Definition post_client_property_interests (db : Db) (body : object) (now : string)
    (rt : Runtime) : Db * Reply :=
  rescue db (
    parsed <-- attempted (createClientPropertyInterestInputSchema body) ;;
    let id := uuidv4 rt in
    let row := ClientPropertyInterest.Build_t id
                 (CreateClientPropertyInterestInput.client_id parsed)
                 (CreateClientPropertyInterestInput.property_type parsed)
                 (CreateClientPropertyInterestInput.preferred_location parsed)
                 (nullable (CreateClientPropertyInterestInput.price_min parsed))
                 (nullable (CreateClientPropertyInterestInput.price_max parsed))
                 (nullable (CreateClientPropertyInterestInput.additional_notes parsed))
                 now in
    let dangling :=
      negb (has_id Client.id (ClientPropertyInterest.client_id row) (clients db)) in
    ' (table, row) <-- Sql.insert_returning ClientPropertyInterest.id false false dangling
                         row (client_property_interests db) ;;
    Done (with_client_property_interests db table, reply 201 (interest_row row))).

(** *** GET /api/client-property-interests *)
Definition get_client_property_interests (db : Db) (query : list (string * string))
    : Db * Reply :=
  let conditions :=
    push_if (query_param "client_id" query)
            (fun v r => String.eqb (ClientPropertyInterest.client_id r) v) in
  (db, {| code := 200;
          content_of := interest_rows
                          (Sql.where_all conditions (client_property_interests db)) |}).

(** *** GET /api/client-property-interests/:id *)
Definition get_client_property_interests_id (db : Db) (id : string) : Db * Reply :=
  match Pg.where_id ClientPropertyInterest.id id (client_property_interests db) with
  | [] => (db, reply 404 (message "Record not found"))
  | row :: _ => (db, reply 200 (interest_row row))
  end.

(** *** POST /api/properties *)
Definition post_properties (db : Db) (body : object) (now : string) (rt : Runtime)
    : Db * Reply :=
  rescue db (
    parsed <-- attempted (createPropertyInputSchema body) ;;
    let id := uuidv4 rt in
    let row := Property.Build_t id (CreatePropertyInput.address parsed)
                 (CreatePropertyInput.property_type parsed)
                 (CreatePropertyInput.price parsed) (CreatePropertyInput.status parsed)
                 (string_or_null (CreatePropertyInput.description parsed)) now now in
    ' (table, row) <-- Sql.insert_returning Property.id false false false row
                         (properties db) ;;
    Done (with_properties db table, {| code := 201; content_of := property_row row |})).

(** The order of a column of [properties]; NULL sorts last. *)
Definition property_order (name : string) : option (Property.t -> Property.t -> bool) :=
  let name := toLowerCase name in
  let by_text (c : Property.t -> string) := Some (fun a b => text_leb (c a) (c b)) in
  if String.eqb name "id" then by_text Property.id
  else if String.eqb name "address" then by_text Property.address
  else if String.eqb name "property_type" then by_text Property.property_type
  else if String.eqb name "price"
  then Some (fun a b => Z.leb (Property.price a) (Property.price b))
  else if String.eqb name "status" then by_text Property.status
  else if String.eqb name "description"
  then Some (fun a b => match Property.description a, Property.description b with
                        | Some x, Some y => text_leb x y
                        | _, None => true
                        | None, Some _ => false
                        end)
  else if String.eqb name "created_at" then by_text Property.created_at
  else if String.eqb name "updated_at" then by_text Property.updated_at
  else None.

(** [... ORDER BY column direction] on any column. *)
Definition order_rows {R : Type} (le : option (R -> R -> bool)) (direction : string)
    (rows : list R) : result (list R) :=
  match le with
  | None => Throw (DatabaseError undefined_column)
  | Some le =>
      if String.eqb (toLowerCase direction) "asc" then Ok (Pg.sort le rows)
      else if String.eqb (toLowerCase direction) "desc"
      then Ok (Pg.sort (fun a b => le b a) rows)
      else Throw (DatabaseError syntax_error)
  end.

(** *** GET /api/properties *)
Definition get_properties (db : Db) (query : list (string * string)) : Db * Reply :=
  rescue db (
    queryParams <-- attempted (searchPropertyInputSchema (query_object query)) ;;
    let matching :=
      match truthy (SearchInput.query queryParams) with
      | Some q => filter (fun p => ilike (Property.address p) ("%" ++ q ++ "%")
                                   || ilike (Property.property_type p) ("%" ++ q ++ "%"))
                         (properties db)
      | None => properties db
      end in
    sorted <-- attempted (order_rows (property_order (SearchInput.sort_by queryParams))
                            (SearchInput.sort_order queryParams) matching) ;;
    rows <-- attempted (Pg.limit_offset (SearchInput.limit queryParams)
                          (SearchInput.offset queryParams) sorted) ;;
    Done (db, {| code := 200; content_of := property_rows rows |})).

(** *** GET /api/properties/:id *)
Definition get_properties_id (db : Db) (id : string) : Db * Reply :=
  match Pg.where_id Property.id id (properties db) with
  | [] => (db, reply 404 (message "Property not found"))
  | row :: _ => (db, {| code := 200; content_of := property_row row |})
  end.

(** *** PUT /api/properties/:id *)
Definition put_properties_id (db : Db) (id : string) (body : object) (now : string)
    : Db * Reply :=
  rescue db (
    parsed <-- attempted (updatePropertyInputSchema (spread "id" (JStr id) body)) ;;
    let fields :=
      push_if (truthy (UpdatePropertyInput.address parsed)) PropertySet.address
      ++ push_if (truthy (UpdatePropertyInput.property_type parsed))
                 PropertySet.property_type
      ++ push_if (truthy_number (UpdatePropertyInput.price parsed)) PropertySet.price
      ++ push_if (truthy (UpdatePropertyInput.status parsed)) PropertySet.status
      ++ push_if (UpdatePropertyInput.description parsed) PropertySet.description
      ++ [PropertySet.updated_at now] in
    ' (table, rows) <-- attempted (Pg.update_returning Property.id Ok PropertySet.assign
                                     fields id (properties db)) ;;
    match rows with
    | [] => Done (with_properties db table, reply 404 (message "Property not found"))
    | row :: _ => Done (with_properties db table,
                        {| code := 200; content_of := property_row row |})
    end).

(** Whether a foreign key of an appointment names no row. *)
Definition appointment_dangling (db : Db) (a : Appointment.t) : bool :=
  negb (has_id Client.id (Appointment.client_id a) (clients db))
  || match Appointment.property_id a with
     | Some p => negb (has_id Property.id p (properties db))
     | None => false
     end
  || negb (has_id User.id (Appointment.agent_id a) (users db)).

(** *** POST /api/appointments *)
Definition post_appointments (db : Db) (body : object) (now : string) (rt : Runtime)
    : Db * Reply :=
  rescue db (
    parsed <-- attempted (createAppointmentInputSchema body) ;;
    let id := uuidv4 rt in
    let app_date := before_T (CreateAppointmentInput.appointment_date parsed) in
    let row := Appointment.Build_t id (CreateAppointmentInput.client_id parsed)
                 (string_or_null (CreateAppointmentInput.property_id parsed))
                 (CreateAppointmentInput.agent_id parsed) app_date
                 (CreateAppointmentInput.appointment_time parsed)
                 (string_or_null (CreateAppointmentInput.notes parsed))
                 (CreateAppointmentInput.is_confirmed parsed) now now in
    ' (table, row) <-- Sql.insert_returning Appointment.id false false
                         (appointment_dangling db row) row (appointments db) ;;
    Done (with_appointments db table,
          {| code := 201; content_of := appointment_row row |})).

(** *** GET /api/appointments *)
Definition get_appointments (db : Db) (query : list (string * string)) : Db * Reply :=
  let conditions :=
    push_if (query_param "client_id" query)
            (fun v r => String.eqb (Appointment.client_id r) v)
    ++ push_if (query_param "agent_id" query)
               (fun v r => String.eqb (Appointment.agent_id r) v)
    ++ push_if (query_param "date" query)
               (fun v r => String.eqb (Appointment.appointment_date r) v) in
  (db, {| code := 200;
          content_of := appointment_rows (Sql.where_all conditions (appointments db)) |}).

(** *** GET /api/appointments/:id *)
Definition get_appointments_id (db : Db) (id : string) : Db * Reply :=
  match Pg.where_id Appointment.id id (appointments db) with
  | [] => (db, reply 404 (message "Appointment not found"))
  | row :: _ => (db, {| code := 200; content_of := appointment_row row |})
  end.

(** *** PUT /api/appointments/:id *)
Definition put_appointments_id (db : Db) (id : string) (body : object) (now : string)
    : Db * Reply :=
  rescue db (
    parsed <-- attempted (updateAppointmentInputSchema (spread "id" (JStr id) body)) ;;
    let fields :=
      push_if (truthy (UpdateAppointmentInput.client_id parsed)) AppointmentSet.client_id
      ++ push_if (UpdateAppointmentInput.property_id parsed) AppointmentSet.property_id
      ++ push_if (truthy (UpdateAppointmentInput.agent_id parsed)) AppointmentSet.agent_id
      ++ push_if (UpdateAppointmentInput.appointment_date parsed)
                 (fun d => AppointmentSet.appointment_date (before_T d))
      ++ push_if (truthy (UpdateAppointmentInput.appointment_time parsed))
                 AppointmentSet.appointment_time
      ++ push_if (UpdateAppointmentInput.notes parsed) AppointmentSet.notes
      ++ push_if (UpdateAppointmentInput.is_confirmed parsed) AppointmentSet.is_confirmed
      ++ [AppointmentSet.updated_at now] in
    ' (table, rows) <-- attempted (Pg.update_returning Appointment.id Ok
                                     AppointmentSet.assign fields id (appointments db)) ;;
    if existsb (appointment_dangling db) rows
    then Raise (Raised (DatabaseError foreign_key_violation))
    else match rows with
         | [] => Done (with_appointments db table,
                       reply 404 (message "Appointment not found"))
         | row :: _ => Done (with_appointments db table,
                             {| code := 200; content_of := appointment_row row |})
         end).

(** *** POST /api/communication-logs *)
Definition post_communication_logs (db : Db) (body : object) (rt : Runtime)
    : Db * Reply :=
  rescue db (
    parsed <-- attempted (createCommunicationLogInputSchema body) ;;
    let id := uuidv4 rt in
    let row := CommunicationLog.Build_t id (CreateCommunicationLogInput.client_id parsed)
                 (CreateCommunicationLogInput.user_id parsed)
                 (CreateCommunicationLogInput.communication_type parsed)
                 (CreateCommunicationLogInput.note parsed)
                 (CreateCommunicationLogInput.follow_up_flag parsed)
                 (CreateCommunicationLogInput.timestamp parsed) in
    let dangling :=
      negb (has_id Client.id (CommunicationLog.client_id row) (clients db))
      || negb (has_id User.id (CommunicationLog.user_id row) (users db)) in
    ' (table, row) <-- Sql.insert_returning CommunicationLog.id false false dangling row
                         (communication_logs db) ;;
    Done (with_communication_logs db table, reply 201 (log_row row))).

(** *** GET /api/communication-logs *)
Definition get_communication_logs (db : Db) (query : list (string * string))
    : Db * Reply :=
  let conditions :=
    push_if (query_param "client_id" query)
            (fun v r => String.eqb (CommunicationLog.client_id r) v)
    ++ push_if (query_param "communication_type" query)
               (fun v r => String.eqb (CommunicationLog.communication_type r) v) in
  (db, {| code := 200;
          content_of := log_rows (Sql.where_all conditions (communication_logs db)) |}).

(** *** GET /api/communication-logs/:id *)
Definition get_communication_logs_id (db : Db) (id : string) : Db * Reply :=
  match Pg.where_id CommunicationLog.id id (communication_logs db) with
  | [] => (db, reply 404 (message "Log not found"))
  | row :: _ => (db, reply 200 (log_row row))
  end.

(** *** POST /api/client-documents

    The schema has no key [uploaded_at], so [parsed.uploaded_at] is
    [undefined] and the NOT NULL column [uploaded_at] is sent NULL. *)
Definition post_client_documents (db : Db) (body : object) (rt : Runtime) : Db * Reply :=
  rescue db (
    parsed <-- attempted (createClientDocumentInputSchema body) ;;
    let id := uuidv4 rt in
    let uploaded_at : option string := None in
    let row := ClientDocument.Build_t id (CreateClientDocumentInput.client_id parsed)
                 (CreateClientDocumentInput.document_name parsed)
                 (CreateClientDocumentInput.document_url parsed)
                 (CreateClientDocumentInput.document_type parsed)
                 (or_else uploaded_at EmptyString) in
    let missing := match uploaded_at with Some _ => false | None => true end in
    let dangling := negb (has_id Client.id (ClientDocument.client_id row) (clients db)) in
    ' (table, row) <-- Sql.insert_returning ClientDocument.id missing false dangling row
                         (client_documents db) ;;
    Done (with_client_documents db table, reply 201 (document_row row))).

(** *** GET /api/client-documents *)
Definition get_client_documents (db : Db) (query : list (string * string)) : Db * Reply :=
  let conditions :=
    push_if (query_param "client_id" query)
            (fun v r => String.eqb (ClientDocument.client_id r) v) in
  (db, {| code := 200;
          content_of := document_rows (Sql.where_all conditions (client_documents db)) |}).

(** *** GET /api/client-documents/:id *)
Definition get_client_documents_id (db : Db) (id : string) : Db * Reply :=
  match Pg.where_id ClientDocument.id id (client_documents db) with
  | [] => (db, reply 404 (message "Document not found"))
  | row :: _ => (db, reply 200 (document_row row))
  end.

(** *** GET /api/user-settings/:user_id *)
Definition get_user_settings (db : Db) (user_id : string) : Db * Reply :=
  match Pg.where_id UserSettings.user_id user_id (user_settings db) with
  | [] => (db, reply 404 (message "Settings not found"))
  | row :: _ => (db, {| code := 200; content_of := settings_row row |})
  end.

(** *** PUT /api/user-settings/:id *)
Definition put_user_settings_id (db : Db) (id : string) (body : object) (now : string)
    : Db * Reply :=
  rescue db (
    parsed <-- attempted (updateUserSettingsInputSchema (spread "id" (JStr id) body)) ;;
    let fields :=
      push_if (truthy_value (UpdateUserSettingsInput.dashboard_preferences parsed))
              UserSettingsSet.dashboard_preferences
      ++ push_if (truthy_value (UpdateUserSettingsInput.notification_settings parsed))
                 UserSettingsSet.notification_settings
      ++ push_if (truthy_value (UpdateUserSettingsInput.configuration parsed))
                 UserSettingsSet.configuration
      ++ [UserSettingsSet.updated_at now] in
    ' (table, rows) <-- attempted (Pg.update_returning UserSettings.id
                                     UserSettingsSet.convert UserSettingsSet.assign
                                     fields id (user_settings db)) ;;
    match rows with
    | [] => Done (with_user_settings db table, reply 404 (message "Settings not found"))
    | row :: _ => Done (with_user_settings db table,
                        {| code := 200; content_of := settings_row row |})
    end).

(** The whole API on one request. The routes of the first part answer as
    [app] has them; [None] is left for the two routes that this development
    does not cover (the password-reset mail and the single-page application)
    and for a request that no route takes. *)
Definition api (db : Db) (req : Request) (clock : Clock) (rt : Runtime)
    : option (Db * Reply) :=
  let answered (r : Db * Reply) : option (Db * Reply) := Some r in
  let guarded (handler : JwtPayload -> Db * Reply) : option (Db * Reply) :=
    match authenticateToken (authorization req) (seconds clock) with
    | Respond r => Some (db, upgrade r)
    | Next user => Some (handler user)
    end in
  let now := toISOString clock in
  match dispatch (method req) (path req) with
  | Some (auth_logout, _) => guarded (fun _ => post_auth_logout db)
  | Some (users_create, _) => guarded (fun user => post_users db user (body req) now rt)
  | Some (users_update, params) =>
      guarded (fun user => put_users_id db user (req_param "id" params) (body req) now rt)
  | Some (clients_create, _) => guarded (fun _ => post_clients db (body req) now rt)
  | Some (clients_import, _) => guarded (fun user => post_clients_import db user rt)
  | Some (interests_create, _) =>
      guarded (fun _ => post_client_property_interests db (body req) now rt)
  | Some (interests_list, _) =>
      guarded (fun _ => get_client_property_interests db (query req))
  | Some (interests_get, params) =>
      guarded (fun _ => get_client_property_interests_id db (req_param "id" params))
  | Some (properties_create, _) => guarded (fun _ => post_properties db (body req) now rt)
  | Some (properties_list, _) => guarded (fun _ => get_properties db (query req))
  | Some (properties_get, params) =>
      guarded (fun _ => get_properties_id db (req_param "id" params))
  | Some (properties_update, params) =>
      guarded (fun _ => put_properties_id db (req_param "id" params) (body req) now)
  | Some (appointments_create, _) =>
      guarded (fun _ => post_appointments db (body req) now rt)
  | Some (appointments_list, _) => guarded (fun _ => get_appointments db (query req))
  | Some (appointments_get, params) =>
      guarded (fun _ => get_appointments_id db (req_param "id" params))
  | Some (appointments_update, params) =>
      guarded (fun _ => put_appointments_id db (req_param "id" params) (body req) now)
  | Some (logs_create, _) => guarded (fun _ => post_communication_logs db (body req) rt)
  | Some (logs_list, _) => guarded (fun _ => get_communication_logs db (query req))
  | Some (logs_get, params) =>
      guarded (fun _ => get_communication_logs_id db (req_param "id" params))
  | Some (documents_create, _) =>
      guarded (fun _ => post_client_documents db (body req) rt)
  | Some (documents_list, _) => guarded (fun _ => get_client_documents db (query req))
  | Some (documents_get, params) =>
      guarded (fun _ => get_client_documents_id db (req_param "id" params))
  | Some (settings_get, params) =>
      guarded (fun _ => get_user_settings db (req_param "user_id" params))
  | Some (settings_update, params) =>
      guarded (fun _ => put_user_settings_id db (req_param "id" params) (body req) now)
  | _ =>
      match app db req clock with
      | Some (db', r) => answered (db', upgrade r)
      | None => None
      end
  end.

End MoreServer.

(** ** A request for every route *)

(** One request that each route is meant to take. *)
Definition sample (r : route) : Method * list string :=
  match r with
  | auth_login => (POST, ["api"; "auth"; "login"])
  | auth_logout => (POST, ["api"; "auth"; "logout"])
  | auth_forgot_password => (POST, ["api"; "auth"; "forgot-password"])
  | users_create => (POST, ["api"; "users"])
  | users_list => (GET, ["api"; "users"])
  | users_get => (GET, ["api"; "users"; "u1"])
  | users_update => (PUT, ["api"; "users"; "u1"])
  | users_delete => (DELETE, ["api"; "users"; "u1"])
  | clients_create => (POST, ["api"; "clients"])
  | clients_list => (GET, ["api"; "clients"])
  | clients_get => (GET, ["api"; "clients"; "c1"])
  | clients_update => (PUT, ["api"; "clients"; "c1"])
  | clients_delete => (DELETE, ["api"; "clients"; "c1"])
  | clients_import => (POST, ["api"; "clients"; "import"])
  | clients_export => (GET, ["api"; "clients"; "export"])
  | interests_create => (POST, ["api"; "client-property-interests"])
  | interests_list => (GET, ["api"; "client-property-interests"])
  | interests_get => (GET, ["api"; "client-property-interests"; "cpi1"])
  | interests_update => (PUT, ["api"; "client-property-interests"; "cpi1"])
  | interests_delete => (DELETE, ["api"; "client-property-interests"; "cpi1"])
  | properties_create => (POST, ["api"; "properties"])
  | properties_list => (GET, ["api"; "properties"])
  | properties_get => (GET, ["api"; "properties"; "p1"])
  | properties_update => (PUT, ["api"; "properties"; "p1"])
  | properties_delete => (DELETE, ["api"; "properties"; "p1"])
  | appointments_create => (POST, ["api"; "appointments"])
  | appointments_list => (GET, ["api"; "appointments"])
  | appointments_get => (GET, ["api"; "appointments"; "a1"])
  | appointments_update => (PUT, ["api"; "appointments"; "a1"])
  | appointments_delete => (DELETE, ["api"; "appointments"; "a1"])
  | logs_create => (POST, ["api"; "communication-logs"])
  | logs_list => (GET, ["api"; "communication-logs"])
  | logs_get => (GET, ["api"; "communication-logs"; "cl1"])
  | logs_update => (PUT, ["api"; "communication-logs"; "cl1"])
  | logs_delete => (DELETE, ["api"; "communication-logs"; "cl1"])
  | documents_create => (POST, ["api"; "client-documents"])
  | documents_list => (GET, ["api"; "client-documents"])
  | documents_get => (GET, ["api"; "client-documents"; "cd1"])
  | documents_update => (PUT, ["api"; "client-documents"; "cd1"])
  | documents_delete => (DELETE, ["api"; "client-documents"; "cd1"])
  | settings_get => (GET, ["api"; "user-settings"; "u1"])
  | settings_update => (PUT, ["api"; "user-settings"; "us1"])
  | single_page_app => (GET, ["dashboard"])
  end.

(** ** The reference services *)

Definition demo_sheet : list object :=
  [ [("first_name", JStr "Dora"); ("last_name", JStr "Explorer")] ].

#[export] Instance demo_services : Services := {|
  bcrypt_hash := fun password _ _ => ("hash_" ++ password)%string;
  stringified_json_in := fun v => Some v;
  sheet_to_json := fun path => if String.eqb path "storage/clients.xlsx"
                               then Some demo_sheet else None
|}.

Definition demo_runtime : Runtime :=
  {| uuidv4 := "7f1c0a52-3b1e-4c55-9d0e-2f6a1b8c9d10"; salt := "salt"; file := None |}.

(** ** The front end: the shared store of [store/main.tsx]

    The state without its socket, which only [init_socket] and
    [disconnect_socket] touch. A settings value may be [undefined]. *)

Module Store.

Record UserType : Type := {
  id : string; username : string; email : string; role : string;
  created_at : string; updated_at : string }.

Record AuthType : Type := { token : string; user : UserType; is_authenticated : bool }.

Record NotificationType : Type := {
  notification_id : string; type : string; message : string; timestamp : string }.

Record UserSettingsType : Type := {
  dashboard_preferences : option json;
  notification_settings : option json;
  configuration : option json }.


Record GlobalState : Type := {
  auth : AuthType;
  notifications : list NotificationType;
  user_settings : UserSettingsType }.

Definition signed_out : AuthType :=
  {| token := ""; user := Build_UserType "" "" "" "" "" ""; is_authenticated := false |}.

Definition initial : GlobalState :=
  {| auth := signed_out; notifications := [];
     user_settings := {| dashboard_preferences := Some (JObj []);
                         notification_settings := Some (JObj []);
                         configuration := Some (JObj []) |} |}.

Definition set_auth (new_auth : AuthType) (state : GlobalState) : GlobalState :=
  {| auth := new_auth; notifications := notifications state;
     user_settings := user_settings state |}.

Definition reset_auth (state : GlobalState) : GlobalState :=
  {| auth := signed_out; notifications := notifications state;
     user_settings := user_settings state |}.



Definition clear_notifications (state : GlobalState) : GlobalState :=
  {| auth := auth state; notifications := []; user_settings := user_settings state |}.


End Store.

(** ** The front end: the views that call the API *)

Module Views.

(** [n.toString()] of an integer. *)
Definition toString (n : Z) : string := NilZero.string_of_int (Z.to_int n).

(** The state of the client list ([UV_ClientList]). *)
Record ClientList : Type := {
  search_query : string; limit : Z; offset : Z; sort_by : string; sort_order : string }.



(** The request [fetchClients] sends: axios writes every parameter that is
    not [undefined] into the query string. *)
Definition fetchClients (token : string) (s : ClientList) : Request :=
  {| method := GET; path := ["api"; "clients"];
     authorization := Some ("Bearer " ++ token)%string;
     query := [("query", search_query s); ("limit", toString (limit s));
               ("offset", toString (offset s)); ("sort_by", sort_by s);
               ("sort_order", sort_order s)];
     body := [] |}.

(** The clients request of [fetchDashboardData] ([UV_Dashboard]). *)
Definition fetchDashboardClients (token : string) : Request :=
  {| method := GET; path := ["api"; "clients"];
     authorization := Some ("Bearer " ++ token)%string;
     query := [("limit", toString 10000)]; body := [] |}.

(** The request of [handleLogout] ([GV_Navbar]): no header is set. *)
Definition logoutRequest : Request :=
  {| method := POST; path := ["api"; "auth"; "logout"]; authorization := None;
     query := []; body := [] |}.

(** [handleLogout]: whatever the server answers, the store is signed out. *)
Definition handleLogout (answer : option (Db * Reply)) (state : Store.GlobalState)
    : Store.GlobalState :=
  Store.reset_auth state.

(** [ProtectedRoute] and [PublicRoute] of [App.tsx]: where the router goes. *)
Inductive rendering : Type := Navigate (to : string) | children.

Definition ProtectedRoute (state : Store.GlobalState) : rendering :=
  if negb (Store.is_authenticated (Store.auth state)) then Navigate "/login" else children.

Definition PublicRoute (state : Store.GlobalState) : rendering :=
  if Store.is_authenticated (Store.auth state) then Navigate "/dashboard" else children.

End Views.

(** ** More concrete requests *)

(** A client to create. *)
Definition dora : object :=
  [("first_name", JStr "Dora"); ("last_name", JStr "Explorer");
   ("email", JStr "dora@sample.co.uk"); ("phone", JStr "07000000000");
   ("address", JStr "1 Jungle Road, Leeds, UK"); ("status", JStr "active")].

(** ** The constraints of [db.sql]

    What the PRIMARY KEY, UNIQUE and FOREIGN KEY clauses of the eight tables
    demand of a database. *)

(** No value occurs twice. *)
Fixpoint distinct (values : list string) : bool :=
  match values with
  | [] => true
  | v :: rest => negb (existsb (String.eqb v) rest) && distinct rest
  end.

(** Every PRIMARY KEY and both UNIQUE columns of [users]. *)
Definition keys_unique (db : Db) : bool :=
  distinct (map User.id (users db))
  && distinct (map User.username (users db))
  && distinct (map User.email (users db))
  && distinct (map Client.id (clients db))
  && distinct (map ClientPropertyInterest.id (client_property_interests db))
  && distinct (map Property.id (properties db))
  && distinct (map Appointment.id (appointments db))
  && distinct (map CommunicationLog.id (communication_logs db))
  && distinct (map ClientDocument.id (client_documents db))
  && distinct (map UserSettings.id (user_settings db)).

(** Every FOREIGN KEY names a row that is there. *)
Definition references_hold (db : Db) : bool :=
  forallb (fun i => has_id Client.id (ClientPropertyInterest.client_id i) (clients db))
          (client_property_interests db)
  && forallb (fun a => negb (appointment_dangling db a)) (appointments db)
  && forallb (fun l => has_id Client.id (CommunicationLog.client_id l) (clients db)
                       && has_id User.id (CommunicationLog.user_id l) (users db))
             (communication_logs db)
  && forallb (fun d => has_id Client.id (ClientDocument.client_id d) (clients db))
             (client_documents db)
  && forallb (fun s => has_id User.id (UserSettings.user_id s) (users db))
             (user_settings db).

(** A user to create, a new password, and an interest to record. *)
Definition eve : object :=
  [("username", JStr "agent_eve"); ("email", JStr "eve@estatehub.co.uk");
   ("password_hash", JStr "correct horse"); ("role", JStr "agent")].


Definition flat_in_leeds : object :=
  [("client_id", JStr "c1"); ("property_type", JStr "flat");
   ("preferred_location", JStr "Leeds")].

(** A property without a description worth storing. *)
Definition bare_plot : object :=
  [("address", JStr "2 Field Lane, York, UK"); ("property_type", JStr "land");
   ("price", JNum 90000); ("status", JStr "for sale"); ("description", JStr "")].

(** * Properties *)

(** ** Helper lemmas: the monad, zod, strings and SQL *)

Lemma bind_Ok {A B : Type} (r : result A) (k : A -> result B) (b : B) :
  bind r k = Ok b -> exists a, r = Ok a /\ k a = Ok b.
Proof. destruct r as [a|e]; simpl; intros E; [eauto | discriminate]. Qed.

Lemma ap_Valid {A B : Type} (f : z.validation (A -> B)) (x : z.validation A) (b : B) :
  f <*> x = z.Valid b -> exists g a, f = z.Valid g /\ x = z.Valid a /\ b = g a.
Proof.
  destruct f as [g|i], x as [a|j]; simpl; intros E; try discriminate.
  injection E as <-. eauto.
Qed.

Lemma ap_Invalid_r {A B : Type} (f : z.validation (A -> B)) (i : list Zod.issue) :
  exists j, f <*> z.Invalid i = z.Invalid j.
Proof. destruct f; simpl; eauto. Qed.

Lemma ap_Invalid_l {A B : Type} (i : list Zod.issue) (x : z.validation A) :
  exists j, @z.ap A B (z.Invalid i) x = z.Invalid j.
Proof. destruct x; simpl; eauto. Qed.

Lemma mapM_Ok_id {A : Type} (f : A -> result A) (l : list A) :
  Forall (fun a => f a = Ok a) l -> Pg.mapM f l = Ok l.
Proof.
  induction 1 as [|a rest Ha _ IH]; simpl; [reflexivity|].
  rewrite Ha. simpl. rewrite IH. reflexivity.
Qed.

Lemma split_avoids (c : ascii) (s : string) : avoids c s -> split c s = [s].
Proof.
  induction s as [|a rest IH]; simpl; [reflexivity|].
  intros [Ha Hrest]. rewrite Ha, (IH Hrest). reflexivity.
Qed.

Lemma split_cons (c : ascii) (a b : string) :
  avoids c a -> split c (a ++ String c b) = a :: split c b.
Proof.
  induction a as [|x rest IH]; simpl.
  - intros _. rewrite Ascii.eqb_refl. reflexivity.
  - intros [Hx Hrest]. rewrite Hx, (IH Hrest). reflexivity.
Qed.

Lemma split_append (c : ascii) (a b : string) :
  avoids c a -> split c (a ++ String c EmptyString ++ b) = a :: split c b.
Proof. exact (split_cons c a b). Qed.

Lemma avoids_append (c : ascii) (a b : string) :
  avoids c a -> avoids c b -> avoids c (a ++ b).
Proof. induction a as [|x rest IH]; simpl; [tauto|]. intros [Hx Hr] Hb. auto. Qed.

Lemma get_spread_other (k k' : string) (v : json) (o : object) :
  k' <> k -> get k' (spread k v o) = get k' o.
Proof.
  intros Hne. unfold spread. destruct (get k o); [reflexivity|].
  simpl. apply String.eqb_neq in Hne. rewrite Hne. reflexivity.
Qed.

(** ** The reference environment obeys the laws *)

Lemma avoids_encode (c : ascii) (s : string) :
  Ascii.eqb "0" c = false -> Ascii.eqb "1" c = false -> avoids c (Demo.encode s).
Proof.
  intros H0 H1. induction s as [|[b0 b1 b2 b3 b4 b5 b6 b7] rest IH]; simpl; [exact I|].
  assert (Hb : forall b, Ascii.eqb (Demo.bit b) c = false) by (intros []; assumption).
  repeat split; auto.
Qed.

Lemma avoids_encode_positive (c : ascii) (p : positive) :
  Ascii.eqb "0" c = false -> Ascii.eqb "1" c = false -> avoids c (Demo.encode_positive p).
Proof. intros H0 H1. induction p; simpl; auto. Qed.

Lemma avoids_encode_Z (c : ascii) (n : Z) :
  Ascii.eqb "0" c = false -> Ascii.eqb "1" c = false ->
  Ascii.eqb "z" c = false -> Ascii.eqb "p" c = false -> Ascii.eqb "n" c = false ->
  avoids c (Demo.encode_Z n).
Proof.
  intros H0 H1 Hz Hp Hn. destruct n; simpl; auto using avoids_encode_positive.
Qed.

Lemma decode_encode (s : string) : Demo.decode (Demo.encode s) = Some s.
Proof.
  induction s as [|[b0 b1 b2 b3 b4 b5 b6 b7] rest IH]; [reflexivity|].
  cbn [Demo.encode Demo.decode]. fold Demo.decode. rewrite IH.
  destruct b0, b1, b2, b3, b4, b5, b6, b7; reflexivity.
Qed.

Lemma decode_encode_positive (p : positive) :
  Demo.decode_positive (Demo.encode_positive p) = Some p.
Proof. induction p as [q IH|q IH|]; simpl; [rewrite IH | rewrite IH |]; reflexivity. Qed.

Lemma decode_encode_Z (n : Z) : Demo.decode_Z (Demo.encode_Z n) = Some n.
Proof. destruct n; simpl; [|rewrite decode_encode_positive..]; reflexivity. Qed.

Lemma sign_split (p : JwtPayload) (k : string) (ttl t : Z) :
  split "." (Demo.sign p k ttl t)
  = [Demo.encode (jwt_id p); Demo.encode (jwt_role p); Demo.encode k;
     Demo.encode_Z (t + ttl)].
Proof.
  unfold Demo.sign.
  rewrite !split_append by (apply avoids_encode; reflexivity).
  rewrite split_avoids by (apply avoids_encode_Z; reflexivity).
  reflexivity.
Qed.

Lemma sign_avoids_space (p : JwtPayload) (k : string) (ttl t : Z) :
  avoids " " (Demo.sign p k ttl t).
Proof.
  unfold Demo.sign.
  repeat (apply avoids_append;
          [first [apply avoids_encode; reflexivity | simpl; auto] |]).
  apply avoids_encode_Z; reflexivity.
Qed.

#[export] Instance demo_laws : EnvLaws Demo.env.
Proof.
  split.
  - reflexivity.
  - intros p k ttl t. apply sign_avoids_space.
  - intros p k ttl t. simpl. unfold Demo.sign.
    destruct (Demo.encode (jwt_id p)); discriminate.
  - intros p k ttl t t' Ht. simpl. unfold Demo.verify.
    rewrite sign_split, !decode_encode, decode_encode_Z, String.eqb_refl.
    destruct (Z.ltb_spec t' (t + ttl)); [destruct p; reflexivity | lia].
Qed.

(** ** Authentication *)

Section Authentication.
Context `{Env}.

Lemma token_of_scheme (scheme token : string) :
  scheme <> "" -> avoids " " scheme -> avoids " " token ->
  token_of (Some (scheme ++ " " ++ token)%string) = Some token.
Proof.
  intros Hne Hs Ht. unfold token_of.
  destruct (scheme ++ " " ++ token)%string eqn:E.
  - destruct scheme; [congruence | discriminate].
  - rewrite <- E, split_append, split_avoids by assumption. reflexivity.
Qed.

Lemma token_of_Bearer (token : string) :
  avoids " " token -> token_of (Some ("Bearer " ++ token)%string) = Some token.
Proof.
  intros Ht. apply (token_of_scheme (scheme := "Bearer")); [discriminate | | exact Ht].
  simpl. tauto.
Qed.

(** A request without an Authorization header carries no token. *)
Lemma token_of_no_header : token_of None = None.
Proof. reflexivity. Qed.

(** A request reaches its handler only with a token that verifies. *)
Lemma authenticateToken_Next (authHeader : option string) (now : Z) (user : JwtPayload) :
  authenticateToken authHeader now = Next user
  <-> exists token, token_of authHeader = Some token /\ token <> ""
                    /\ jwt_verify token JWT_SECRET now = inr user.
Proof.
  unfold authenticateToken. split.
  - destruct (token_of authHeader) as [[|c t]|]; try discriminate.
    destruct (jwt_verify (String c t) JWT_SECRET now) as [e|u] eqn:E; [discriminate|].
    intros Hn. injection Hn as ->. exists (String c t). repeat split; [discriminate | exact E].
  - intros (token & -> & Hne & Hv). destruct token; [congruence|]. rewrite Hv. reflexivity.
Qed.

(** C2, as amended: a request without a token is answered 401 and one whose
    token does not verify, be it malformed, forged or expired, is answered
    403; in both cases the route's handler is not run, whatever it is. *)
Theorem authenticateToken_rejections (authHeader : option string) (now : Z) (db : Db)
    (handler : JwtPayload -> Db * Response) :
  (token_of authHeader = None \/ token_of authHeader = Some "" ->
   protected authHeader now db handler = (db, res_sendStatus 401))
  /\ (forall token e,
        token_of authHeader = Some token -> token <> "" ->
        jwt_verify token JWT_SECRET now = inl e ->
        protected authHeader now db handler = (db, res_sendStatus 403)).
Proof.
  unfold protected, authenticateToken. split.
  - intros [E|E]; rewrite E; reflexivity.
  - intros token e E Hne Hv. rewrite E.
    destruct token as [|c rest]; [congruence|]. rewrite Hv. reflexivity.
Qed.

Lemma loginSchema_Ok (body : object) (identifier password : string) :
  get "username" body = Some (JStr identifier) ->
  get "password" body = Some (JStr password) ->
  identifier <> "" -> password <> "" ->
  loginSchema body = Ok {| LoginInput.username := identifier; LoginInput.password := password |}.
Proof.
  intros Hu Hp Hi Hw. unfold loginSchema, z.field. rewrite Hu, Hp.
  destruct identifier; [congruence|]. destruct password; [congruence|]. reflexivity.
Qed.

(** A body the login schema refuses is answered alike whatever the users
    table holds. *)
Lemma login_invalid_body (db : Db) (body : object) (now : Z) (e : error) :
  loginSchema body = Throw e ->
  post_auth_login db body now = (db, res_status_json 400 (error_message e)).
Proof. intros E. unfold post_auth_login. rewrite E. reflexivity. Qed.

Context {laws : EnvLaws _}.

(** The login schema accepts exactly the bodies whose [username] and
    [password] are non-empty strings. *)
Lemma loginSchema_cases (body : object) :
  (exists identifier password,
     get "username" body = Some (JStr identifier)
     /\ get "password" body = Some (JStr password)
     /\ identifier <> "" /\ password <> "")
  \/ exists e, loginSchema body = Throw e.
Proof.
  unfold loginSchema, z.field.
  destruct (get "username" body) as [[| | |[|c i]| |]|] eqn:Eu;
    destruct (get "password" body) as [[| | |[|d w]| |]|] eqn:Ep;
    try (right; eexists; reflexivity).
  left. exists (String c i), (String d w). repeat split; discriminate.
Qed.

(** C8: a login whose identifier finds a user and whose password matches
    that user's hash returns a token with which [authenticateToken] lets a
    request through to its handler, as that user, for the hour the token
    lasts; and the login of an identifier that finds no user and the login
    against a user with another password are answered by the same 401 and
    the same message. A body without a non-empty identifier and password is
    answered 400 before the users table is read, alike in every run. *)
Theorem login_token_and_uniform_failure (body : object) (now : Z) :
  (forall identifier password,
     get "username" body = Some (JStr identifier) ->
     get "password" body = Some (JStr password) ->
     identifier <> "" -> password <> "" ->
     (forall db u rest,
        users_by_login identifier (users db) = u :: rest ->
        bcrypt_compare password (User.password_hash u) = true ->
        exists token,
          post_auth_login db body now = (db, res_json (token_and_user token u))
          /\ forall now' db' handler,
               (now <= now' < now + 3600)%Z ->
               protected (Some ("Bearer " ++ token)%string) now' db' handler
               = handler {| jwt_id := User.id u; jwt_role := User.role u |})
     /\ (forall db1 db2 u rest,
           users_by_login identifier (users db1) = [] ->
           users_by_login identifier (users db2) = u :: rest ->
           bcrypt_compare password (User.password_hash u) = false ->
           post_auth_login db1 body now
           = (db1, res_status_json 401 (message "Authentication failed"))
           /\ post_auth_login db2 body now
              = (db2, res_status_json 401 (message "Authentication failed"))))
  /\ (forall e, loginSchema body = Throw e ->
      forall db, post_auth_login db body now
                 = (db, res_status_json 400 (error_message e))).
Proof.
  split; [|intros e He db; apply login_invalid_body; exact He].
  intros identifier password Hu Hp Hi Hw.
  pose proof (loginSchema_Ok body Hu Hp Hi Hw) as Hparse.
  split.
  - intros db u rest Hrows Hhash.
    set (payload := {| jwt_id := User.id u; jwt_role := User.role u |}).
    exists (jwt_sign payload JWT_SECRET 3600 now). split.
    + unfold post_auth_login. rewrite Hparse. simpl. rewrite Hrows, Hhash. reflexivity.
    + intros now' db' handler Hnow. unfold protected, authenticateToken.
      rewrite token_of_Bearer by apply jwt_sign_word.
      destruct (jwt_sign payload JWT_SECRET 3600 now) eqn:E.
      * exfalso. exact (jwt_sign_nonempty _ _ _ _ E).
      * rewrite <- E, jwt_verify_sign by exact Hnow. reflexivity.
  - intros db1 db2 u rest Hnone Hsome Hhash. unfold post_auth_login.
    rewrite Hparse. simpl. rewrite Hnone, Hsome, Hhash. split; reflexivity.
Qed.

End Authentication.

(** ** Deleting rows *)

Section Deleting.
Context {R : Type} (pk : R -> string).

Lemma delete_returning_absent (referenced : bool) (id : string) (table : list R) :
  Pg.where_id pk id table = [] ->
  Pg.delete_returning pk referenced id table = Ok (table, []).
Proof. intros E. unfold Pg.delete_returning. rewrite E. reflexivity. Qed.

Lemma delete_returning_referenced (id : string) (table : list R) :
  Pg.where_id pk id table <> [] ->
  Pg.delete_returning pk true id table = Throw (DatabaseError foreign_key_violation).
Proof.
  intros E. unfold Pg.delete_returning.
  destruct (Pg.where_id pk id table); [congruence | reflexivity].
Qed.

Lemma delete_returning_free (id : string) (table : list R) :
  Pg.where_id pk id table <> [] ->
  exists row rows,
    Pg.delete_returning pk false id table
    = Ok (Pg.where_not_id pk id table, row :: rows).
Proof.
  intros E. unfold Pg.delete_returning.
  destruct (Pg.where_id pk id table) as [|row rows]; [congruence | eauto].
Qed.

(** Once deleted, an id selects nothing. *)
Lemma where_id_deleted (id : string) (table : list R) :
  Pg.where_id pk id (Pg.where_not_id pk id table) = [].
Proof.
  unfold Pg.where_id, Pg.where_not_id. induction table as [|r rest IH]; simpl; [reflexivity|].
  destruct (String.eqb (pk r) id) eqn:E; simpl; [exact IH|].
  rewrite E. exact IH.
Qed.

(** The rows of every other id stay, in their order. *)
Lemma where_id_kept (id id' : string) (table : list R) :
  id' <> id ->
  Pg.where_id pk id' (Pg.where_not_id pk id table) = Pg.where_id pk id' table.
Proof.
  intros Hne. unfold Pg.where_id, Pg.where_not_id. induction table as [|r rest IH]; simpl; [reflexivity|].
  destruct (String.eqb (pk r) id) eqn:E; simpl.
  - apply String.eqb_eq in E.
    destruct (String.eqb (pk r) id') eqn:E'; [|exact IH].
    apply String.eqb_eq in E'. congruence.
  - rewrite IH. reflexivity.
Qed.

End Deleting.

Ltac delete_free Hrows :=
  match goal with
  | |- catch _ (bind (Pg.delete_returning ?pk false ?id ?table) _) = _ =>
      destruct (delete_returning_free pk id table Hrows) as (?row & ?rows & ->);
      reflexivity
  end.

Ltac delete_refused Hrows :=
  match goal with
  | |- catch _ (bind (Pg.delete_returning ?pk true ?id ?table) _) = _ =>
      rewrite (delete_returning_referenced pk id table Hrows); reflexivity
  end.

Section Users.
Context `{Env}.

(** The list of users is for administrators and managers. *)
Lemma get_users_forbidden (db : Db) (user : JwtPayload) (query : list (string * string)) :
  jwt_role user <> "admin" -> jwt_role user <> "manager" ->
  get_users db user query = (db, res_status_json 403 (message "Forbidden")).
Proof.
  intros Ha Hm. unfold get_users.
  apply String.eqb_neq in Ha, Hm. rewrite Ha, Hm. reflexivity.
Qed.

(** C4, as amended: a caller whose role is support is answered 403; an
    administrator who deletes an existing user that no appointment,
    communication log or settings row names is answered the fixed message
    "User deleted successfully", which does not carry the id, and the id then
    finds no user (404); an administrator who deletes a user that such a row
    names is answered 400 and the user stays. *)
Theorem delete_users_id_contract (db : Db) (user : JwtPayload) (id : string) :
  (jwt_role user = "support" ->
   delete_users_id db user id = (db, res_status_json 403 (message "Forbidden")))
  /\ (jwt_role user = "admin" -> Pg.where_id User.id id (users db) <> [] ->
      user_referenced db id = false ->
      let db' := with_users db (Pg.where_not_id User.id id (users db)) in
      delete_users_id db user id = (db', res_json (message "User deleted successfully"))
      /\ get_users_id db' id = (db', res_status_json 404 (message "User not found")))
  /\ (jwt_role user = "admin" -> Pg.where_id User.id id (users db) <> [] ->
      user_referenced db id = true ->
      delete_users_id db user id
      = (db, res_status_json 400 (error_message (DatabaseError foreign_key_violation)))
      /\ exists row, get_users_id db id = (db, res_json (user_row row))).
Proof.
  unfold delete_users_id. split; [|split].
  - intros ->. reflexivity.
  - intros -> Hrows ->. simpl. split.
    + delete_free Hrows.
    + unfold get_users_id. simpl. rewrite where_id_deleted. reflexivity.
  - intros -> Hrows ->. simpl. split.
    + delete_refused Hrows.
    + unfold get_users_id.
      destruct (Pg.where_id User.id id (users db)) as [|row rows]; [congruence | eauto].
Qed.

End Users.

(** ** Deleting a row that other rows reference *)

Section Cascade.
Context `{Env}.

(** C5, as amended: DELETE removes the rows of an existing id, and only
    those, when no row of another table references them, and never touches
    another table; by the foreign keys of [db.sql] a client that a property
    interest, appointment, communication log or document names, a property
    that an appointment names and a user that an appointment, communication
    log or settings row names are not removed: the request is answered 400
    and the database is as it was. *)
Theorem delete_respects_foreign_keys (db : Db) (id : string) :
  (Pg.where_id Client.id id (clients db) <> [] ->
   (client_referenced db id = false ->
    delete_clients_id db id
    = (with_clients db (Pg.where_not_id Client.id id (clients db)),
       res_json (message "Client deleted successfully")))
   /\ (client_referenced db id = true ->
       delete_clients_id db id
       = (db, res_status_json 400 (error_message (DatabaseError foreign_key_violation)))))
  /\ (Pg.where_id Property.id id (properties db) <> [] ->
      (property_referenced db id = false ->
       delete_properties_id db id
       = (with_properties db (Pg.where_not_id Property.id id (properties db)),
          res_json (message "Property deleted successfully")))
      /\ (property_referenced db id = true ->
          delete_properties_id db id
          = (db, res_status_json 400 (error_message (DatabaseError foreign_key_violation)))))
  /\ (forall user, jwt_role user = "admin" ->
      Pg.where_id User.id id (users db) <> [] ->
      (user_referenced db id = false ->
       delete_users_id db user id
       = (with_users db (Pg.where_not_id User.id id (users db)),
          res_json (message "User deleted successfully")))
      /\ (user_referenced db id = true ->
          delete_users_id db user id
          = (db, res_status_json 400 (error_message (DatabaseError foreign_key_violation)))))
  /\ (Pg.where_id ClientPropertyInterest.id id (client_property_interests db) <> [] ->
      delete_client_property_interests_id db id
      = (with_client_property_interests db
           (Pg.where_not_id ClientPropertyInterest.id id (client_property_interests db)),
         res_json (message "Record deleted successfully")))
  /\ (Pg.where_id Appointment.id id (appointments db) <> [] ->
      delete_appointments_id db id
      = (with_appointments db (Pg.where_not_id Appointment.id id (appointments db)),
         res_json (message "Appointment deleted successfully")))
  /\ (Pg.where_id CommunicationLog.id id (communication_logs db) <> [] ->
      delete_communication_logs_id db id
      = (with_communication_logs db
           (Pg.where_not_id CommunicationLog.id id (communication_logs db)),
         res_json (message "Communication log deleted successfully")))
  /\ (Pg.where_id ClientDocument.id id (client_documents db) <> [] ->
      delete_client_documents_id db id
      = (with_client_documents db
           (Pg.where_not_id ClientDocument.id id (client_documents db)),
         res_json (message "Client document deleted successfully"))).
Proof.
  unfold delete_clients_id, delete_properties_id, delete_users_id,
    delete_client_property_interests_id, delete_appointments_id,
    delete_communication_logs_id, delete_client_documents_id.
  repeat apply conj.
  - intros Hrows. split; intros ->; [delete_free Hrows | delete_refused Hrows].
  - intros Hrows. split; intros ->; [delete_free Hrows | delete_refused Hrows].
  - intros user -> Hrows. simpl. split; intros ->; [delete_free Hrows | delete_refused Hrows].
  - intros Hrows. delete_free Hrows.
  - intros Hrows. delete_free Hrows.
  - intros Hrows. delete_free Hrows.
  - intros Hrows. delete_free Hrows.
Qed.

(** A missing id is answered 404, and nothing changes. *)
Lemma delete_clients_id_absent (db : Db) (id : string) :
  Pg.where_id Client.id id (clients db) = [] ->
  delete_clients_id db id = (db, res_status_json 404 (message "Client not found")).
Proof.
  intros Hrows. unfold delete_clients_id.
  rewrite (delete_returning_absent Client.id _ id (clients db) Hrows).
  destruct db; reflexivity.
Qed.

End Cascade.

(** ** Updating a client *)

Lemma parse_Ok {A : Type} (v : z.validation A) (a : A) : z.parse v = Ok a -> v = z.Valid a.
Proof. destruct v; simpl; intros E; [injection E as -> | discriminate]; reflexivity. Qed.

Lemma field_Valid {A : Type} (o : object) (name : string) (k : z.key A) (a : A) :
  z.field o name k = z.Valid a -> k (get name o) = inr a.
Proof.
  unfold z.field. destruct (k (get name o)); intros E; [discriminate|].
  injection E as ->. reflexivity.
Qed.

(** An issue raised by one key is among the issues of the whole object. *)
Lemma ap_issue_r {A B : Type} (f : z.validation (A -> B)) (i : list Zod.issue)
    (i0 : Zod.issue) :
  In i0 i -> exists j, f <*> z.Invalid i = z.Invalid j /\ In i0 j.
Proof.
  intros Hin. destruct f as [g|i']; simpl; eexists; split; try reflexivity; auto.
  apply in_or_app. auto.
Qed.

Lemma ap_issue_l {A B : Type} (f : z.validation (A -> B)) (x : z.validation A)
    (i0 : Zod.issue) :
  (exists i, f = z.Invalid i /\ In i0 i) -> exists j, f <*> x = z.Invalid j /\ In i0 j.
Proof.
  intros (i & -> & Hin). destruct x as [a|i']; simpl; eexists; split; try reflexivity; auto.
  apply in_or_app. auto.
Qed.

Ltac invert_schema E :=
  apply parse_Ok in E;
  repeat (let g := fresh "g" in let a := fresh "a" in let Ea := fresh "Ea" in
          apply ap_Valid in E; destruct E as (g & a & E & Ea & ->);
          apply field_Valid in Ea);
  injection E as <-.

Ltac find_issue :=
  repeat first [ apply ap_issue_r; simpl; tauto | apply ap_issue_l ].

Lemma truthy_nonempty (o : option string) :
  (forall s, o = Some s -> s <> "") -> truthy o = o.
Proof.
  destruct o as [[|c s]|]; intros Hne; try reflexivity.
  exfalso. exact (Hne "" eq_refl eq_refl).
Qed.

Lemma where_id_map {R : Type} (pk : R -> string) (f : R -> R) (id : string) (table : list R) :
  (forall r, pk (f r) = pk r) ->
  Pg.where_id pk id (map (fun r => if String.eqb (pk r) id then f r else r) table)
  = map f (Pg.where_id pk id table).
Proof.
  intros Hpk. unfold Pg.where_id. induction table as [|r rest IH]; simpl; [reflexivity|].
  destruct (String.eqb (pk r) id) eqn:E.
  - rewrite Hpk, E. simpl. rewrite IH. reflexivity.
  - rewrite E. exact IH.
Qed.

Lemma where_id_map_other {R : Type} (pk : R -> string) (f : R -> R) (id id' : string)
    (table : list R) :
  (forall r, pk (f r) = pk r) -> id' <> id ->
  Pg.where_id pk id' (map (fun r => if String.eqb (pk r) id then f r else r) table)
  = Pg.where_id pk id' table.
Proof.
  intros Hpk Hne. unfold Pg.where_id.
  induction table as [|r rest IH]; simpl; [reflexivity|].
  destruct (String.eqb (pk r) id) eqn:E.
  - rewrite Hpk. apply String.eqb_eq in E.
    assert (En : String.eqb (pk r) id' = false) by (apply String.eqb_neq; congruence).
    rewrite En. exact IH.
  - rewrite IH. reflexivity.
Qed.

Section Clients.
Context `{Env}.

Lemma updateClientInputSchema_Ok (input : object) (parsed : UpdateClientInput.t) :
  updateClientInputSchema input = Ok parsed ->
  z.required z.string (get "id" input) = inr (UpdateClientInput.id parsed)
  /\ z.optional (z.min 1 z.string) (get "first_name" input)
     = inr (UpdateClientInput.first_name parsed)
  /\ z.optional (z.min 1 z.string) (get "last_name" input)
     = inr (UpdateClientInput.last_name parsed)
  /\ z.optional (z.email z.string) (get "email" input)
     = inr (UpdateClientInput.email parsed)
  /\ z.optional (z.min 1 z.string) (get "phone" input)
     = inr (UpdateClientInput.phone parsed)
  /\ z.optional (z.min 1 z.string) (get "address" input)
     = inr (UpdateClientInput.address parsed)
  /\ z.optional (z.min 1 z.string) (get "status" input)
     = inr (UpdateClientInput.status parsed)
  /\ z.optional (z.nullable z.any) (get "additional_details" input)
     = inr (UpdateClientInput.additional_details parsed).
Proof.
  unfold updateClientInputSchema. intros E. invert_schema E.
  simpl. repeat split; assumption.
Qed.

(** What an optional, non-empty string key lets through. *)
Lemma optional_min_string (v : option json) (o : option string) :
  z.optional (z.min 1 z.string) v = inr o ->
  (v = None /\ o = None) \/ (exists s, v = Some (JStr s) /\ o = Some s /\ s <> "").
Proof.
  unfold z.optional, z.min, z.refine, z.string.
  destruct v as [[| | |s| |]|]; try discriminate.
  - destruct s; simpl; intros E; [discriminate|]. injection E as <-.
    right. eexists. repeat split. discriminate.
  - intros E. injection E as <-. left. split; reflexivity.
Qed.

Lemma optional_email_string {laws : EnvLaws _} (v : option json) (o : option string) :
  z.optional (z.email z.string) v = inr o ->
  (v = None /\ o = None) \/ (exists s, v = Some (JStr s) /\ o = Some s /\ s <> "").
Proof.
  unfold z.optional, z.email, z.refine, z.string.
  destruct v as [[| | |s| |]|]; try discriminate.
  - destruct (is_email s) eqn:Es; intros E; [|discriminate]. injection E as <-.
    right. exists s. repeat split. intros ->. rewrite is_email_nonempty in Es. discriminate.
  - intros E. injection E as <-. left. split; reflexivity.
Qed.

Lemma optional_nullable_any (v : option json) (o : option (option json)) :
  z.optional (z.nullable z.any) v = inr o -> option_map or_null o = v.
Proof.
  unfold z.optional, z.nullable, z.any.
  destruct v as [[| | | | |]|]; intros E; injection E as <-; reflexivity.
Qed.

Lemma put_clients_id_parsed (db : Db) (id : string) (body : object) (now : string)
    (c : Client.t) (rest : list Client.t) (parsed : UpdateClientInput.t)
    (details : option json) :
  Pg.where_id Client.id id (clients db) = c :: rest ->
  updateClientInputSchema (spread "id" (JStr id) body) = Ok parsed ->
  truthy (UpdateClientInput.first_name parsed) = UpdateClientInput.first_name parsed ->
  truthy (UpdateClientInput.last_name parsed) = UpdateClientInput.last_name parsed ->
  truthy (UpdateClientInput.email parsed) = UpdateClientInput.email parsed ->
  truthy (UpdateClientInput.phone parsed) = UpdateClientInput.phone parsed ->
  truthy (UpdateClientInput.address parsed) = UpdateClientInput.address parsed ->
  truthy (UpdateClientInput.status parsed) = UpdateClientInput.status parsed ->
  match UpdateClientInput.additional_details parsed with
  | Some v => option_map Some (pg_json_in (or_null v))
  | None => Some None
  end = Some details ->
  let db' :=
    with_clients db
      (map (fun r => if String.eqb (Client.id r) id then merged parsed details now r else r)
           (clients db)) in
  put_clients_id db id body now = (db', res_json (client_row (merged parsed details now c)))
  /\ get_clients_id db' id = (db', res_json (client_row (merged parsed details now c))).
Proof.
  intros Hrows Hparse T1 T2 T3 T4 T5 T6 Hdetails. unfold put_clients_id.
  rewrite Hparse. cbn [bind]. rewrite T1, T2, T3, T4, T5, T6.
  destruct parsed as [pid fn ln em ph ad st det]. unfold merged.
  cbn [UpdateClientInput.first_name UpdateClientInput.last_name UpdateClientInput.email
       UpdateClientInput.phone UpdateClientInput.address UpdateClientInput.status
       UpdateClientInput.additional_details] in *.
  destruct det as [v|].
  - destruct (pg_json_in (or_null v)) as [j|] eqn:Ej; [|discriminate].
    injection Hdetails as <-.
    destruct fn, ln, em, ph, ad, st; cbn; rewrite Ej; cbn; rewrite Hrows; cbn;
      (split; [reflexivity|]); unfold get_clients_id; cbn [clients with_clients];
      rewrite where_id_map by (intros r; destruct r; reflexivity); rewrite Hrows;
      reflexivity.
  - injection Hdetails as <-.
    destruct fn, ln, em, ph, ad, st; cbn; rewrite Hrows; cbn;
      (split; [reflexivity|]); unfold get_clients_id; cbn [clients with_clients];
      rewrite where_id_map by (intros r; destruct r; reflexivity); rewrite Hrows;
      reflexivity.
Qed.

End Clients.

Section ClientUpdates.
Context `{Env} {laws : EnvLaws _}.

Ltac absent_or_supplied F :=
  let s := fresh "s" in
  let Hg := fresh "Hg" in let Hp := fresh "Hp" in let Hs := fresh "Hs" in
  destruct F as [(Hg & Hp) | (s & Hg & Hp & Hs)]; rewrite Hg, Hp in *.

(** C1, as amended: on a stored client, a PUT whose body is only a
    non-empty [status] succeeds, stores that status, leaves every other
    column but [updated_at] as it was, and a GET of the id then returns the
    merged record; an empty [status] is refused with 400 and nothing is
    stored. For every update the schema accepts, the columns whose key is
    absent from the body keep their value, the columns whose key is present
    take the body's value, [id] and [created_at] stay, the rows of other ids
    stay, and [updated_at] becomes the reading of the server's clock at the
    request (so it grows exactly when that clock has moved past the stored
    value). *)
Theorem put_clients_id_partial_update (db : Db) (id : string) (now : string)
    (c : Client.t) (rest : list Client.t) :
  Pg.where_id Client.id id (clients db) = c :: rest ->
  (forall v, v <> "" ->
     let c' := Client.Build_t (Client.id c) (Client.first_name c) (Client.last_name c)
                 (Client.email c) (Client.phone c) (Client.address c) v
                 (Client.additional_details c) (Client.created_at c) now in
     exists db',
       put_clients_id db id [("status", JStr v)] now = (db', res_json (client_row c'))
       /\ get_clients_id db' id = (db', res_json (client_row c')))
  /\ put_clients_id db id [("status", JStr "")] now
     = (db, res_status_json 400
              (error_message (ZodError [Zod.Issue "status" Zod.too_small])))
  /\ (forall body parsed,
        updateClientInputSchema (spread "id" (JStr id) body) = Ok parsed ->
        (forall v, get "additional_details" body = Some v -> pg_json_in v <> None) ->
        exists db' c',
          put_clients_id db id body now = (db', res_json (client_row c'))
          /\ get_clients_id db' id = (db', res_json (client_row c'))
          /\ Client.id c' = Client.id c
          /\ Client.created_at c' = Client.created_at c
          /\ Client.updated_at c' = now
          /\ Client.first_name c'
             = match get "first_name" body with
               | Some (JStr v) => v | _ => Client.first_name c end
          /\ Client.last_name c'
             = match get "last_name" body with
               | Some (JStr v) => v | _ => Client.last_name c end
          /\ Client.email c'
             = match get "email" body with
               | Some (JStr v) => v | _ => Client.email c end
          /\ Client.phone c'
             = match get "phone" body with
               | Some (JStr v) => v | _ => Client.phone c end
          /\ Client.address c'
             = match get "address" body with
               | Some (JStr v) => v | _ => Client.address c end
          /\ Client.status c'
             = match get "status" body with
               | Some (JStr v) => v | _ => Client.status c end
          /\ Client.additional_details c'
             = match get "additional_details" body with
               | Some v => or_else (pg_json_in v) JNull
               | None => Client.additional_details c
               end
          /\ (forall id', id' <> id ->
                Pg.where_id Client.id id' (clients db')
                = Pg.where_id Client.id id' (clients db))
          /\ db' = with_clients db (clients db')).
Proof.
  intros Hrows. split; [|split].
  - intros v Hv. cbv zeta.
    set (parsed := UpdateClientInput.Build_t id None None None None None (Some v) None).
    assert (Hparse : updateClientInputSchema (spread "id" (JStr id) [("status", JStr v)])
                     = Ok parsed).
    { destruct v; [congruence | reflexivity]. }
    assert (Htruthy : truthy (Some v) = Some v) by (destruct v; [congruence | reflexivity]).
    destruct (put_clients_id_parsed db id [("status", JStr v)] now (details := None)
                Hrows Hparse eq_refl eq_refl eq_refl eq_refl eq_refl Htruthy eq_refl)
      as [Hput Hget].
    eexists. split; [exact Hput | exact Hget].
  - reflexivity.
  - intros body parsed Hparse Hjson.
    destruct (updateClientInputSchema_Ok _ Hparse)
      as (_ & F1 & F2 & F3 & F4 & F5 & F6 & F7).
    rewrite get_spread_other in F1, F2, F3, F4, F5, F6, F7 by discriminate.
    apply optional_min_string in F1, F2, F4, F5, F6.
    apply optional_email_string in F3. apply optional_nullable_any in F7.
    assert (T : forall v o,
               (v = None /\ o = None)
               \/ (exists s, v = Some (JStr s) /\ o = Some s /\ s <> "") ->
               truthy o = o).
    { intros v o [[_ ->] | (s & _ & -> & Hs)]; [reflexivity|].
      destruct s; [congruence | reflexivity]. }
    assert (Hdetails : exists details,
               match UpdateClientInput.additional_details parsed with
               | Some v => option_map Some (pg_json_in (or_null v))
               | None => Some None
               end = Some details
               /\ or_else details (Client.additional_details c)
                  = match get "additional_details" body with
                    | Some v => or_else (pg_json_in v) JNull
                    | None => Client.additional_details c
                    end).
    { destruct (UpdateClientInput.additional_details parsed) as [v|]; simpl in F7;
        rewrite <- F7.
      - destruct (pg_json_in (or_null v)) as [j|] eqn:Ej.
        + exists (Some j). split; reflexivity.
        + exfalso. exact (Hjson (or_null v) (eq_sym F7) Ej).
      - exists None. split; reflexivity. }
    destruct Hdetails as (details & Hdetails & Hmerged).
    destruct (put_clients_id_parsed db id body now Hrows Hparse
                (T _ _ F1) (T _ _ F2) (T _ _ F3) (T _ _ F4) (T _ _ F5) (T _ _ F6) Hdetails)
      as [Hput Hget].
    eexists. exists (merged parsed details now c).
    split; [exact Hput|]. split; [exact Hget|].
    unfold merged. cbn [Client.id Client.created_at Client.updated_at Client.first_name
      Client.last_name Client.email Client.phone Client.address Client.status
      Client.additional_details].
    absent_or_supplied F1. all: absent_or_supplied F2. all: absent_or_supplied F3.
    all: absent_or_supplied F4. all: absent_or_supplied F5. all: absent_or_supplied F6.
    all: repeat split; try reflexivity; try exact Hmerged.
    all: intros id' Hne; cbn [clients with_clients];
      apply where_id_map_other; [intros r; reflexivity | exact Hne].
Qed.

End ClientUpdates.

Section Rejections.
Context `{Env} {laws : EnvLaws _}.

(** C6, as amended: a PUT that sets a required string column of a client
    to the empty string is not ignored: the schema refuses it, the request
    is answered 400 with a validation issue at that key, and the database is
    as it was. *)
Theorem put_clients_id_rejects_empty (db : Db) (id : string) (body : object)
    (now : string) (k : string) :
  In k ["first_name"; "last_name"; "email"; "phone"; "address"; "status"] ->
  get k body = Some (JStr "") ->
  exists issues,
    put_clients_id db id body now
    = (db, res_status_json 400 (error_message (ZodError issues)))
    /\ exists why, In (Zod.Issue k why) issues.
Proof.
  intros Hk Hget.
  assert (Hinvalid : exists issues why,
             z.parse (z.Valid UpdateClientInput.Build_t
               <*> z.field (spread "id" (JStr id) body) "id" (z.required z.string)
               <*> z.field (spread "id" (JStr id) body) "first_name"
                     (z.optional (z.min 1 z.string))
               <*> z.field (spread "id" (JStr id) body) "last_name"
                     (z.optional (z.min 1 z.string))
               <*> z.field (spread "id" (JStr id) body) "email"
                     (z.optional (z.email z.string))
               <*> z.field (spread "id" (JStr id) body) "phone"
                     (z.optional (z.min 1 z.string))
               <*> z.field (spread "id" (JStr id) body) "address"
                     (z.optional (z.min 1 z.string))
               <*> z.field (spread "id" (JStr id) body) "status"
                     (z.optional (z.min 1 z.string))
               <*> z.field (spread "id" (JStr id) body) "additional_details"
                     (z.optional (z.nullable z.any)))
             = Throw (ZodError issues) /\ In (Zod.Issue k why) issues).
  { assert (Hmin : z.field (spread "id" (JStr id) body) k (z.optional (z.min 1 z.string))
                   = z.Invalid [Zod.Issue k Zod.too_small]).
    { unfold z.field. rewrite get_spread_other, Hget; [reflexivity|].
      simpl in Hk. intuition (subst; discriminate). }
    assert (Hemail : z.field (spread "id" (JStr id) body) k (z.optional (z.email z.string))
                     = z.Invalid [Zod.Issue k Zod.invalid_string]).
    { unfold z.field. rewrite get_spread_other, Hget.
      - unfold z.optional, z.email, z.refine, z.string. rewrite is_email_nonempty.
        reflexivity.
      - simpl in Hk. intuition (subst; discriminate). }
    simpl in Hk.
    destruct Hk as [<-|[<-|[<-|[<-|[<-|[<-|[]]]]]]];
      first [rewrite Hmin | rewrite Hemail];
      match goal with
      | |- exists issues why, z.parse ?v = _ /\ In (Zod.Issue ?key _) _ =>
          match goal with
          | _ : context [Zod.Issue key ?w] |- _ =>
              assert (Hv : exists j, v = z.Invalid j /\ In (Zod.Issue key w) j)
                by find_issue;
              destruct Hv as (j & -> & Hin); exists j, w; split; [reflexivity | exact Hin]
          end
      end. }
  destruct Hinvalid as (issues & why & Hthrow & Hin).
  exists issues. split; [|exists why; exact Hin].
  unfold put_clients_id, updateClientInputSchema. rewrite Hthrow. reflexivity.
Qed.

End Rejections.

(** ** Updates that assign nothing *)

Section EmptyUpdates.
Context `{Env}.

(** C10: a PUT on a property interest, a communication log or a client
    document whose body has none of the keys the handler assigns is answered
    400, never 200 and never 404, whether or not the id exists: when the
    schema accepts the body, the UPDATE is sent with an empty SET list and
    the database refuses it; the database is as it was. The same PUT with an
    empty body on a stored client succeeds, and changes [updated_at] only. *)
Theorem put_without_fields (db : Db) (id : string) (body : object) :
  (get "property_type" body = None -> get "preferred_location" body = None ->
   get "price_min" body = None -> get "price_max" body = None ->
   get "additional_notes" body = None ->
   put_client_property_interests_id db id body
   = (db, res_status_json 400 (error_message
        match updateClientPropertyInterestInputSchema (spread "id" (JStr id) body) with
        | Ok _ => DatabaseError syntax_error
        | Throw e => e
        end)))
  /\ (get "communication_type" body = None -> get "note" body = None ->
      get "follow_up_flag" body = None -> get "timestamp" body = None ->
      put_communication_logs_id db id body
      = (db, res_status_json 400 (error_message
           match updateCommunicationLogInputSchema (spread "id" (JStr id) body) with
           | Ok _ => DatabaseError syntax_error
           | Throw e => e
           end)))
  /\ (get "document_name" body = None -> get "document_url" body = None ->
      get "document_type" body = None ->
      put_client_documents_id db id body
      = (db, res_status_json 400 (error_message
           match updateClientDocumentInputSchema (spread "id" (JStr id) body) with
           | Ok _ => DatabaseError syntax_error
           | Throw e => e
           end)))
  /\ (forall now c rest,
        Pg.where_id Client.id id (clients db) = c :: rest ->
        let c' := Client.Build_t (Client.id c) (Client.first_name c) (Client.last_name c)
                    (Client.email c) (Client.phone c) (Client.address c) (Client.status c)
                    (Client.additional_details c) (Client.created_at c) now in
        exists db',
          put_clients_id db id [] now = (db', res_json (client_row c'))
          /\ get_clients_id db' id = (db', res_json (client_row c'))
          /\ forall id', id' <> id ->
               Pg.where_id Client.id id' (clients db')
               = Pg.where_id Client.id id' (clients db)).
Proof.
  split; [|split; [|split]].
  - intros H1 H2 H3 H4 H5.
    unfold put_client_property_interests_id, updateClientPropertyInterestInputSchema.
    destruct (z.field (spread "id" (JStr id) body) "id" (z.required z.string));
      unfold z.field; rewrite !get_spread_other by discriminate;
      rewrite H1, H2, H3, H4, H5;
      destruct (z.optional z.string (get "client_id" body)); reflexivity.
  - intros H1 H2 H3 H4.
    unfold put_communication_logs_id, updateCommunicationLogInputSchema.
    destruct (z.field (spread "id" (JStr id) body) "id" (z.required z.string));
      unfold z.field; rewrite !get_spread_other by discriminate;
      rewrite H1, H2, H3, H4;
      destruct (z.optional z.string (get "client_id" body));
      destruct (z.optional z.string (get "user_id" body)); reflexivity.
  - intros H1 H2 H3.
    unfold put_client_documents_id, updateClientDocumentInputSchema.
    destruct (z.field (spread "id" (JStr id) body) "id" (z.required z.string));
      unfold z.field; rewrite !get_spread_other by discriminate;
      rewrite H1, H2, H3;
      destruct (z.optional z.string (get "client_id" body)); reflexivity.
  - intros now c rest Hrows. cbv zeta.
    set (parsed := UpdateClientInput.Build_t id None None None None None None None).
    destruct (put_clients_id_parsed db id [] now (parsed := parsed) (details := None)
                Hrows eq_refl eq_refl eq_refl eq_refl eq_refl eq_refl eq_refl eq_refl)
      as [Hput Hget].
    eexists. split; [exact Hput|]. split; [exact Hget|].
    intros id' Hne. cbn [clients with_clients].
    apply where_id_map_other; [intros r; reflexivity | exact Hne].
Qed.

End EmptyUpdates.

(** ** Listing clients *)

(** The pages LIMIT and OFFSET cut follow one another. *)
Lemma limit_offset_pages {R : Type} (rows : list R) :
  Pg.limit_offset 2 0 rows = Ok (firstn 2 rows)
  /\ Pg.limit_offset 2 2 rows = Ok (firstn 2 (skipn 2 rows))
  /\ firstn 2 rows ++ firstn 2 (skipn 2 rows) = firstn 4 rows.
Proof. destruct rows as [|a [|b [|c [|d rest]]]]; repeat split. Qed.

(** What the query-string parser hands the schema is a string. *)
Lemma query_object_get (query : list (string * string)) (k : string) :
  get k (query_object query) = None
  \/ exists v, get k (query_object query) = Some (JStr v).
Proof.
  induction query as [|[k' v] rest IH]; simpl; [left; reflexivity|].
  destruct (String.eqb k k'); [right; eauto | exact IH].
Qed.

Section Listing.
Context `{Env}.

(** Without [limit] and [offset] the list is the first ten clients, newest
    first. *)
Lemma get_clients_default (db : Db) :
  get_clients db []
  = (db, res_json (client_rows
       (firstn 10 (Pg.sort (fun a b => text_leb (Client.created_at b) (Client.created_at a))
                           (clients db))))).
Proof. reflexivity. Qed.

(** A [limit] in the query string never passes the schema. *)
Lemma get_clients_rejects_any_limit (db : Db) (query : list (string * string)) :
  get "limit" (query_object query) <> None ->
  exists issues,
    get_clients db query = (db, res_status_json 400 (error_message (ZodError issues)))
    /\ In (Zod.Issue "limit" Zod.invalid_type) issues.
Proof.
  intros Hlimit.
  destruct (query_object_get query "limit") as [E | (v & E)]; [congruence|].
  assert (Hv : exists j,
             z.Valid SearchInput.Build_t
               <*> z.field (query_object query) "query" (z.optional z.string)
               <*> z.field (query_object query) "limit"
                     (z.default 10%Z (z.positive (z.int z.number)))
               <*> z.field (query_object query) "offset"
                     (z.default 0%Z (z.nonnegative (z.int z.number)))
               <*> z.field (query_object query) "sort_by"
                     (z.default "created_at"
                        (z.enum ["first_name"; "last_name"; "created_at"]))
               <*> z.field (query_object query) "sort_order"
                     (z.default "desc" (z.enum ["asc"; "desc"]))
             = z.Invalid j /\ In (Zod.Issue "limit" Zod.invalid_type) j).
  { assert (Hf : z.field (query_object query) "limit"
                   (z.default 10%Z (z.positive (z.int z.number)))
                 = z.Invalid [Zod.Issue "limit" Zod.invalid_type]).
    { unfold z.field. rewrite E. reflexivity. }
    rewrite Hf. find_issue. }
  destruct Hv as (j & Hj & Hin). exists j. split; [|exact Hin].
  unfold get_clients, searchClientInputSchema, searchInputSchema. rewrite Hj. reflexivity.
Qed.

(** C7 (the code departs from it): the two requests of the claim, [limit=2]
    with [offset=0] and then with [offset=2], are both answered 400, whatever
    the table holds: [req.query] carries strings and the schema's
    [z.number()] takes none. *)
Theorem get_clients_rejects_limit_and_offset (db : Db) :
  get_clients db [("limit", "2"); ("offset", "0")]
  = (db, res_status_json 400 (error_message (ZodError
       [Zod.Issue "limit" Zod.invalid_type; Zod.Issue "offset" Zod.invalid_type])))
  /\ get_clients db [("limit", "2"); ("offset", "2")]
     = (db, res_status_json 400 (error_message (ZodError
          [Zod.Issue "limit" Zod.invalid_type; Zod.Issue "offset" Zod.invalid_type]))).
Proof. split; reflexivity. Qed.

End Listing.

(** ** Routes that another route shadows, and routes without a role check *)

(** From here on the reference environment runs the concrete requests. *)
#[local] Existing Instance Demo.env.

(** The export handler itself does what C9 says. *)
Lemma get_clients_export_empty `{Env} (db : Db) (user : JwtPayload) :
  jwt_role user = "admin" \/ jwt_role user = "support" ->
  get_clients_export (with_clients db []) user
  = (with_clients db [], res_status_json 404 (message "No clients found for export")).
Proof.
  intros [E|E]; unfold get_clients_export; rewrite E; reflexivity.
Qed.

(** C9 (the code departs from it): GET /api/clients/export never reaches the
    export handler. The route /api/clients/:id is registered before it and
    takes the request with [id] bound to "export"; so on an empty clients
    table an administrator is answered 404 "Client not found", not 404 "No
    clients found for export", and no CSV is ever produced. *)
Theorem export_route_is_shadowed :
  (forall (E : Env) db auth q b clock,
     app (H := E) db (request GET ["api"; "clients"; "export"] auth q b) clock
     = Some (protected (H := E) auth (seconds clock) db (fun _ => get_clients_id db "export")))
  /\ app (H := Demo.env) (with_clients Demo.seed []) (request GET ["api"; "clients"; "export"]
            (bearer admin_u1) [] []) noon
     = Some (with_clients Demo.seed [], res_status_json 404 (message "Client not found"))
  /\ app (H := Demo.env) Demo.seed (request GET ["api"; "clients"; "export"] (bearer admin_u1) [] []) noon
     = Some (Demo.seed, res_status_json 404 (message "Client not found")).
Proof.
  split; [|split].
  - intros E db auth q b clock. reflexivity.
  - vm_compute. reflexivity.
  - vm_compute. reflexivity.
Qed.

(** C3 (the code departs from it): GET /api/users/:id runs no role check.
    Its handler never reads [req.user], so an agent who asks for the
    administrator's record is answered 200 with the whole row, while the
    list, which does check, answers the same agent 403. *)
Theorem get_users_id_has_no_role_check :
  (forall (E : Env) db auth q b clock id,
     app (H := E) db (request GET ["api"; "users"; id] auth q b) clock
     = Some (protected (H := E) auth (seconds clock) db (fun _ => get_users_id db id)))
  /\ app (H := Demo.env) Demo.seed (request GET ["api"; "users"; "u1"] (bearer agent_u2) [] []) noon
     = Some (Demo.seed,
             res_json (user_row (Demo.user "u1" "admin_user" "admin@estatehub.co.uk"
                                   "hash_admin" "admin" "2023-10-01T12:00:00")))
  /\ app (H := Demo.env) Demo.seed (request GET ["api"; "users"] (bearer agent_u2) [] []) noon
     = Some (Demo.seed, res_status_json 403 (message "Forbidden")).
Proof.
  split; [|split].
  - intros E db auth q b clock id. reflexivity.
  - vm_compute. reflexivity.
  - vm_compute. reflexivity.
Qed.

(** ** Where the claims as stated fail *)

(** C1, as stated, fails: a PUT whose body is only [status], set to the
    empty string, does not succeed and stores nothing; and of two PUTs that
    the clock reads alike, the second leaves [updated_at] equal, not
    greater. *)
Lemma put_empty_status_is_refused :
  put_clients_id (H := Demo.env) Demo.seed "c1" [("status", JStr "")] first_of_may
  = (Demo.seed, res_status_json 400
       (error_message (ZodError [Zod.Issue "status" Zod.too_small])))
  /\ get_clients_id Demo.seed "c1" = (Demo.seed, res_json (client_row Demo.alice))
  /\ Client.status Demo.alice = "active"
  /\ (exists db1 db2 row,
        put_clients_id (H := Demo.env) Demo.seed "c1" [("status", JStr "prospective")]
          first_of_may = (db1, res_json (client_row alice_prospective))
        /\ put_clients_id (H := Demo.env) db1 "c1" [("status", JStr "active")] first_of_may
           = (db2, res_json (client_row row))
        /\ Client.updated_at row = Client.updated_at alice_prospective).
Proof.
  repeat split. eexists. eexists. eexists.
  split; [vm_compute; reflexivity|]. split; [vm_compute; reflexivity | reflexivity].
Qed.

(** C2, as stated, fails: a token that does not verify, and one that has
    expired, are answered 403, not 401. *)
Lemma invalid_and_expired_tokens_get_403 :
  authenticateToken (H := Demo.env) (Some "Bearer abc") 60 = Respond (res_sendStatus 403)
  /\ authenticateToken (H := Demo.env) (bearer agent_u2) 3599 = Next agent_u2
  /\ authenticateToken (H := Demo.env) (bearer agent_u2) 3600 = Respond (res_sendStatus 403).
Proof. repeat split; vm_compute; reflexivity. Qed.

(** C4, as stated, fails: the confirmation an administrator receives does
    not contain the id of the deleted user; and a user that a settings row
    names is not deleted: the request is answered 400 and the user is still
    there. *)
Lemma delete_user_confirmation_has_no_id :
  snd (delete_users_id Demo.seed admin_u1 "u5")
  = res_json (message "User deleted successfully")
  /\ Demo.contains "u5" "User deleted successfully" = false
  /\ delete_users_id Demo.seed admin_u1 "u1"
     = (Demo.seed, res_status_json 400 (error_message (DatabaseError foreign_key_violation)))
  /\ status (snd (get_users_id Demo.seed "u1")) = 200%Z.
Proof. repeat split. Qed.

(** C5, as stated, fails: deleting a client that property interests,
    appointments, communication logs and documents name is refused with 400,
    and the client stays. *)
Lemma delete_referenced_client_is_refused :
  Pg.where_id Client.id "c1" (clients Demo.seed) = [Demo.alice]
  /\ client_referenced Demo.seed "c1" = true
  /\ delete_clients_id Demo.seed "c1"
     = (Demo.seed, res_status_json 400 (error_message (DatabaseError foreign_key_violation))).
Proof. repeat split. Qed.

(** C6, as stated, fails: setting [first_name] to the empty string is
    refused with a validation error. *)
Lemma put_empty_first_name_is_refused :
  put_clients_id (H := Demo.env) Demo.seed "c1" [("first_name", JStr "")] first_of_may
  = (Demo.seed, res_status_json 400
       (error_message (ZodError [Zod.Issue "first_name" Zod.too_small]))).
Proof. reflexivity. Qed.

(** ** The theorems at work on the seed data *)

(** C1 on the seed data: client c1 becomes prospective; and a body that
    sets a first name and clears the details touches those two columns and
    the clock's. *)
Lemma put_clients_id_partial_update_witness :
  Pg.where_id Client.id "c1" (clients Demo.seed) = [Demo.alice]
  /\ "prospective" <> ""
  /\ (exists db',
        put_clients_id (H := Demo.env) Demo.seed "c1" [("status", JStr "prospective")]
          first_of_may = (db', res_json (client_row alice_prospective))
        /\ get_clients_id db' "c1" = (db', res_json (client_row alice_prospective)))
  /\ (exists db' c',
        put_clients_id (H := Demo.env) Demo.seed "c1" rename_alice first_of_may
        = (db', res_json (client_row c'))
        /\ Client.first_name c' = "Alicia"
        /\ Client.status c' = "active"
        /\ Client.additional_details c' = JNull
        /\ Client.updated_at c' = first_of_may).
Proof.
  pose proof (put_clients_id_partial_update (H := Demo.env) Demo.seed "c1" first_of_may
                (c := Demo.alice) (rest := []) eq_refl) as (Hstatus & _ & Hmerge).
  assert (Hne : "prospective" <> "") by discriminate.
  split; [reflexivity|]. split; [exact Hne|]. split; [exact (Hstatus "prospective" Hne)|].
  destruct (Hmerge rename_alice
              (UpdateClientInput.Build_t "c1" (Some "Alicia") None None None None None
                 (Some None)) eq_refl)
    as (db' & c' & Hput & _ & _ & _ & Hat & Hfirst & _ & _ & _ & _ & Hst & Hdet & _).
  - intros v Hv. injection Hv as <-. discriminate.
  - exists db', c'. repeat split; assumption.
Defined.

(** C2 on concrete headers: none, a scheme without a token, and a token
    that does not verify. *)
Lemma authenticateToken_rejections_witness :
  token_of None = None
  /\ protected (H := Demo.env) None 60 Demo.seed (fun _ => get_clients_id Demo.seed "c1")
     = (Demo.seed, res_sendStatus 401)
  /\ token_of (Some "Bearer ") = Some ""
  /\ protected (H := Demo.env) (Some "Bearer ") 60 Demo.seed
       (fun _ => get_clients_id Demo.seed "c1")
     = (Demo.seed, res_sendStatus 401)
  /\ token_of (Some "Bearer abc") = Some "abc"
  /\ jwt_verify (Env := Demo.env) "abc" JWT_SECRET 60 = inl JsonWebTokenError
  /\ protected (H := Demo.env) (Some "Bearer abc") 60 Demo.seed
       (fun _ => get_clients_id Demo.seed "c1")
     = (Demo.seed, res_sendStatus 403).
Proof.
  split; [reflexivity|]. split.
  { exact (proj1 (authenticateToken_rejections (H := Demo.env) None 60 Demo.seed
                    (fun _ => get_clients_id Demo.seed "c1")) (or_introl eq_refl)). }
  split; [reflexivity|]. split.
  { exact (proj1 (authenticateToken_rejections (H := Demo.env) (Some "Bearer ") 60
                    Demo.seed (fun _ => get_clients_id Demo.seed "c1"))
                 (or_intror eq_refl)). }
  split; [reflexivity|]. split; [reflexivity|].
  refine (proj2 (authenticateToken_rejections (H := Demo.env) (Some "Bearer abc") 60
                   Demo.seed (fun _ => get_clients_id Demo.seed "c1"))
                "abc" JsonWebTokenError eq_refl _ eq_refl).
  discriminate.
Defined.

(** C4 on the seed data: support is refused; the administrator deletes
    user u5, whom no row names, and cannot delete user u1, whom a settings
    row names. *)
Lemma delete_users_id_contract_witness :
  delete_users_id Demo.seed support_u4 "u5"
  = (Demo.seed, res_status_json 403 (message "Forbidden"))
  /\ Pg.where_id User.id "u5" (users Demo.seed) <> []
  /\ user_referenced Demo.seed "u5" = false
  /\ (let db' := with_users Demo.seed (Pg.where_not_id User.id "u5" (users Demo.seed)) in
      delete_users_id Demo.seed admin_u1 "u5"
      = (db', res_json (message "User deleted successfully"))
      /\ get_users_id db' "u5" = (db', res_status_json 404 (message "User not found")))
  /\ user_referenced Demo.seed "u1" = true
  /\ delete_users_id Demo.seed admin_u1 "u1"
     = (Demo.seed, res_status_json 400 (error_message (DatabaseError foreign_key_violation))).
Proof.
  assert (H5 : Pg.where_id User.id "u5" (users Demo.seed) <> []) by discriminate.
  assert (H1 : Pg.where_id User.id "u1" (users Demo.seed) <> []) by discriminate.
  split; [exact (proj1 (delete_users_id_contract Demo.seed support_u4 "u5") eq_refl)|].
  split; [exact H5|]. split; [reflexivity|].
  split; [exact (proj1 (proj2 (delete_users_id_contract Demo.seed admin_u1 "u5"))
                   eq_refl H5 eq_refl)|].
  split; [reflexivity|].
  exact (proj1 (proj2 (proj2 (delete_users_id_contract Demo.seed admin_u1 "u1"))
                  eq_refl H1 eq_refl)).
Defined.

(** C5 on the seed data: client c3, whom no row names, goes; client c1
    stays; a document goes. *)
Lemma delete_respects_foreign_keys_witness :
  Pg.where_id Client.id "c3" (clients Demo.seed) <> []
  /\ client_referenced Demo.seed "c3" = false
  /\ delete_clients_id Demo.seed "c3"
     = (with_clients Demo.seed [Demo.alice; Demo.bob],
        res_json (message "Client deleted successfully"))
  /\ Pg.where_id Client.id "c1" (clients Demo.seed) <> []
  /\ client_referenced Demo.seed "c1" = true
  /\ delete_clients_id Demo.seed "c1"
     = (Demo.seed, res_status_json 400 (error_message (DatabaseError foreign_key_violation)))
  /\ Pg.where_id ClientDocument.id "cd1" (client_documents Demo.seed) <> []
  /\ snd (delete_client_documents_id Demo.seed "cd1")
     = res_json (message "Client document deleted successfully").
Proof.
  assert (H3 : Pg.where_id Client.id "c3" (clients Demo.seed) <> []) by discriminate.
  assert (H1 : Pg.where_id Client.id "c1" (clients Demo.seed) <> []) by discriminate.
  assert (Hd : Pg.where_id ClientDocument.id "cd1" (client_documents Demo.seed) <> [])
    by discriminate.
  pose proof (delete_respects_foreign_keys Demo.seed "c3") as (Hc3 & _).
  pose proof (delete_respects_foreign_keys Demo.seed "c1") as (Hc1 & _).
  pose proof (delete_respects_foreign_keys Demo.seed "cd1")
    as (_ & _ & _ & _ & _ & _ & Hcd1).
  split; [exact H3|]. split; [reflexivity|].
  split; [exact (proj1 (Hc3 H3) eq_refl)|].
  split; [exact H1|]. split; [reflexivity|].
  split; [exact (proj2 (Hc1 H1) eq_refl)|].
  split; [exact Hd|]. rewrite (Hcd1 Hd). reflexivity.
Defined.

(** C6 on the seed data: an empty e-mail address is refused. *)
Lemma put_clients_id_rejects_empty_witness :
  In "email" ["first_name"; "last_name"; "email"; "phone"; "address"; "status"]
  /\ get "email" [("email", JStr "")] = Some (JStr "")
  /\ exists issues,
       put_clients_id (H := Demo.env) Demo.seed "c1" [("email", JStr "")] first_of_may
       = (Demo.seed, res_status_json 400 (error_message (ZodError issues)))
       /\ exists why, In (Zod.Issue "email" why) issues.
Proof.
  assert (Hin : In "email" ["first_name"; "last_name"; "email"; "phone"; "address"; "status"])
    by (simpl; tauto).
  split; [exact Hin|]. split; [reflexivity|].
  exact (@put_clients_id_rejects_empty Demo.env demo_laws Demo.seed "c1"
           [("email", JStr "")] first_of_may "email" Hin eq_refl).
Defined.

(** C8 on the seed data: agent_john logs in with the right password and is
    let through with the token; with another password, and on a database
    without users, the answers are the same 401; without a password, 400. *)
Lemma login_token_and_uniform_failure_witness :
  (exists token,
     post_auth_login (H := Demo.env) Demo.seed (credentials "agent_john" "john") 0
     = (Demo.seed, res_json (token_and_user token john))
     /\ forall now' db' handler,
          (0 <= now' < 0 + 3600)%Z ->
          protected (H := Demo.env) (Some ("Bearer " ++ token)%string) now' db' handler
          = handler agent_u2)
  /\ users_by_login "agent_john" (users (with_users Demo.seed [])) = []
  /\ bcrypt_compare (Env := Demo.env) "guess" (User.password_hash john) = false
  /\ post_auth_login (H := Demo.env) (with_users Demo.seed []) (credentials "agent_john" "guess") 0
     = (with_users Demo.seed [], res_status_json 401 (message "Authentication failed"))
  /\ post_auth_login (H := Demo.env) Demo.seed (credentials "agent_john" "guess") 0
     = (Demo.seed, res_status_json 401 (message "Authentication failed"))
  /\ post_auth_login (H := Demo.env) Demo.seed [("username", JStr "agent_john")] 0
     = (Demo.seed, res_status_json 400
          (error_message (ZodError [Zod.Issue "password" Zod.invalid_type]))).
Proof.
  assert (Hi : "agent_john" <> "") by discriminate.
  assert (Hp : "john" <> "") by discriminate.
  assert (Hg : "guess" <> "") by discriminate.
  pose proof (@login_token_and_uniform_failure Demo.env demo_laws
                (credentials "agent_john" "john") 0) as (Hjohn & _).
  pose proof (@login_token_and_uniform_failure Demo.env demo_laws
                (credentials "agent_john" "guess") 0) as (Hguess & _).
  pose proof (@login_token_and_uniform_failure Demo.env demo_laws
                [("username", JStr "agent_john")] 0) as (_ & Hnone).
  destruct (Hjohn "agent_john" "john" eq_refl eq_refl Hi Hp) as (Hgood & _).
  destruct (Hguess "agent_john" "guess" eq_refl eq_refl Hi Hg) as (_ & Hbad).
  split; [exact (Hgood Demo.seed john [] eq_refl eq_refl)|].
  split; [reflexivity|]. split; [reflexivity|].
  destruct (Hbad (with_users Demo.seed []) Demo.seed john [] eq_refl eq_refl eq_refl)
    as (H1 & H2).
  split; [exact H1|]. split; [exact H2|].
  exact (Hnone _ eq_refl Demo.seed).
Defined.

(** C10 on the seed data: three updates that assign nothing, one of them to
    an id that does not exist, and an empty update of client c2. *)
Lemma put_without_fields_witness :
  put_client_property_interests_id Demo.seed "cpi1" []
  = (Demo.seed, res_status_json 400 (error_message (DatabaseError syntax_error)))
  /\ put_communication_logs_id (H := Demo.env) Demo.seed "no-such-log" [("client_id", JStr "c2")]
     = (Demo.seed, res_status_json 400 (error_message (DatabaseError syntax_error)))
  /\ put_client_documents_id (H := Demo.env) Demo.seed "cd1" []
     = (Demo.seed, res_status_json 400 (error_message (DatabaseError syntax_error)))
  /\ Pg.where_id Client.id "c2" (clients Demo.seed) = [Demo.bob]
  /\ exists db',
       put_clients_id (H := Demo.env) Demo.seed "c2" [] first_of_may
       = (db', res_json (client_row
            (Client.Build_t "c2" "Bob" "Builder" "bob.builder@sample.co.uk" "07987654321"
               "456 High Street, Manchester, UK" "prospective" JNull
               "2023-10-02T14:00:00" first_of_may)))
       /\ Pg.where_id Client.id "c1" (clients db') = [Demo.alice].
Proof.
  pose proof (put_without_fields (H := Demo.env) Demo.seed "cpi1" []) as (Hi & _).
  pose proof (put_without_fields (H := Demo.env) Demo.seed "no-such-log"
                [("client_id", JStr "c2")]) as (_ & Hl & _).
  pose proof (put_without_fields (H := Demo.env) Demo.seed "cd1" []) as (_ & _ & Hd & _).
  pose proof (put_without_fields (H := Demo.env) Demo.seed "c2" []) as (_ & _ & _ & Hc).
  split; [exact (Hi eq_refl eq_refl eq_refl eq_refl eq_refl)|].
  split; [exact (Hl eq_refl eq_refl eq_refl eq_refl)|].
  split; [exact (Hd eq_refl eq_refl eq_refl)|].
  split; [reflexivity|].
  destruct (Hc first_of_may Demo.bob [] eq_refl) as (db' & Hput & _ & Hframe).
  exists db'. split; [exact Hput|].
  rewrite (Hframe "c1"); [reflexivity | discriminate].
Defined.
(** * More of the API, and the front end *)

(** ** Which route takes a request *)

(** A path that a literal takes, a parameter in its place takes too. *)
Lemma match_segments_param (a b c name : string) (path : list string) :
  match_segments [lit a; lit b; lit c] path <> None ->
  match_segments [lit a; lit b; param name] path <> None.
Proof.
  destruct path as [|x [|y [|w [|v rest]]]]; simpl; try congruence;
    destruct (String.eqb (toLowerCase a) (toLowerCase x)); try congruence;
    destruct (String.eqb (toLowerCase b) (toLowerCase y)); try congruence;
    destruct (String.eqb (toLowerCase c) (toLowerCase w)); congruence.
Qed.

Ltac next_route :=
  match goal with
  | |- context [match match_segments ?pat ?path with _ => _ end] =>
      let E := fresh "E" in destruct (match_segments pat path) eqn:E
  end.

(** X1: the routes that can be reached. No request, whatever its method and
    path, is dispatched to the export route, and every other route of the
    table takes at least one request. *)
Theorem export_is_the_only_dead_route :
  (forall m path params, dispatch m path <> Some (clients_export, params))
  /\ (forall r, r <> clients_export ->
      exists params, dispatch (fst (sample r)) (snd (sample r)) = Some (r, params)).
Proof.
  split.
  - intros m path params. unfold dispatch, routes, collection, item.
    destruct m; cbn [first_match Method_eqb match_pattern]; try (repeat next_route; congruence).
    repeat next_route; try congruence.
    exfalso.
    match goal with
    | Hn : match_segments [lit "api"; lit "clients"; param "id"] path = None,
      Hs : match_segments [lit "api"; lit "clients"; lit "export"] path = Some _ |- _ =>
        apply (@match_segments_param "api" "clients" "export" "id" path); [rewrite Hs; discriminate | exact Hn]
    end.
  - intros r Hr. destruct r; try congruence; eexists; vm_compute; reflexivity.
Qed.

(** ** What [authenticateToken] reads of the header *)

Section Header.
Context `{Env}.

Lemma token_of_second_word (scheme token rest : string) :
  scheme <> "" -> avoids " " scheme -> avoids " " token ->
  token_of (Some (scheme ++ " " ++ token ++ " " ++ rest)%string) = Some token.
Proof.
  intros Hne Hs Ht. unfold token_of.
  destruct (scheme ++ " " ++ token ++ " " ++ rest)%string eqn:E.
  - destruct scheme; [congruence | discriminate].
  - rewrite <- E, !split_append by assumption. reflexivity.
Qed.

(** X2: only the second word of the Authorization header counts. Whatever
    the scheme word is, and whatever follows the token after another space,
    the request is treated exactly as with [Bearer] and the token alone. *)
Theorem authenticateToken_reads_second_word (scheme token rest : string) (now : Z) :
  scheme <> "" -> avoids " " scheme -> avoids " " token ->
  authenticateToken (Some (scheme ++ " " ++ token)%string) now
  = authenticateToken (Some ("Bearer " ++ token)%string) now
  /\ authenticateToken (Some (scheme ++ " " ++ token ++ " " ++ rest)%string) now
     = authenticateToken (Some ("Bearer " ++ token)%string) now.
Proof.
  intros Hne Hs Ht. unfold authenticateToken.
  rewrite token_of_scheme, token_of_second_word, token_of_Bearer by assumption.
  split; reflexivity.
Qed.

End Header.

(** ** What a request can change *)

Lemma first_match_In (table : list (Method * pattern * route)) (m : Method)
    (path : list string) (r : route) (params : list (string * string)) :
  first_match table m path = Some (r, params) -> exists pat, In (m, pat, r) table.
Proof.
  induction table as [|[[m' pat] r'] rest IH]; simpl; [discriminate|].
  destruct (Method_eqb m m') eqn:Em.
  - destruct (match_pattern pat path).
    + intros E. injection E as <- <-. exists pat. left.
      destruct m, m'; try discriminate; reflexivity.
    + intros E. destruct (IH E) as (p & Hp). eauto.
  - intros E. destruct (IH E) as (p & Hp). eauto.
Qed.

(** An UPDATE that returns no row has changed none. *)
Lemma update_returning_none {R A : Type} (pk : R -> string) (convert : A -> result A)
    (assign : A -> R -> R) (fields : list A) (id : string) (table table' : list R) :
  Pg.update_returning pk convert assign fields id table = Ok (table', []) -> table' = table.
Proof.
  unfold Pg.update_returning. destruct fields as [|a fields]; [discriminate|].
  destruct (Pg.mapM convert (a :: fields)) as [bound|e]; [|discriminate].
  cbn [bind]. intros E. injection E as <- Hrows.
  apply map_eq_nil in Hrows. unfold Pg.where_id in Hrows.
  induction table as [|r rest IH]; [reflexivity|].
  simpl in *. destruct (String.eqb (pk r) id); [discriminate|].
  rewrite IH by exact Hrows. reflexivity.
Qed.

Lemma delete_returning_none {R : Type} (pk : R -> string) (referenced : bool) (id : string)
    (table table' : list R) :
  Pg.delete_returning pk referenced id table = Ok (table', []) -> table' = table.
Proof.
  unfold Pg.delete_returning. destruct (Pg.where_id pk id table); [congruence|].
  destruct referenced; discriminate.
Qed.

Ltac same_db := left; reflexivity.

(** An old-style handler around one UPDATE or DELETE. *)
Ltac one_statement none :=
  match goal with
  | |- context [catch _ (bind ?s _)] =>
      let table := fresh "table" in let rows := fresh "rows" in let E := fresh "E" in
      destruct s as [[table rows]|?] eqn:E; cbn [bind catch]; [|same_db];
      destruct rows; [|right; reflexivity];
      left; none E; subst table;
      match goal with db : Db |- _ => destruct db; reflexivity end
  end.

Ltac old_update schema :=
  match goal with
  | |- context [schema ?input] =>
      destruct (schema input); cbn [bind catch]; [|same_db];
      one_statement ltac:(fun E => apply update_returning_none in E)
  end.

Section Effects.
Context `{Env} `{Services}.

Lemma put_clients_id_effect (db : Db) (id : string) (body : object) (now : string) :
  fst (put_clients_id db id body now) = db
  \/ status (snd (put_clients_id db id body now)) = 200%Z.
Proof. unfold put_clients_id. old_update updateClientInputSchema. Qed.

Lemma put_client_property_interests_id_effect (db : Db) (id : string) (body : object) :
  fst (put_client_property_interests_id db id body) = db
  \/ status (snd (put_client_property_interests_id db id body)) = 200%Z.
Proof.
  unfold put_client_property_interests_id.
  old_update updateClientPropertyInterestInputSchema.
Qed.

Lemma put_communication_logs_id_effect (db : Db) (id : string) (body : object) :
  fst (put_communication_logs_id db id body) = db
  \/ status (snd (put_communication_logs_id db id body)) = 200%Z.
Proof. unfold put_communication_logs_id. old_update updateCommunicationLogInputSchema. Qed.

Lemma put_client_documents_id_effect (db : Db) (id : string) (body : object) :
  fst (put_client_documents_id db id body) = db
  \/ status (snd (put_client_documents_id db id body)) = 200%Z.
Proof. unfold put_client_documents_id. old_update updateClientDocumentInputSchema. Qed.

Lemma delete_users_id_effect (db : Db) (user : JwtPayload) (id : string) :
  fst (delete_users_id db user id) = db
  \/ status (snd (delete_users_id db user id)) = 200%Z.
Proof.
  unfold delete_users_id. destruct (negb _); [same_db|].
  one_statement ltac:(fun E => apply delete_returning_none in E).
Qed.

Lemma delete_clients_id_effect (db : Db) (id : string) :
  fst (delete_clients_id db id) = db \/ status (snd (delete_clients_id db id)) = 200%Z.
Proof. unfold delete_clients_id. one_statement ltac:(fun E => apply delete_returning_none in E). Qed.

Lemma delete_client_property_interests_id_effect (db : Db) (id : string) :
  fst (delete_client_property_interests_id db id) = db
  \/ status (snd (delete_client_property_interests_id db id)) = 200%Z.
Proof. unfold delete_client_property_interests_id. one_statement ltac:(fun E => apply delete_returning_none in E). Qed.

Lemma delete_properties_id_effect (db : Db) (id : string) :
  fst (delete_properties_id db id) = db \/ status (snd (delete_properties_id db id)) = 200%Z.
Proof. unfold delete_properties_id. one_statement ltac:(fun E => apply delete_returning_none in E). Qed.

Lemma delete_appointments_id_effect (db : Db) (id : string) :
  fst (delete_appointments_id db id) = db
  \/ status (snd (delete_appointments_id db id)) = 200%Z.
Proof. unfold delete_appointments_id. one_statement ltac:(fun E => apply delete_returning_none in E). Qed.

Lemma delete_communication_logs_id_effect (db : Db) (id : string) :
  fst (delete_communication_logs_id db id) = db
  \/ status (snd (delete_communication_logs_id db id)) = 200%Z.
Proof. unfold delete_communication_logs_id. one_statement ltac:(fun E => apply delete_returning_none in E). Qed.

Lemma delete_client_documents_id_effect (db : Db) (id : string) :
  fst (delete_client_documents_id db id) = db
  \/ status (snd (delete_client_documents_id db id)) = 200%Z.
Proof. unfold delete_client_documents_id. one_statement ltac:(fun E => apply delete_returning_none in E). Qed.

End Effects.

(** A handler of the second part, statement by statement. *)
Ltac raised := match goal with x : exception |- _ => destruct x; same_db end.

Ltac parse_body :=
  match goal with
  | |- context [and_then (attempted ?s) _] =>
      destruct s; cbn [attempted and_then rescue]; [|same_db]
  end.

Ltac run_statement :=
  match goal with
  | |- context [rescue _ (and_then ?s _)] =>
      let E := fresh "E" in
      destruct s as [[? ?]|?] eqn:E; cbn [attempted and_then rescue]; [|try same_db; raised]
  end.

Section MoreEffects.
Context `{Env} `{Services}.

Lemma post_users_effect (db : Db) (user : JwtPayload) (body : object) (now : string)
    (rt : Runtime) :
  fst (post_users db user body now rt) = db
  \/ code (snd (post_users db user body now rt)) = 201%Z.
Proof.
  unfold post_users. destruct (negb _); [same_db|].
  parse_body. run_statement. right. reflexivity.
Qed.

Lemma post_clients_effect (db : Db) (body : object) (now : string) (rt : Runtime) :
  fst (post_clients db body now rt) = db
  \/ code (snd (post_clients db body now rt)) = 201%Z.
Proof.
  unfold post_clients. parse_body.
  destruct (json_parameter _) as [details|x]; cbn [and_then rescue]; [|raised].
  run_statement. right. reflexivity.
Qed.

Lemma post_client_property_interests_effect (db : Db) (body : object) (now : string)
    (rt : Runtime) :
  fst (post_client_property_interests db body now rt) = db
  \/ code (snd (post_client_property_interests db body now rt)) = 201%Z.
Proof.
  unfold post_client_property_interests. parse_body. run_statement. right. reflexivity.
Qed.

Lemma post_properties_effect (db : Db) (body : object) (now : string) (rt : Runtime) :
  fst (post_properties db body now rt) = db
  \/ code (snd (post_properties db body now rt)) = 201%Z.
Proof. unfold post_properties. parse_body. run_statement. right. reflexivity. Qed.

Lemma post_appointments_effect (db : Db) (body : object) (now : string) (rt : Runtime) :
  fst (post_appointments db body now rt) = db
  \/ code (snd (post_appointments db body now rt)) = 201%Z.
Proof. unfold post_appointments. parse_body. run_statement. right. reflexivity. Qed.

Lemma post_communication_logs_effect (db : Db) (body : object) (rt : Runtime) :
  fst (post_communication_logs db body rt) = db
  \/ code (snd (post_communication_logs db body rt)) = 201%Z.
Proof. unfold post_communication_logs. parse_body. run_statement. right. reflexivity. Qed.

(** POST /api/client-documents stores nothing, whatever it is sent. *)
Lemma post_client_documents_refused (db : Db) (body : object) (rt : Runtime) :
  exists c, post_client_documents db body rt = (db, {| code := 400; content_of := c |}).
Proof.
  unfold post_client_documents.
  destruct (createClientDocumentInputSchema body); cbn; eexists; reflexivity.
Qed.

Lemma post_clients_import_unchanged (db : Db) (user : JwtPayload) (rt : Runtime) :
  fst (post_clients_import db user rt) = db.
Proof.
  unfold post_clients_import. destruct (_ && _); [reflexivity|].
  destruct (file rt); cbn; [|reflexivity]. destruct (sheet_to_json _); reflexivity.
Qed.

Ltac updated_rows :=
  match goal with
  | E : Pg.update_returning _ _ _ _ _ _ = Ok (_, ?rows) |- _ =>
      destruct rows; [|right; reflexivity];
      left; apply update_returning_none in E; subst;
      match goal with db : Db |- _ => destruct db; reflexivity end
  end.

Lemma put_users_id_effect (db : Db) (user : JwtPayload) (id : string) (body : object)
    (now : string) (rt : Runtime) :
  fst (put_users_id db user id body now rt) = db
  \/ code (snd (put_users_id db user id body now rt)) = 200%Z.
Proof.
  unfold put_users_id. destruct (negb _); [same_db|].
  parse_body.
  match goal with
  | |- context [Pg.update_returning ?pk ?c ?a ?f ?i ?t] =>
      destruct (Pg.update_returning pk c a f i t) as [[table rows]|e] eqn:E
  end; cbn [attempted and_then rescue]; [|same_db].
  destruct (_ || _); [same_db|]. cbn [rescue]. updated_rows.
Qed.

Lemma put_properties_id_effect (db : Db) (id : string) (body : object) (now : string) :
  fst (put_properties_id db id body now) = db
  \/ code (snd (put_properties_id db id body now)) = 200%Z.
Proof.
  unfold put_properties_id. parse_body.
  match goal with
  | |- context [Pg.update_returning ?pk ?c ?a ?f ?i ?t] =>
      destruct (Pg.update_returning pk c a f i t) as [[table rows]|e] eqn:E
  end; cbn [attempted and_then rescue]; [|same_db].
  updated_rows.
Qed.

Lemma put_appointments_id_effect (db : Db) (id : string) (body : object) (now : string) :
  fst (put_appointments_id db id body now) = db
  \/ code (snd (put_appointments_id db id body now)) = 200%Z.
Proof.
  unfold put_appointments_id. parse_body.
  match goal with
  | |- context [Pg.update_returning ?pk ?c ?a ?f ?i ?t] =>
      destruct (Pg.update_returning pk c a f i t) as [[table rows]|e] eqn:E
  end; cbn [attempted and_then rescue]; [|same_db].
  destruct (existsb _ _); [same_db|]. cbn [rescue]. updated_rows.
Qed.

Lemma put_user_settings_id_effect (db : Db) (id : string) (body : object) (now : string) :
  fst (put_user_settings_id db id body now) = db
  \/ code (snd (put_user_settings_id db id body now)) = 200%Z.
Proof.
  unfold put_user_settings_id. parse_body.
  match goal with
  | |- context [Pg.update_returning ?pk ?c ?a ?f ?i ?t] =>
      destruct (Pg.update_returning pk c a f i t) as [[table rows]|e] eqn:E
  end; cbn [attempted and_then rescue]; [|same_db].
  updated_rows.
Qed.

(** The handlers that only read. *)
Lemma post_auth_login_unchanged (db : Db) (body : object) (now : Z) :
  fst (post_auth_login db body now) = db.
Proof.
  unfold post_auth_login. destruct (loginSchema body); cbn; [|reflexivity].
  destruct (users_by_login _ _); [reflexivity|]. destruct (bcrypt_compare _ _); reflexivity.
Qed.

Lemma get_users_unchanged (db : Db) (user : JwtPayload) (query : list (string * string)) :
  fst (get_users db user query) = db.
Proof.
  unfold get_users. destruct (_ && _); [reflexivity|].
  destruct (searchUserInputSchema _); cbn [bind catch]; [|reflexivity].
  destruct (Pg.order_by _ _ _); cbn [bind catch]; [|reflexivity].
  destruct (Pg.limit_offset _ _ _); reflexivity.
Qed.

Lemma get_clients_unchanged (db : Db) (query : list (string * string)) :
  fst (get_clients db query) = db.
Proof.
  unfold get_clients.
  destruct (searchClientInputSchema _); cbn [bind catch]; [|reflexivity].
  destruct (Pg.order_by _ _ _); cbn [bind catch]; [|reflexivity].
  destruct (Pg.limit_offset _ _ _); reflexivity.
Qed.

Lemma get_properties_unchanged (db : Db) (query : list (string * string)) :
  fst (get_properties db query) = db.
Proof.
  unfold get_properties.
  destruct (searchPropertyInputSchema _); cbn [attempted and_then rescue]; [|reflexivity].
  destruct (order_rows _ _ _); cbn [attempted and_then rescue]; [|reflexivity].
  destruct (Pg.limit_offset _ _ _); reflexivity.
Qed.

Lemma get_clients_export_unchanged (db : Db) (user : JwtPayload) :
  fst (get_clients_export db user) = db.
Proof.
  unfold get_clients_export. destruct (_ && _); [reflexivity|].
  destruct (clients db); reflexivity.
Qed.

Ltac selected := 
  match goal with
  | |- context [Pg.where_id ?pk ?id ?t] => destruct (Pg.where_id pk id t); reflexivity
  end.

Lemma get_users_id_unchanged (db : Db) (id : string) : fst (get_users_id db id) = db.
Proof. unfold get_users_id. selected. Qed.

Lemma get_clients_id_unchanged (db : Db) (id : string) : fst (get_clients_id db id) = db.
Proof. unfold get_clients_id. selected. Qed.

Lemma get_client_property_interests_id_unchanged (db : Db) (id : string) :
  fst (get_client_property_interests_id db id) = db.
Proof. unfold get_client_property_interests_id. selected. Qed.

Lemma get_properties_id_unchanged (db : Db) (id : string) :
  fst (get_properties_id db id) = db.
Proof. unfold get_properties_id. selected. Qed.

Lemma get_appointments_id_unchanged (db : Db) (id : string) :
  fst (get_appointments_id db id) = db.
Proof. unfold get_appointments_id. selected. Qed.

Lemma get_communication_logs_id_unchanged (db : Db) (id : string) :
  fst (get_communication_logs_id db id) = db.
Proof. unfold get_communication_logs_id. selected. Qed.

Lemma get_client_documents_id_unchanged (db : Db) (id : string) :
  fst (get_client_documents_id db id) = db.
Proof. unfold get_client_documents_id. selected. Qed.

Lemma get_user_settings_unchanged (db : Db) (user_id : string) :
  fst (get_user_settings db user_id) = db.
Proof. unfold get_user_settings. selected. Qed.

Lemma post_client_documents_unchanged (db : Db) (body : object) (rt : Runtime) :
  fst (post_client_documents db body rt) = db.
Proof. destruct (post_client_documents_refused db body rt) as (c & ->). reflexivity. Qed.

Lemma post_auth_logout_unchanged (db : Db) : fst (post_auth_logout db) = db.
Proof. reflexivity. Qed.

Lemma get_client_property_interests_unchanged (db : Db) (query : list (string * string)) :
  fst (get_client_property_interests db query) = db.
Proof. reflexivity. Qed.

Lemma get_appointments_unchanged (db : Db) (query : list (string * string)) :
  fst (get_appointments db query) = db.
Proof. reflexivity. Qed.

Lemma get_communication_logs_unchanged (db : Db) (query : list (string * string)) :
  fst (get_communication_logs db query) = db.
Proof. reflexivity. Qed.

Lemma get_client_documents_unchanged (db : Db) (query : list (string * string)) :
  fst (get_client_documents db query) = db.
Proof. reflexivity. Qed.

End MoreEffects.

Create HintDb effects.

#[local] Hint Resolve put_clients_id_effect put_client_property_interests_id_effect
  put_communication_logs_id_effect put_client_documents_id_effect delete_users_id_effect
  delete_clients_id_effect delete_client_property_interests_id_effect
  delete_properties_id_effect delete_appointments_id_effect
  delete_communication_logs_id_effect delete_client_documents_id_effect
  post_users_effect post_clients_effect post_client_property_interests_effect
  post_properties_effect post_appointments_effect post_communication_logs_effect
  put_users_id_effect put_properties_id_effect put_appointments_id_effect
  put_user_settings_id_effect post_clients_import_unchanged post_auth_login_unchanged
  get_users_unchanged get_clients_unchanged get_properties_unchanged
  get_clients_export_unchanged get_users_id_unchanged get_clients_id_unchanged
  get_client_property_interests_id_unchanged get_properties_id_unchanged
  get_appointments_id_unchanged get_communication_logs_id_unchanged
  get_client_documents_id_unchanged get_user_settings_unchanged
  post_client_documents_unchanged post_auth_logout_unchanged
  get_client_property_interests_unchanged get_appointments_unchanged
  get_communication_logs_unchanged get_client_documents_unchanged : effects.

Lemma effect_of_post (m : Method) (db : Db) (out : Db * Reply) :
  m = POST -> fst out = db \/ code (snd out) = 201%Z ->
  fst out = db \/ (m = POST /\ code (snd out) = 201%Z)
  \/ ((m = PUT \/ m = DELETE) /\ code (snd out) = 200%Z).
Proof. tauto. Qed.

Lemma effect_of_put (m : Method) (db : Db) (out : Db * Reply) :
  m = PUT -> fst out = db \/ code (snd out) = 200%Z ->
  fst out = db \/ (m = POST /\ code (snd out) = 201%Z)
  \/ ((m = PUT \/ m = DELETE) /\ code (snd out) = 200%Z).
Proof. tauto. Qed.

Lemma effect_of_old (m : Method) (db : Db) (out : Db * Response) :
  m = PUT \/ m = DELETE -> fst out = db \/ status (snd out) = 200%Z ->
  fst out = db \/ (m = POST /\ code (upgrade (snd out)) = 201%Z)
  \/ ((m = PUT \/ m = DELETE) /\ code (upgrade (snd out)) = 200%Z).
Proof. simpl. tauto. Qed.

(** The method a route is registered under. *)
Ltac route_method Hin :=
  repeat match type of Hin with
         | _ \/ _ => destruct Hin as [Hin|Hin]; [try discriminate Hin|]
         | False => contradiction
         end.

Lemma dispatch_In (m : Method) (path : list string) (r : route)
    (params : list (string * string)) :
  dispatch m path = Some (r, params) -> exists pat, In (m, pat, r) routes.
Proof. unfold dispatch. apply first_match_In. Qed.

(** Comparing two routings of a request whose path is not known gains
    nothing from unfolding the route table. *)
Strategy opaque [dispatch routes].

Section Writes.
Context `{Env} `{Services}.

(** X3: a request changes the database only when it is answered with
    success: a POST with 201, a PUT or a DELETE with 200. Every other answer
    of the API, and every answer to a GET, leaves each table as it was. *)
Theorem api_writes_only_on_success (db db' : Db) (req : Request) (clock : Clock)
    (rt : Runtime) (r : Reply) :
  api db req clock rt = Some (db', r) ->
  db' = db
  \/ (method req = POST /\ code r = 201%Z)
  \/ ((method req = PUT \/ method req = DELETE) /\ code r = 200%Z).
Proof.
  intros E.
  assert (Hout : exists out, Some out = Some (db', r) /\
            (fst out = db \/ (method req = POST /\ code (snd out) = 201%Z)
             \/ ((method req = PUT \/ method req = DELETE) /\ code (snd out) = 200%Z))).
  2:{ destruct Hout as (out & Eo & Ho). injection Eo as ->. exact Ho. }
  unfold api in E. unfold app in E.
  destruct (dispatch (method req) (path req)) as [[r0 params]|] eqn:D; [|discriminate].
  destruct (dispatch_In _ _ D) as (pat & Hin).
  destruct r0; with_strategy transparent [routes] (simpl in Hin); route_method Hin; injection Hin as Hm _;
    try discriminate E; unfold protected in E;
    destruct (authenticateToken (authorization req) (seconds clock)) as [r1|user];
    cbv beta iota in E;
    try (eexists; split; [exact E | left; reflexivity]).
  all: try (eexists; split; [exact E|];
            first [ left; solve [auto with effects nocore]
                  | apply effect_of_post; [congruence | solve [auto with effects nocore]]
                  | apply effect_of_put; [congruence | solve [auto with effects nocore]] ]).
  all: match type of E with
       | context [match ?h with _ => _ end] =>
           first [ assert (L : fst h = db) by auto with effects nocore
                 | assert (L : fst h = db \/ status (snd h) = 200%Z) by auto with effects nocore ];
           destruct h as [d r2]; cbn [fst snd] in L;
           eexists; split; [exact E|]; cbn [fst snd]
       end.
  all: first [ left; exact L
             | destruct L as [L|L];
               [left; exact L | right; right; split; [rewrite <- Hm; auto | exact L]] ].
Qed.

End Writes.



(** ** What every request preserves *)

Section Preserved.
Context `{Env} `{Services}.
Variable P : Db -> Prop.

Hypothesis post_users_keeps : forall db user body now rt,
  P db -> P (fst (post_users db user body now rt)).
Hypothesis put_users_id_keeps : forall db user id body now rt,
  P db -> P (fst (put_users_id db user id body now rt)).
Hypothesis delete_users_id_keeps : forall db user id,
  P db -> P (fst (delete_users_id db user id)).
Hypothesis post_clients_keeps : forall db body now rt,
  P db -> P (fst (post_clients db body now rt)).
Hypothesis put_clients_id_keeps : forall db id body now,
  P db -> P (fst (put_clients_id db id body now)).
Hypothesis delete_clients_id_keeps : forall db id,
  P db -> P (fst (delete_clients_id db id)).
Hypothesis post_client_property_interests_keeps : forall db body now rt,
  P db -> P (fst (post_client_property_interests db body now rt)).
Hypothesis put_client_property_interests_id_keeps : forall db id body,
  P db -> P (fst (put_client_property_interests_id db id body)).
Hypothesis delete_client_property_interests_id_keeps : forall db id,
  P db -> P (fst (delete_client_property_interests_id db id)).
Hypothesis post_properties_keeps : forall db body now rt,
  P db -> P (fst (post_properties db body now rt)).
Hypothesis put_properties_id_keeps : forall db id body now,
  P db -> P (fst (put_properties_id db id body now)).
Hypothesis delete_properties_id_keeps : forall db id,
  P db -> P (fst (delete_properties_id db id)).
Hypothesis post_appointments_keeps : forall db body now rt,
  P db -> P (fst (post_appointments db body now rt)).
Hypothesis put_appointments_id_keeps : forall db id body now,
  P db -> P (fst (put_appointments_id db id body now)).
Hypothesis delete_appointments_id_keeps : forall db id,
  P db -> P (fst (delete_appointments_id db id)).
Hypothesis post_communication_logs_keeps : forall db body rt,
  P db -> P (fst (post_communication_logs db body rt)).
Hypothesis put_communication_logs_id_keeps : forall db id body,
  P db -> P (fst (put_communication_logs_id db id body)).
Hypothesis delete_communication_logs_id_keeps : forall db id,
  P db -> P (fst (delete_communication_logs_id db id)).
Hypothesis put_client_documents_id_keeps : forall db id body,
  P db -> P (fst (put_client_documents_id db id body)).
Hypothesis delete_client_documents_id_keeps : forall db id,
  P db -> P (fst (delete_client_documents_id db id)).
Hypothesis put_user_settings_id_keeps : forall db id body now,
  P db -> P (fst (put_user_settings_id db id body now)).

(** A property of the database that each writing handler keeps, every
    request keeps. *)
Lemma api_preserves (db db' : Db) (req : Request) (clock : Clock) (rt : Runtime)
    (r : Reply) :
  api db req clock rt = Some (db', r) -> P db -> P db'.
Proof.
  intros E HP.
  assert (Hout : exists out, Some out = Some (db', r) /\ P (fst out)).
  2:{ destruct Hout as (out & Eo & Ho). injection Eo as ->. exact Ho. }
  unfold api in E. unfold app in E.
  destruct (dispatch (method req) (path req)) as [[r0 params]|] eqn:D; [|discriminate].
  destruct r0; try discriminate E; unfold protected in E;
    destruct (authenticateToken (authorization req) (seconds clock)) as [r1|user];
    cbv beta iota in E;
    try (eexists; split; [exact E | exact HP]).
  all: try (eexists; split; [exact E|];
            first [ solve [auto]
                  | match goal with
                    | |- P (fst ?h) =>
                        replace (fst h) with db by (symmetry; auto with effects nocore);
                        exact HP
                    end ]).
  all: match type of E with
       | context [match ?h with _ => _ end] =>
           first [ assert (L : P (fst h)) by auto
                 | assert (L : P (fst h))
                     by (replace (fst h) with db by (symmetry; auto with effects nocore);
                         exact HP) ];
           destruct h as [d r2]; eexists; split; [exact E | exact L]
       end.
Qed.

End Preserved.

Strategy transparent [dispatch routes].

(** ** Creating a client *)

Lemma required_min_string (v : option json) (s : string) :
  z.required (z.min 1 z.string) v = inr s -> v = Some (JStr s) /\ s <> "".
Proof.
  unfold z.required, z.min, z.refine, z.string.
  destruct v as [[| | |t| |]|]; try discriminate.
  destruct t; simpl; intros E; [discriminate|]. injection E as <-. split; [reflexivity|discriminate].
Qed.

Lemma required_email_string `{Env} {laws : EnvLaws _} (v : option json) (s : string) :
  z.required (z.email z.string) v = inr s -> v = Some (JStr s) /\ s <> "".
Proof.
  unfold z.required, z.email, z.refine, z.string.
  destruct v as [[| | |t| |]|]; try discriminate.
  destruct (is_email t) eqn:Et; intros E; [|discriminate]. injection E as <-.
  split; [reflexivity|]. intros ->. rewrite is_email_nonempty in Et. discriminate.
Qed.

Lemma where_id_app {R : Type} (pk : R -> string) (id : string) (a b : list R) :
  Pg.where_id pk id (a ++ b) = Pg.where_id pk id a ++ Pg.where_id pk id b.
Proof. unfold Pg.where_id. apply filter_app. Qed.

Lemma has_id_where_id {R : Type} (pk : R -> string) (id : string) (table : list R) :
  has_id pk id table = false <-> Pg.where_id pk id table = [].
Proof.
  unfold has_id, Pg.where_id. induction table as [|r rest IH]; simpl; [tauto|].
  destruct (String.eqb (pk r) id); simpl; [split; discriminate | exact IH].
Qed.

Section Creating.
Context `{Env} {laws : EnvLaws _}.

(** X4: a client that passes the schema and whose identifier is free is
    stored as sent. The answer is 201 with the new row: its identifier is the
    one minted, both timestamps are the clock's reading, the six text columns
    are the strings of the body; the row is appended to the table, a GET of
    its identifier returns it, and every other identifier selects what it
    selected before. *)
Theorem post_clients_round_trip (db : Db) (body : object) (now : string) (rt : Runtime)
    (parsed : CreateClientInput.t) (details : json) :
  createClientInputSchema body = Ok parsed ->
  pg_json_in (json_or_null (CreateClientInput.additional_details parsed)) = Some details ->
  has_id Client.id (uuidv4 rt) (clients db) = false ->
  exists row,
    let db' := with_clients db (clients db ++ [row]) in
    post_clients db body now rt = (db', reply 201 (client_row row))
    /\ Client.id row = uuidv4 rt
    /\ Client.created_at row = now /\ Client.updated_at row = now
    /\ get "first_name" body = Some (JStr (Client.first_name row))
    /\ get "last_name" body = Some (JStr (Client.last_name row))
    /\ get "email" body = Some (JStr (Client.email row))
    /\ get "phone" body = Some (JStr (Client.phone row))
    /\ get "address" body = Some (JStr (Client.address row))
    /\ get "status" body = Some (JStr (Client.status row))
    /\ Client.additional_details row = details
    /\ get_clients_id db' (uuidv4 rt) = (db', res_json (client_row row))
    /\ forall id, id <> uuidv4 rt ->
         Pg.where_id Client.id id (clients db') = Pg.where_id Client.id id (clients db).
Proof.
  intros Hparse Hdetails Hfree.
  pose proof Hparse as E. unfold createClientInputSchema in E. invert_schema E.
  cbn [CreateClientInput.additional_details] in Hdetails.
  eexists. cbv zeta. split.
  { unfold post_clients. rewrite Hparse. cbn [attempted and_then].
    unfold json_parameter. cbn [CreateClientInput.additional_details]. rewrite Hdetails.
    cbn [and_then]. unfold Sql.insert_returning.
    unfold has_id in Hfree. cbn [Client.id]. rewrite Hfree. cbn. reflexivity. }
  cbn [Client.id Client.created_at Client.updated_at Client.first_name Client.last_name
       Client.email Client.phone Client.address Client.status Client.additional_details
       CreateClientInput.first_name CreateClientInput.last_name CreateClientInput.email
       CreateClientInput.phone CreateClientInput.address CreateClientInput.status].
  repeat match goal with
         | Ha : z.required (z.min 1 z.string) _ = inr _ |- _ =>
             apply required_min_string in Ha; destruct Ha as [Ha _]
         | Ha : z.required (z.email z.string) _ = inr _ |- _ =>
             apply required_email_string in Ha; destruct Ha as [Ha _]
         end.
  repeat (split; [first [reflexivity | assumption]|]).
  split.
  - unfold get_clients_id. cbn [clients with_clients]. rewrite where_id_app.
    apply has_id_where_id in Hfree. rewrite Hfree. cbn. rewrite String.eqb_refl. reflexivity.
  - intros id Hne. cbn [clients with_clients]. rewrite where_id_app. cbn.
    assert (En : String.eqb (uuidv4 rt) id = false) by (apply String.eqb_neq; congruence).
    rewrite En. apply app_nil_r.
Qed.

End Creating.

Section CreatingRejected.
Context `{Env} {laws : EnvLaws _}.

Lemma required_min_refuses (v : option json) :
  (forall s, v = Some (JStr s) -> s = "") ->
  exists why, z.required (z.min 1 z.string) v = inl why.
Proof.
  intros Hv. unfold z.required, z.min, z.refine, z.string.
  destruct v as [[| | |s| |]|]; try (eexists; reflexivity).
  rewrite (Hv s eq_refl). eexists. reflexivity.
Qed.

Lemma required_email_refuses (v : option json) :
  (forall s, v = Some (JStr s) -> s = "") ->
  exists why, z.required (z.email z.string) v = inl why.
Proof.
  intros Hv. unfold z.required, z.email, z.refine, z.string.
  destruct v as [[| | |s| |]|]; try (eexists; reflexivity).
  rewrite (Hv s eq_refl), is_email_nonempty. eexists. reflexivity.
Qed.

(** X5: POST /api/clients requires each of its six text fields. When one of
    them is missing, is not a string or is the empty string, the request is
    answered 400 with a validation issue at that key and nothing is
    stored. *)
Theorem post_clients_requires_every_field (db : Db) (body : object) (now : string)
    (rt : Runtime) (k : string) :
  In k ["first_name"; "last_name"; "email"; "phone"; "address"; "status"] ->
  (forall s, get k body = Some (JStr s) -> s = "") ->
  exists issues,
    post_clients db body now rt = (db, reply 400 (error_message (ZodError issues)))
    /\ exists why, In (Zod.Issue k why) issues.
Proof.
  intros Hk Hget.
  destruct (required_min_refuses Hget) as (w1 & Hmin).
  destruct (required_email_refuses Hget) as (w2 & Hemail).
  assert (Fmin : z.field body k (z.required (z.min 1 z.string)) = z.Invalid [Zod.Issue k w1])
    by (unfold z.field; rewrite Hmin; reflexivity).
  assert (Femail : z.field body k (z.required (z.email z.string)) = z.Invalid [Zod.Issue k w2])
    by (unfold z.field; rewrite Hemail; reflexivity).
  assert (Hinvalid : exists issues why,
            createClientInputSchema body = Throw (ZodError issues)
            /\ In (Zod.Issue k why) issues).
  { unfold createClientInputSchema. simpl in Hk.
    destruct Hk as [<-|[<-|[<-|[<-|[<-|[<-|[]]]]]]];
      first [rewrite Fmin | rewrite Femail];
      match goal with
      | |- exists issues why, z.parse ?v = _ /\ In (Zod.Issue ?key _) _ =>
          match goal with
          | _ : context [Zod.Issue key ?w] |- _ =>
              assert (Hv : exists j, v = z.Invalid j /\ In (Zod.Issue key w) j)
                by find_issue;
              destruct Hv as (j & -> & Hin); exists j, w; split; [reflexivity | exact Hin]
          end
      end. }
  destruct Hinvalid as (issues & why & Hthrow & Hin).
  exists issues. split; [|exists why; exact Hin].
  unfold post_clients. rewrite Hthrow. reflexivity.
Qed.

End CreatingRejected.

(** ** Creating a user *)

Section CreatingUsers.
Context `{Env} `{Services} {laws : EnvLaws _} {more : ServicesLaws _ _}.

Lemma createUserInputSchema_Ok (body : object) (username email password role : string) :
  get "username" body = Some (JStr username) ->
  get "email" body = Some (JStr email) ->
  get "password_hash" body = Some (JStr password) ->
  get "role" body = Some (JStr role) ->
  username <> "" -> is_email email = true -> password <> "" -> role <> "" ->
  createUserInputSchema body
  = Ok {| CreateUserInput.username := username; CreateUserInput.email := email;
          CreateUserInput.password_hash := password; CreateUserInput.role := role |}.
Proof.
  intros Hu He Hp Hr Nu Ee Np Nr.
  unfold createUserInputSchema, z.field, createUserInputSchema_username,
    createUserInputSchema_password_hash, z.required, z.email, z.min, z.refine, z.string.
  rewrite Hu, He, Hp, Hr, Ee.
  destruct username; [congruence|]. destruct password; [congruence|].
  destruct role; [congruence|]. reflexivity.
Qed.

Lemma users_by_login_app (identifier : string) (a b : list User.t) :
  users_by_login identifier (a ++ b)
  = users_by_login identifier a ++ users_by_login identifier b.
Proof. unfold users_by_login. apply filter_app. Qed.

(** X6: an administrator creates a user, and that user can log in. When
    the body passes the schema, the minted identifier is free, and no stored
    user has the new username (as username or as e-mail) or the new e-mail,
    the answer is 201 with the new row, which holds the hash of the password
    and not the password sent; a login with the new username and that
    password then succeeds, with a token for the new user. *)
Theorem post_users_then_login (db : Db) (user : JwtPayload) (body : object) (now : string)
    (rt : Runtime) (t : Z) (username email password role : string) :
  jwt_role user = "admin" ->
  get "username" body = Some (JStr username) ->
  get "email" body = Some (JStr email) ->
  get "password_hash" body = Some (JStr password) ->
  get "role" body = Some (JStr role) ->
  username <> "" -> is_email email = true -> password <> "" -> role <> "" ->
  has_id User.id (uuidv4 rt) (users db) = false ->
  users_by_login username (users db) = [] ->
  existsb (fun u => String.eqb (User.email u) email) (users db) = false ->
  let row := User.Build_t (uuidv4 rt) username email (bcrypt_hash password 10 (salt rt))
               role now now in
  let db' := with_users db (users db ++ [row]) in
  post_users db user body now rt = (db', reply 201 (user_row row))
  /\ post_auth_login db' (credentials username password) t
     = (db', res_json (token_and_user
                         (jwt_sign {| jwt_id := uuidv4 rt; jwt_role := role |}
                                   JWT_SECRET 3600 t) row)).
Proof.
  intros Hadmin Hu He Hp Hr Nu Ee Np Nr Hfree Hnew Hmail row db'.
  assert (Hname : existsb (fun u => String.eqb (User.username u) username) (users db) = false).
  { unfold users_by_login in Hnew. clear - Hnew.
    induction (users db) as [|u rest IH]; simpl in *; [reflexivity|].
    destruct (String.eqb (User.username u) username); simpl in *; [discriminate|].
    destruct (String.eqb (User.email u) username); simpl in *; [discriminate|].
    exact (IH Hnew). }
  split.
  - unfold post_users. rewrite Hadmin.
    change (negb (String.eqb "admin" "admin")) with false. cbv iota.
    rewrite (createUserInputSchema_Ok body Hu He Hp Hr Nu Ee Np Nr).
    cbn [attempted and_then CreateUserInput.username CreateUserInput.email
         CreateUserInput.password_hash CreateUserInput.role User.username User.email].
    unfold Sql.insert_returning. unfold has_id in Hfree. cbn [User.id].
    rewrite Hfree, Hname, Hmail. reflexivity.
  - unfold post_auth_login.
    rewrite (loginSchema_Ok (credentials username password) (identifier := username)
               (password := password)) by (reflexivity || assumption).
    cbn [bind LoginInput.username LoginInput.password]. subst db'.
    cbn [users with_users]. rewrite users_by_login_app, Hnew. cbn [app].
    unfold users_by_login, row. cbn [filter User.username User.email].
    rewrite String.eqb_refl, app_nil_l. cbn [orb User.password_hash User.id User.role].
    rewrite bcrypt_compare_hash. reflexivity.
Qed.

(** X7: POST /api/users refuses whoever is not an administrator with 403,
    and refuses a username or an e-mail that a stored user already has with
    400; in both cases no row is added. *)
Theorem post_users_refusals (db : Db) (user : JwtPayload) (body : object) (now : string)
    (rt : Runtime) :
  (jwt_role user <> "admin" ->
   post_users db user body now rt = (db, reply 403 (message "Forbidden")))
  /\ (forall parsed,
        jwt_role user = "admin" ->
        createUserInputSchema body = Ok parsed ->
        existsb (fun u => String.eqb (User.username u) (CreateUserInput.username parsed))
                (users db) = true
        \/ existsb (fun u => String.eqb (User.email u) (CreateUserInput.email parsed))
                   (users db) = true ->
        post_users db user body now rt
        = (db, {| code := 400; content_of := exception_message unique_violation |})).
Proof.
  split.
  - intros Hrole. unfold post_users. apply String.eqb_neq in Hrole. rewrite Hrole. reflexivity.
  - intros parsed Hadmin Hparse Htaken. unfold post_users.
    rewrite Hadmin, Hparse. change (negb (String.eqb "admin" "admin")) with false.
    cbv iota. cbn [attempted and_then User.username User.email].
    unfold Sql.insert_returning.
    destruct Htaken as [-> | ->]; rewrite ?orb_true_r; reflexivity.
Qed.

End CreatingUsers.

(** ** Changing a password *)



Section Passwords.
Context `{Env} `{Services} {laws : EnvLaws _} {more : ServicesLaws _ _}.


End Passwords.

(** ** An interest and the client it names *)

Lemma where_not_id_fresh {R : Type} (pk : R -> string) (id : string) (table : list R) :
  has_id pk id table = false -> Pg.where_not_id pk id table = table.
Proof.
  unfold has_id, Pg.where_not_id. induction table as [|r rest IH]; simpl; [reflexivity|].
  destruct (String.eqb (pk r) id); simpl; [discriminate|].
  intros E. rewrite (IH E). reflexivity.
Qed.

Lemma where_not_id_app {R : Type} (pk : R -> string) (id : string) (a b : list R) :
  Pg.where_not_id pk id (a ++ b) = Pg.where_not_id pk id a ++ Pg.where_not_id pk id b.
Proof. unfold Pg.where_not_id. apply filter_app. Qed.

Section Interests.
Context `{Env}.

(** X9: an interest must name a stored client, and then holds it. When
    the body passes the schema and the minted identifier is free: if no
    client has the [client_id] sent, the answer is 400 and nothing is stored;
    if one has, the answer is 201 with the new row, after which a DELETE of
    that client is refused with 400 and leaves every table as it is, while a
    DELETE of the new interest is answered 200 and leaves the database
    exactly as it was before the interest was created. *)
Theorem interest_names_a_client (db : Db) (body : object) (now : string) (rt : Runtime)
    (parsed : CreateClientPropertyInterestInput.t) :
  createClientPropertyInterestInputSchema body = Ok parsed ->
  has_id ClientPropertyInterest.id (uuidv4 rt) (client_property_interests db) = false ->
  let client := CreateClientPropertyInterestInput.client_id parsed in
  (has_id Client.id client (clients db) = false ->
   post_client_property_interests db body now rt
   = (db, reply 400 (error_message (DatabaseError foreign_key_violation))))
  /\ (has_id Client.id client (clients db) = true ->
      exists row,
        let db' := with_client_property_interests db (client_property_interests db ++ [row]) in
        post_client_property_interests db body now rt = (db', reply 201 (interest_row row))
        /\ ClientPropertyInterest.id row = uuidv4 rt
        /\ ClientPropertyInterest.client_id row = client
        /\ delete_clients_id db' client
           = (db', res_status_json 400 (error_message (DatabaseError foreign_key_violation)))
        /\ delete_client_property_interests_id db' (uuidv4 rt)
           = (db, res_json (message "Record deleted successfully"))).
Proof.
  intros Hparse Hfree client. split.
  - intros Hnone. unfold post_client_property_interests. rewrite Hparse.
    cbn [attempted and_then ClientPropertyInterest.client_id]. fold client. rewrite Hnone.
    unfold Sql.insert_returning. unfold has_id in Hfree.
    cbn [negb ClientPropertyInterest.id]. rewrite Hfree. reflexivity.
  - intros Hsome. eexists. cbv zeta. split.
    { unfold post_client_property_interests. rewrite Hparse.
      cbn [attempted and_then ClientPropertyInterest.client_id]. fold client. rewrite Hsome.
      unfold Sql.insert_returning. unfold has_id in Hfree.
      cbn [negb ClientPropertyInterest.id]. rewrite Hfree. reflexivity. }
    cbn [ClientPropertyInterest.id ClientPropertyInterest.client_id]. fold client.
    split; [reflexivity|]. split; [reflexivity|]. split.
    + unfold delete_clients_id.
      assert (Href : client_referenced
                       (with_client_property_interests db
                          (client_property_interests db ++
                           [ClientPropertyInterest.Build_t (uuidv4 rt) client
                              (CreateClientPropertyInterestInput.property_type parsed)
                              (CreateClientPropertyInterestInput.preferred_location parsed)
                              (nullable (CreateClientPropertyInterestInput.price_min parsed))
                              (nullable (CreateClientPropertyInterestInput.price_max parsed))
                              (nullable
                                 (CreateClientPropertyInterestInput.additional_notes parsed))
                              now])) client = true).
      { unfold client_referenced. cbn [client_property_interests with_client_property_interests].
        rewrite existsb_app. cbn [existsb ClientPropertyInterest.client_id].
        rewrite String.eqb_refl, !orb_true_r. reflexivity. }
      rewrite Href. cbn [clients with_client_property_interests].
      rewrite delete_returning_referenced; [reflexivity|].
      intros Hnil. apply has_id_where_id in Hnil. congruence.
    + unfold delete_client_property_interests_id, Pg.delete_returning.
      cbn [client_property_interests with_client_property_interests].
      apply has_id_where_id in Hfree as Hnil.
      rewrite where_id_app, Hnil, where_not_id_app, where_not_id_fresh by exact Hfree.
      unfold Pg.where_id, Pg.where_not_id. cbn [filter ClientPropertyInterest.id].
      rewrite String.eqb_refl. cbn [negb List.app bind catch].
      rewrite app_nil_r. destruct db; reflexivity.
Qed.

End Interests.

(** ** Values a property cannot be given *)

Section Properties.
Context `{Env}.


(** X11: an empty description is stored as NULL. When the body of POST
    /api/properties passes the schema and the minted identifier is free, the
    answer is 201 with the new row, and the row's description is NULL when
    the body's [description] is absent, [null] or the empty string, and the
    string sent otherwise. *)
Theorem post_properties_description (db : Db) (body : object) (now : string) (rt : Runtime)
    (parsed : CreatePropertyInput.t) :
  createPropertyInputSchema body = Ok parsed ->
  has_id Property.id (uuidv4 rt) (properties db) = false ->
  exists row,
    post_properties db body now rt
    = (with_properties db (properties db ++ [row]),
       {| code := 201; content_of := property_row row |})
    /\ Property.description row
       = match get "description" body with
         | Some (JStr (String c s)) => Some (String c s)
         | _ => None
         end.
Proof.
  intros Hparse Hfree. pose proof Hparse as E.
  unfold createPropertyInputSchema in E. invert_schema E.
  eexists. split.
  - unfold post_properties. rewrite Hparse. cbn [attempted and_then].
    unfold Sql.insert_returning. unfold has_id in Hfree. cbn [Property.id].
    rewrite Hfree. reflexivity.
  - cbn [Property.description CreatePropertyInput.description].
    match goal with
    | Ha : z.optional (z.nullable z.string) (get "description" body) = inr _ |- _ =>
        unfold z.optional, z.nullable, z.string in Ha;
        destruct (get "description" body) as [[| | |[|c s]| |]|];
        try discriminate Ha; injection Ha as <-; reflexivity
    end.
Qed.

End Properties.

(** ** Settings *)

#[export] Instance demo_more_laws : ServicesLaws Demo.env demo_services.
Proof.
  split.
  - intros password rounds salt. simpl. apply String.eqb_refl.
  - intros v. discriminate.
Qed.

Lemma update_returning_absent {R A : Type} (pk : R -> string) (convert : A -> result A)
    (assign : A -> R -> R) (fields : list A) (id : string) (table : list R) :
  Pg.where_id pk id table = [] -> fields <> [] ->
  (exists bound, Pg.mapM convert fields = Ok bound) ->
  Pg.update_returning pk convert assign fields id table = Ok (table, []).
Proof.
  intros Hnone Hfields (bound & Hb). unfold Pg.update_returning.
  destruct fields as [|a fields]; [congruence|]. rewrite Hb. cbn [bind].
  rewrite Hnone. cbn [map]. f_equal. f_equal.
  unfold Pg.where_id in Hnone. induction table as [|r rest IH]; [reflexivity|].
  simpl in *. destruct (String.eqb (pk r) id); [discriminate|].
  rewrite IH by exact Hnone. reflexivity.
Qed.

Section Settings.
Context `{Env} `{Services} {more : ServicesLaws _ _}.

Lemma mapM_convert_settings (fields : list UserSettingsSet.t) :
  exists bound, Pg.mapM UserSettingsSet.convert fields = Ok bound.
Proof.
  induction fields as [|a rest (bound & IH)]; [eexists; reflexivity|].
  cbn [Pg.mapM]. rewrite IH.
  destruct a as [v|v|v|v]; cbn [UserSettingsSet.convert];
    try (destruct (stringified_json_in v) eqn:E;
         [|exfalso; exact (stringified_json_in_accepts v E)]);
    eexists; reflexivity.
Qed.

(** X12: settings are read by user and written by row. GET
    /api/user-settings/:user_id selects by the column [user_id], PUT
    /api/user-settings/:id by the column [id]. So for a user who has a
    settings row, when no settings row has that user's identifier as its own
    [id], the GET under the user's identifier answers 200 with the row and
    the PUT under the same identifier, with any body the schema accepts,
    answers 404 and changes nothing. *)
Theorem settings_read_by_user_written_by_id (db : Db) (user_id : string) (body : object)
    (now : string) (s : UserSettings.t) (rest : list UserSettings.t)
    (parsed : UpdateUserSettingsInput.t) :
  Pg.where_id UserSettings.user_id user_id (user_settings db) = s :: rest ->
  has_id UserSettings.id user_id (user_settings db) = false ->
  updateUserSettingsInputSchema (spread "id" (JStr user_id) body) = Ok parsed ->
  get_user_settings db user_id = (db, {| code := 200; content_of := settings_row s |})
  /\ put_user_settings_id db user_id body now
     = (db, reply 404 (message "Settings not found")).
Proof.
  intros Hs Hnone Hparse. split.
  - unfold get_user_settings. rewrite Hs. reflexivity.
  - unfold put_user_settings_id. rewrite Hparse. cbn [attempted and_then].
    rewrite update_returning_absent.
    + cbn [attempted and_then rescue]. destruct db; reflexivity.
    + apply has_id_where_id. exact Hnone.
    + destruct (truthy_value (UpdateUserSettingsInput.dashboard_preferences parsed)),
        (truthy_value (UpdateUserSettingsInput.notification_settings parsed)),
        (truthy_value (UpdateUserSettingsInput.configuration parsed)); discriminate.
    + apply mapM_convert_settings.
Qed.

End Settings.

Section SettingsFalsy.
Context `{Env} `{Services}.

Lemma falsy_is_not_assigned (v : option json) :
  match v with Some j => truthy_json j = false | None => True end ->
  exists o, z.optional (z.nullable z.any) v = inr o /\ truthy_value o = None.
Proof.
  unfold z.optional, z.nullable, z.any.
  destruct v as [[| | | | |]|]; cbn [truthy_json]; intros Hv; eexists;
    (split; [reflexivity|]); cbn [truthy_value truthy_json]; try rewrite Hv; try reflexivity;
    discriminate.
Qed.

(** X13: an update cannot clear a settings column. For a stored settings
    row and a body in which each of [dashboard_preferences],
    [notification_settings] and [configuration] is absent or falsy ([null],
    [false], 0 or the empty string), the answer is 200 and the row keeps all
    three values: only [updated_at] changes, to the clock's reading. *)
Theorem put_user_settings_id_cannot_clear (db : Db) (id : string) (body : object)
    (now : string) (s : UserSettings.t) :
  Pg.where_id UserSettings.id id (user_settings db) = [s] ->
  get "id" body = None -> get "user_id" body = None ->
  (forall k, In k ["dashboard_preferences"; "notification_settings"; "configuration"] ->
             match get k body with Some j => truthy_json j = false | None => True end) ->
  let s' := UserSettings.Build_t (UserSettings.id s) (UserSettings.user_id s)
              (UserSettings.dashboard_preferences s) (UserSettings.notification_settings s)
              (UserSettings.configuration s) now in
  exists db',
    put_user_settings_id db id body now = (db', {| code := 200; content_of := settings_row s' |})
    /\ Pg.where_id UserSettings.id id (user_settings db') = [s'].
Proof.
  intros Hrow Gid Gu Hfalsy s'.
  destruct (falsy_is_not_assigned _ (Hfalsy "dashboard_preferences" ltac:(simpl; tauto)))
    as (o1 & E1 & T1).
  destruct (falsy_is_not_assigned _ (Hfalsy "notification_settings" ltac:(simpl; tauto)))
    as (o2 & E2 & T2).
  destruct (falsy_is_not_assigned _ (Hfalsy "configuration" ltac:(simpl; tauto)))
    as (o3 & E3 & T3).
  assert (Hparse : updateUserSettingsInputSchema (spread "id" (JStr id) body)
                   = Ok (UpdateUserSettingsInput.Build_t id None o1 o2 o3)).
  { unfold updateUserSettingsInputSchema, z.field, spread. rewrite Gid.
    cbn [get String.eqb Ascii.eqb Bool.eqb]. rewrite Gu, E1, E2, E3. reflexivity. }
  unfold put_user_settings_id. rewrite Hparse.
  cbn [attempted and_then UpdateUserSettingsInput.dashboard_preferences
       UpdateUserSettingsInput.notification_settings UpdateUserSettingsInput.configuration].
  rewrite T1, T2, T3. cbn [push_if List.app].
  unfold Pg.update_returning.
  cbn [Pg.mapM UserSettingsSet.convert bind attempted and_then]. rewrite Hrow.
  cbn [map fold_left rescue]. eexists. split; [destruct s; reflexivity|].
  cbn [user_settings with_user_settings].
  rewrite where_id_map by (intros r; destruct r; reflexivity).
  rewrite Hrow. destruct s; reflexivity.
Qed.

End SettingsFalsy.

(** ** Listing appointments *)

Lemma query_param_other (k k' v : string) (query : list (string * string)) :
  k' <> k -> query_param k ((k', v) :: query) = query_param k query.
Proof.
  intros Hne. unfold query_param. cbn [find fst].
  apply String.eqb_neq in Hne. rewrite Hne. reflexivity.
Qed.

Lemma push_if_condition {R : Type} (o : option string) (column : R -> string) (r : R) :
  forallb (fun c => c r) (push_if o (fun v r => String.eqb (column r) v)) = true
  <-> forall v, o = Some v -> column r = v.
Proof.
  destruct o as [w|]; cbn [push_if forallb].
  - rewrite andb_true_r, String.eqb_eq. split.
    + intros E v Hv. injection Hv as <-. exact E.
    + intros Hv. apply Hv. reflexivity.
  - split; [discriminate | reflexivity].
Qed.

(** X14: GET /api/appointments returns exactly the appointments that
    match the filters given. For a query string that gives each parameter
    once, the answer is 200; an appointment is in it if and only if it is
    stored and agrees with each of [client_id], [agent_id] and [date] that
    the query carries as a non-empty string; the rows come in table order;
    and any other parameter, a [limit] for one, is ignored. *)
Theorem get_appointments_filters (db : Db) (query : list (string * string)) :
  NoDup (map fst query) ->
  exists rows,
    get_appointments db query = (db, {| code := 200; content_of := appointment_rows rows |})
    /\ (forall a,
          In a rows
          <-> In a (appointments db)
              /\ (forall v, query_param "client_id" query = Some v -> Appointment.client_id a = v)
              /\ (forall v, query_param "agent_id" query = Some v -> Appointment.agent_id a = v)
              /\ (forall v, query_param "date" query = Some v
                            -> Appointment.appointment_date a = v))
    /\ (exists keep, rows = filter keep (appointments db))
    /\ (forall k v, ~ In k ["client_id"; "agent_id"; "date"] ->
          get_appointments db ((k, v) :: query) = get_appointments db query).
Proof.
  intros _. eexists. split; [reflexivity|]. split; [|split].
  - intros a. unfold Sql.where_all. rewrite filter_In, !forallb_app, !andb_true_iff.
    rewrite !push_if_condition. tauto.
  - eexists. reflexivity.
  - intros k v Hk. unfold get_appointments.
    rewrite !query_param_other by (intros ->; apply Hk; simpl; tauto). reflexivity.
Qed.

(** ** A page of clients *)

Section Sorting.
Context {R : Type} (le : R -> R -> bool).

Lemma insert_In (x y : R) (l : list R) : In y (Pg.insert le x l) <-> y = x \/ In y l.
Proof.
  induction l as [|z rest IH]; simpl; [intuition congruence|].
  destruct (le x z); simpl; [intuition congruence|]. rewrite IH. intuition congruence.
Qed.

Lemma sort_In (y : R) (l : list R) : In y (Pg.sort le l) <-> In y l.
Proof.
  unfold Pg.sort. induction l as [|x rest IH]; simpl; [tauto|].
  rewrite insert_In, IH. intuition congruence.
Qed.

Lemma insert_length (x : R) (l : list R) : length (Pg.insert le x l) = S (length l).
Proof.
  induction l as [|z rest IH]; simpl; [reflexivity|].
  destruct (le x z); simpl; [reflexivity | rewrite IH; reflexivity].
Qed.

Lemma sort_length (l : list R) : length (Pg.sort le l) = length l.
Proof.
  unfold Pg.sort. induction l as [|x rest IH]; simpl; [reflexivity|].
  rewrite insert_length, IH. reflexivity.
Qed.

Hypothesis total : forall a b, le a b = true \/ le b a = true.

Lemma insert_Sorted (x : R) (l : list R) :
  Sorted (fun a b => le a b = true) l -> Sorted (fun a b => le a b = true) (Pg.insert le x l).
Proof.
  induction 1 as [|z rest Hs IH Hz]; simpl; [repeat constructor|].
  destruct (le x z) eqn:E.
  - constructor; [constructor; assumption | constructor; exact E].
  - constructor; [exact IH|].
    destruct rest as [|w rest']; simpl.
    + constructor. destruct (total x z); congruence.
    + destruct (le x w); constructor.
      * destruct (total x z); congruence.
      * inversion Hz; assumption.
Qed.

Lemma sort_Sorted (l : list R) : Sorted (fun a b => le a b = true) (Pg.sort le l).
Proof.
  unfold Pg.sort. induction l as [|x rest IH]; simpl; [constructor|].
  apply insert_Sorted. exact IH.
Qed.

End Sorting.

Lemma firstn_Sorted {R : Type} (rel : R -> R -> Prop) (n : nat) (l : list R) :
  Sorted rel l -> Sorted rel (firstn n l).
Proof.
  intros Hs. revert n. induction Hs as [|x rest Hs IH Hx]; intros [|n]; simpl;
    try constructor.
  - apply IH.
  - destruct Hx; destruct n; simpl; constructor; assumption.
Qed.

Section Pages.
Context `{Env}.

Lemma default_number_of_query (query : list (string * string)) (k : string) (d n : Z)
    (s : z.schema Z) :
  (forall v, s (JStr v) = z.number (JStr v)) ->
  z.default d s (get k (query_object query)) = inr n -> n = d.
Proof.
  intros Hs. unfold z.default.
  destruct (query_object_get query k) as [-> | (v & ->)].
  - intros E. injection E as <-. reflexivity.
  - rewrite Hs. discriminate.
Qed.

Lemma default_enum_of_query (query : list (string * string)) (k d : string)
    (values : list string) (s : string) :
  z.default d (z.enum values) (get k (query_object query)) = inr s ->
  (get k (query_object query) = None /\ s = d)
  \/ (get k (query_object query) = Some (JStr s) /\ In s values).
Proof.
  unfold z.default, z.enum.
  destruct (query_object_get query k) as [-> | (v & ->)].
  - intros E. injection E as <-. left. split; reflexivity.
  - destruct (existsb (String.eqb v) values) eqn:Ev; intros E; [|discriminate].
    injection E as <-. right. split; [reflexivity|].
    apply existsb_exists in Ev. destruct Ev as (x & Hx & Ex).
    apply String.eqb_eq in Ex. subst. exact Hx.
Qed.

(** X15: what a page of GET /api/clients holds. For a query string that
    gives each parameter once: when the answer is 200, its rows are stored
    clients, at most ten of them, and, the collation being total, each row is
    in order with the next: by the column [sort_by] names ([created_at] when
    it names none), ascending when [sort_order] is [asc] and descending
    otherwise. No query string changes the page size. *)
Theorem get_clients_page (db db' : Db) (query : list (string * string))
    (rows : list Client.t) :
  NoDup (map fst query) ->
  (forall a b, text_leb a b = true \/ text_leb b a = true) ->
  get_clients db query = (db', res_json (client_rows rows)) ->
  length rows <= 10
  /\ (forall c, In c rows -> In c (clients db))
  /\ (let column := match get "sort_by" (query_object query) with
                    | Some (JStr "first_name") => Client.first_name
                    | Some (JStr "last_name") => Client.last_name
                    | _ => Client.created_at
                    end in
      match get "sort_order" (query_object query) with
      | Some (JStr "asc") =>
          Sorted (fun a b => text_leb (column a) (column b) = true) rows
      | _ => Sorted (fun a b => text_leb (column b) (column a) = true) rows
      end).
Proof.
  intros _ total Hget. unfold get_clients in Hget.
  destruct (searchClientInputSchema (query_object query)) as [qp|e] eqn:Es;
    cbn [bind catch] in Hget; [|discriminate].
  destruct (Pg.order_by _ _ _) as [sorted|e] eqn:Eo in Hget;
    cbn [bind catch] in Hget; [|discriminate].
  destruct (Pg.limit_offset _ _ _) as [page|e] eqn:El in Hget;
    cbn [bind catch] in Hget; [|discriminate].
  unfold searchClientInputSchema, searchInputSchema in Es. invert_schema Es.
  cbn [SearchInput.query SearchInput.limit SearchInput.offset SearchInput.sort_by
       SearchInput.sort_order] in *.
  repeat match goal with
         | Ha : z.default _ (_ (z.int z.number)) _ = inr _ |- _ =>
             apply default_number_of_query in Ha; [subst | intros v; reflexivity]
         end.
  assert (Hrows : rows = firstn 10 sorted).
  { injection Hget as _ <-. change (Ok (firstn 10 sorted) = Ok page) in El. congruence. }
  clear El Hget. subst rows.
  assert (Hin : forall c, In c sorted -> In c (clients db)).
  { intros c Hc. unfold Pg.order_by in Eo.
    destruct (client_column _); [|discriminate].
    destruct (String.eqb (toLowerCase _) "asc");
      [|destruct (String.eqb (toLowerCase _) "desc"); [|discriminate]];
      injection Eo as <-; apply sort_In in Hc;
      destruct (truthy _); [apply filter_In in Hc; tauto | exact Hc
                            | apply filter_In in Hc; tauto | exact Hc]. }
  split; [|split].
  - apply firstn_le_length.
  - intros c Hc. apply Hin.
    rewrite <- (firstn_skipn 10 sorted). apply in_or_app. left. exact Hc.
  - cbv zeta.
    repeat match goal with
           | Ha : z.default _ (z.enum _) _ = inr _ |- _ =>
               apply default_enum_of_query in Ha;
               destruct Ha as [[Ha ->] | [Ha Hv]]; rewrite Ha;
               [|simpl in Hv; repeat (destruct Hv as [<- | Hv]); try contradiction]
           end;
      unfold Pg.order_by in Eo; cbn in Eo; injection Eo as <-;
      apply firstn_Sorted;
      match goal with
      | |- Sorted _ (Pg.sort ?le _) => apply (sort_Sorted le)
      end; intros a b; apply total.
Qed.

End Pages.

(** ** The CSV of the export *)








Section ExportedCsv.
Context `{Env}.


End ExportedCsv.

(** ** Documents, and logging in by e-mail *)

Section Documents.
Context `{Env}.

(** X17: POST /api/client-documents never stores a document. The schema
    has no [uploaded_at], the INSERT sends that NOT NULL column as NULL, and
    so a body the schema accepts is answered 400 with the constraint's
    message, as a body the schema refuses is answered 400 with the issues;
    the documents table is as it was in both cases, whatever the client and
    the identifier minted. *)
Theorem post_client_documents_never_stores (db : Db) (body : object) (rt : Runtime) :
  (forall parsed,
     createClientDocumentInputSchema body = Ok parsed ->
     post_client_documents db body rt
     = (db, {| code := 400; content_of := exception_message not_null_violation |}))
  /\ (forall issues,
        createClientDocumentInputSchema body = Throw issues ->
        post_client_documents db body rt = (db, reply 400 (error_message issues)))
  /\ client_documents (fst (post_client_documents db body rt)) = client_documents db.
Proof.
  split; [|split].
  - intros parsed E. unfold post_client_documents. rewrite E. reflexivity.
  - intros issues E. unfold post_client_documents. rewrite E. reflexivity.
  - unfold post_client_documents.
    destruct (createClientDocumentInputSchema body); reflexivity.
Qed.

(** X18: the e-mail address logs in as the username does. For a user whom
    both the username and the e-mail address select first, a login under
    either identifier at the same clock reading is answered alike, whatever
    the password: the same refusal, or the same user with the same token. *)
Theorem login_by_email_as_by_username (db : Db) (u : User.t) (password : string) (now : Z)
    (by_name by_mail : list User.t) :
  User.username u <> "" -> User.email u <> "" ->
  users_by_login (User.username u) (users db) = u :: by_name ->
  users_by_login (User.email u) (users db) = u :: by_mail ->
  post_auth_login db (credentials (User.username u) password) now
  = post_auth_login db (credentials (User.email u) password) now.
Proof.
  intros Nu Ne Hname Hmail. unfold post_auth_login.
  destruct password as [|c p].
  - unfold loginSchema, z.field, credentials. cbn [get String.eqb Ascii.eqb Bool.eqb].
    unfold createUserInputSchema_username, createUserInputSchema_password_hash.
    destruct (User.username u); [congruence|]. destruct (User.email u); [congruence|].
    reflexivity.
  - rewrite !(loginSchema_Ok (credentials _ (String c p)) (password := String c p))
      by (reflexivity || assumption || discriminate).
    cbn [bind LoginInput.username LoginInput.password]. rewrite Hname, Hmail. reflexivity.
Qed.

End Documents.

(** ** The front end *)





Section Calls.
Context `{Env} `{Services}.

Lemma api_get_clients (db : Db) (auth : option string) (q : list (string * string))
    (b : object) (clock : Clock) (rt : Runtime) :
  api db (request GET ["api"; "clients"] auth q b) clock rt
  = match authenticateToken auth (seconds clock) with
    | Respond r => Some (db, upgrade r)
    | Next _ => Some (fst (get_clients db q), upgrade (snd (get_clients db q)))
    end.
Proof.
  unfold api, app, protected.
  change (dispatch (method (request GET ["api"; "clients"] auth q b))
            (path (request GET ["api"; "clients"] auth q b)))
    with (Some (clients_list, @nil (string * string))).
  cbv beta iota. cbn [authorization query request].
  destruct (authenticateToken auth (seconds clock)); [reflexivity|].
  destruct (get_clients db q); reflexivity.
Qed.

(** X22: the two views that list clients are never given a list. The
    request of the client list carries [limit] and [offset], that of the
    dashboard [limit], and the query string makes them strings, which the
    schema's [z.number()] refuses: whatever the state of the view, the token
    and the database, the answer is 401 or 403 from the token check, or 400
    with an issue at [limit], and never the rows. *)
Theorem client_views_are_refused (db : Db) (token : string) (s : Views.ClientList)
    (clock : Clock) (rt : Runtime) :
  (exists r, api db (Views.fetchClients token s) clock rt = Some (db, r)
             /\ (code r = 400 \/ code r = 401 \/ code r = 403)%Z)
  /\ (exists r, api db (Views.fetchDashboardClients token) clock rt = Some (db, r)
                /\ (code r = 400 \/ code r = 401 \/ code r = 403)%Z)
  /\ (exists issues,
        get_clients db (query (Views.fetchClients token s))
        = (db, res_status_json 400 (error_message (ZodError issues)))
        /\ In (Zod.Issue "limit" Zod.invalid_type) issues).
Proof.
  assert (Hlist : exists issues,
            get_clients db (query (Views.fetchClients token s))
            = (db, res_status_json 400 (error_message (ZodError issues)))
            /\ In (Zod.Issue "limit" Zod.invalid_type) issues)
    by (apply get_clients_rejects_any_limit; discriminate).
  assert (Hdash : exists issues,
            get_clients db (query (Views.fetchDashboardClients token))
            = (db, res_status_json 400 (error_message (ZodError issues)))
            /\ In (Zod.Issue "limit" Zod.invalid_type) issues)
    by (apply get_clients_rejects_any_limit; discriminate).
  split; [|split; [|exact Hlist]].
  - change (Views.fetchClients token s)
      with (request GET ["api"; "clients"] (Some ("Bearer " ++ token)%string)
              (query (Views.fetchClients token s)) []) at 1.
    rewrite api_get_clients. unfold authenticateToken.
    destruct (token_of _) as [[|c t]|]; try (eexists; split; [reflexivity | auto]).
    destruct (jwt_verify _ _ _); [eexists; split; [reflexivity | auto]|].
    destruct Hlist as (issues & -> & _). eexists; split; [reflexivity | auto].
  - change (Views.fetchDashboardClients token)
      with (request GET ["api"; "clients"] (Some ("Bearer " ++ token)%string)
              (query (Views.fetchDashboardClients token)) []) at 1.
    rewrite api_get_clients. unfold authenticateToken.
    destruct (token_of _) as [[|c t]|]; try (eexists; split; [reflexivity | auto]).
    destruct (jwt_verify _ _ _); [eexists; split; [reflexivity | auto]|].
    destruct Hdash as (issues & -> & _). eexists; split; [reflexivity | auto].
Qed.

(** X23: logging out from the navigation bar. The request carries no
    Authorization header, so the server answers it 401 and its handler is
    not run; the store is signed out all the same, after which a protected
    page redirects to the login page and the login page is shown. *)
Theorem navbar_logout (db : Db) (clock : Clock) (rt : Runtime) (state : Store.GlobalState) :
  api db Views.logoutRequest clock rt = Some (db, upgrade (res_sendStatus 401))
  /\ Views.ProtectedRoute (Views.handleLogout (api db Views.logoutRequest clock rt) state)
     = Views.Navigate "/login"
  /\ Views.PublicRoute (Views.handleLogout (api db Views.logoutRequest clock rt) state)
     = Views.children
  /\ Store.notifications (Views.handleLogout (api db Views.logoutRequest clock rt) state)
     = Store.notifications state.
Proof. repeat split. Qed.

End Calls.

(** ** Statements, row by row *)

Lemma insert_returning_Done {R : Type} (pk : R -> string) (missing taken dangling : bool)
    (row row' : R) (table table' : list R) :
  Sql.insert_returning pk missing taken dangling row table = Done (table', row') ->
  table' = table ++ [row] /\ row' = row /\ has_id pk (pk row) table = false
  /\ taken = false /\ dangling = false.
Proof.
  unfold Sql.insert_returning, has_id. destruct missing; [discriminate|].
  destruct (existsb _ table); [discriminate|]. destruct taken; [discriminate|].
  destruct dangling; [discriminate|]. intros E. injection E as <- <-. repeat split.
Qed.

Lemma update_returning_Ok {R A : Type} (pk : R -> string) (convert : A -> result A)
    (assign : A -> R -> R) (fields : list A) (id : string) (table table' rows : list R) :
  Pg.update_returning pk convert assign fields id table = Ok (table', rows) ->
  exists bound,
    let updated r := fold_left (fun r a => assign a r) bound r in
    table' = map (fun r => if String.eqb (pk r) id then updated r else r) table
    /\ rows = map updated (Pg.where_id pk id table).
Proof.
  unfold Pg.update_returning. destruct fields as [|a fields]; [discriminate|].
  destruct (Pg.mapM convert (a :: fields)) as [bound|e]; [|discriminate].
  cbn [bind]. intros E. injection E as <- <-. exists bound. split; reflexivity.
Qed.

Lemma delete_returning_Ok {R : Type} (pk : R -> string) (referenced : bool) (id : string)
    (table table' rows : list R) :
  Pg.delete_returning pk referenced id table = Ok (table', rows) ->
  table' = table \/ (table' = Pg.where_not_id pk id table /\ referenced = false).
Proof.
  unfold Pg.delete_returning. destruct (Pg.where_id pk id table).
  - intros E. injection E as <- _. left. reflexivity.
  - destruct referenced; [discriminate|]. intros E. injection E as <- _. right. split; reflexivity.
Qed.

Lemma fold_assign_keeps {R A B : Type} (assign : A -> R -> R) (column : R -> B)
    (bound : list A) (r : R) :
  (forall a r, column (assign a r) = column r) ->
  column (fold_left (fun r a => assign a r) bound r) = column r.
Proof.
  intros Hk. revert r. induction bound as [|a rest IH]; intros r; simpl; [reflexivity|].
  rewrite IH, Hk. reflexivity.
Qed.

(** ** Values that stay distinct *)

Lemma existsb_map_key {R : Type} (key : R -> string) (k : string) (l : list R) :
  existsb (String.eqb k) (map key l) = existsb (fun r => String.eqb (key r) k) l.
Proof.
  induction l as [|r rest IH]; simpl; [reflexivity|].
  rewrite IH, (String.eqb_sym k). reflexivity.
Qed.

Lemma distinct_app_fresh {R : Type} (key : R -> string) (table : list R) (row : R) :
  distinct (map key table) = true ->
  existsb (fun r => String.eqb (key r) (key row)) table = false ->
  distinct (map key (table ++ [row])) = true.
Proof.
  induction table as [|r rest IH]; simpl; [reflexivity|].
  rewrite !andb_true_iff, !negb_true_iff, orb_false_iff.
  intros [Hr Hrest] [Hne Hfresh]. split; [|apply IH; assumption].
  rewrite map_app, existsb_app, Hr. simpl. rewrite Hne. reflexivity.
Qed.

Lemma distinct_filter {R : Type} (key : R -> string) (keep : R -> bool) (table : list R) :
  distinct (map key table) = true -> distinct (map key (filter keep table)) = true.
Proof.
  induction table as [|r rest IH]; simpl; [reflexivity|].
  rewrite andb_true_iff, negb_true_iff. intros [Hr Hrest].
  destruct (keep r); simpl; [|apply IH; exact Hrest].
  rewrite (IH Hrest), andb_true_r, negb_true_iff.
  rewrite existsb_map_key in *. clear - Hr.
  induction rest as [|s rest IH]; simpl in *; [reflexivity|].
  apply orb_false_iff in Hr. destruct Hr as [Hs Hr].
  destruct (keep s); simpl; [rewrite Hs|]; auto.
Qed.

Lemma map_key_updated {R : Type} (pk key : R -> string) (f : R -> R) (id : string)
    (table : list R) :
  (forall r, key (f r) = key r) ->
  map key (map (fun r => if String.eqb (pk r) id then f r else r) table) = map key table.
Proof.
  intros Hf. rewrite map_map. apply map_ext. intros r.
  destruct (String.eqb (pk r) id); [apply Hf | reflexivity].
Qed.

Lemma distinct_count {R : Type} (key : R -> string) (table : list R) :
  distinct (map key table) = true
  <-> forall r, In r table -> Sql.count key (key r) table <= 1.
Proof.
  unfold Sql.count. induction table as [|x rest IH]; simpl; [intuition|].
  rewrite andb_true_iff, negb_true_iff, existsb_map_key, IH. split.
  - intros [Hx Hrest] r [<-|Hr].
    + rewrite String.eqb_refl. simpl.
      assert (Hnone : filter (fun r => String.eqb (key r) (key x)) rest = []).
      { clear - Hx. induction rest as [|s rest IH]; simpl in *; [reflexivity|].
        apply orb_false_iff in Hx. destruct Hx as [-> Hx]. auto. }
      rewrite Hnone. simpl. lia.
    + destruct (String.eqb (key x) (key r)) eqn:E; [|apply Hrest; exact Hr].
      exfalso. apply String.eqb_eq in E. rewrite E in Hx.
      assert (Hsome : existsb (fun s => String.eqb (key s) (key r)) rest = true).
      { apply existsb_exists. exists r. split; [exact Hr | apply String.eqb_refl]. }
      congruence.
  - intros Hall. split.
    + specialize (Hall x (or_introl eq_refl)). rewrite String.eqb_refl in Hall. simpl in Hall.
      destruct (existsb _ rest) eqn:E; [|reflexivity].
      apply existsb_exists in E. destruct E as (s & Hs & Es).
      assert (Hin : In s (filter (fun r => String.eqb (key r) (key x)) rest))
        by (apply filter_In; split; assumption).
      destruct (filter _ rest); [contradiction | simpl in Hall; lia].
    + intros r Hr. specialize (Hall r (or_intror Hr)).
      destruct (String.eqb (key x) (key r)); simpl in Hall; lia.
Qed.

Lemma count_filter_le {R : Type} (key : R -> string) (k : string) (keep : R -> bool)
    (table : list R) :
  Sql.count key k (filter keep table) <= Sql.count key k table.
Proof.
  unfold Sql.count. induction table as [|r rest IH]; simpl; [lia|].
  destruct (keep r), (String.eqb (key r) k) eqn:E; simpl; rewrite ?E; simpl; lia.
Qed.

Lemma count_In {R : Type} (key : R -> string) (r : R) (table : list R) :
  In r table -> 1 <= Sql.count key (key r) table.
Proof.
  intros Hr. unfold Sql.count.
  assert (Hin : In r (filter (fun s => String.eqb (key s) (key r)) table))
    by (apply filter_In; split; [exact Hr | apply String.eqb_refl]).
  destruct (filter _ table); [contradiction | simpl; lia].
Qed.

Lemma count_positive {R : Type} (key : R -> string) (k : string) (table : list R) :
  Sql.count key k table <> 0 -> exists r, In r table /\ key r = k.
Proof.
  unfold Sql.count. intros Hc.
  destruct (filter (fun s => String.eqb (key s) k) table) as [|r rest] eqn:E;
    [exfalso; apply Hc; reflexivity|].
  assert (Hin : In r (filter (fun s => String.eqb (key s) k) table))
    by (rewrite E; left; reflexivity).
  apply filter_In in Hin. destruct Hin as [Hin Hk]. apply String.eqb_eq in Hk. eauto.
Qed.

(** A UNIQUE column stays so under an UPDATE that [Sql.shared] lets
    through. *)
Lemma distinct_updated {R : Type} (pk key : R -> string) (f : R -> R) (id : string)
    (table : list R) :
  let table' := map (fun r => if String.eqb (pk r) id then f r else r) table in
  distinct (map key table) = true ->
  Sql.shared key (map f (Pg.where_id pk id table)) table' = false ->
  distinct (map key table') = true.
Proof.
  intros table' Hd Hs. apply distinct_count. rewrite distinct_count in Hd.
  assert (Hrows : forall r, In r table -> String.eqb (pk r) id = true ->
                            Sql.count key (key (f r)) table' <= 1).
  { intros r Hr Hid. unfold Sql.shared in Hs.
    assert (Hin : In (f r) (map f (Pg.where_id pk id table))).
    { apply in_map. apply filter_In. split; assumption. }
    destruct (Nat.ltb 1 (Sql.count key (key (f r)) table')) eqn:E.
    - assert (existsb (fun r => Nat.ltb 1 (Sql.count key (key r) table'))
                (map f (Pg.where_id pk id table)) = true)
        by (apply existsb_exists; eauto).
      congruence.
    - apply Nat.ltb_ge in E. exact E. }
  assert (Hsplit : forall k,
            Sql.count key k table'
            = Sql.count key k (filter (fun r => negb (String.eqb (pk r) id)) table)
              + Sql.count key k (map f (Pg.where_id pk id table))).
  { intros k. unfold table', Sql.count, Pg.where_id. clear.
    induction table as [|r rest IH]; simpl; [reflexivity|].
    destruct (String.eqb (pk r) id); simpl.
    - destruct (String.eqb (key (f r)) k); simpl; rewrite IH; lia.
    - destruct (String.eqb (key r) k); simpl; rewrite IH; lia. }
  intros r' Hr'. apply in_map_iff in Hr'. destruct Hr' as (r & <- & Hr).
  destruct (String.eqb (pk r) id) eqn:Hid; [apply Hrows; assumption|].
  rewrite Hsplit.
  pose proof (count_filter_le key (key r) (fun r => negb (String.eqb (pk r) id)) table)
    as Hle.
  specialize (Hd r Hr).
  assert (Hge : 1 <= Sql.count key (key r)
                       (filter (fun r => negb (String.eqb (pk r) id)) table)).
  { apply count_In. apply filter_In. split; [exact Hr | rewrite Hid; reflexivity]. }
  destruct (Nat.eq_dec (Sql.count key (key r) (map f (Pg.where_id pk id table))) 0)
    as [Hz | Hnz]; [lia|].
  exfalso. apply count_positive in Hnz. destruct Hnz as (s' & Hs' & Hk).
  apply in_map_iff in Hs'. destruct Hs' as (s0 & <- & Hs0).
  apply filter_In in Hs0. destruct Hs0 as [Hs0 Hid0].
  specialize (Hrows s0 Hs0 Hid0). rewrite Hk, Hsplit in Hrows.
  assert (1 <= Sql.count key (key r) (map f (Pg.where_id pk id table))).
  { rewrite <- Hk. apply count_In. apply in_map. apply filter_In. split; assumption. }
  lia.
Qed.

(** ** Keys stay unique *)

Ltac with_table :=
  let Hk := fresh "Hk" in let Ht := fresh "Ht" in
  intros Hk Ht; unfold keys_unique in *;
  match goal with db : Db |- _ => destruct db end;
  cbn [users clients client_property_interests properties appointments communication_logs
       client_documents user_settings with_users with_clients
       with_client_property_interests with_properties with_appointments
       with_communication_logs with_client_documents with_user_settings] in *;
  rewrite !andb_true_iff in *; tauto.

Lemma keys_with_users (db : Db) (t : list User.t) :
  keys_unique db = true ->
  (distinct (map User.id (users db)) = true /\ distinct (map User.username (users db)) = true
   /\ distinct (map User.email (users db)) = true ->
   distinct (map User.id t) = true /\ distinct (map User.username t) = true
   /\ distinct (map User.email t) = true) ->
  keys_unique (with_users db t) = true.
Proof. with_table. Qed.

Lemma keys_with_clients (db : Db) (t : list Client.t) :
  keys_unique db = true ->
  (distinct (map Client.id (clients db)) = true -> distinct (map Client.id t) = true) ->
  keys_unique (with_clients db t) = true.
Proof. with_table. Qed.

Lemma keys_with_client_property_interests (db : Db) (t : list ClientPropertyInterest.t) :
  keys_unique db = true ->
  (distinct (map ClientPropertyInterest.id (client_property_interests db)) = true ->
   distinct (map ClientPropertyInterest.id t) = true) ->
  keys_unique (with_client_property_interests db t) = true.
Proof. with_table. Qed.

Lemma keys_with_properties (db : Db) (t : list Property.t) :
  keys_unique db = true ->
  (distinct (map Property.id (properties db)) = true -> distinct (map Property.id t) = true) ->
  keys_unique (with_properties db t) = true.
Proof. with_table. Qed.

Lemma keys_with_appointments (db : Db) (t : list Appointment.t) :
  keys_unique db = true ->
  (distinct (map Appointment.id (appointments db)) = true ->
   distinct (map Appointment.id t) = true) ->
  keys_unique (with_appointments db t) = true.
Proof. with_table. Qed.

Lemma keys_with_communication_logs (db : Db) (t : list CommunicationLog.t) :
  keys_unique db = true ->
  (distinct (map CommunicationLog.id (communication_logs db)) = true ->
   distinct (map CommunicationLog.id t) = true) ->
  keys_unique (with_communication_logs db t) = true.
Proof. with_table. Qed.

Lemma keys_with_client_documents (db : Db) (t : list ClientDocument.t) :
  keys_unique db = true ->
  (distinct (map ClientDocument.id (client_documents db)) = true ->
   distinct (map ClientDocument.id t) = true) ->
  keys_unique (with_client_documents db t) = true.
Proof. with_table. Qed.

Lemma keys_with_user_settings (db : Db) (t : list UserSettings.t) :
  keys_unique db = true ->
  (distinct (map UserSettings.id (user_settings db)) = true ->
   distinct (map UserSettings.id t) = true) ->
  keys_unique (with_user_settings db t) = true.
Proof. with_table. Qed.

(** The table a statement leaves, in a handler of either part. *)
Ltac keys_with :=
  first [ apply keys_with_clients | apply keys_with_client_property_interests
        | apply keys_with_properties | apply keys_with_appointments
        | apply keys_with_communication_logs | apply keys_with_client_documents
        | apply keys_with_user_settings ].

Ltac keeps_pk :=
  intros ?r; apply fold_assign_keeps; intros ?a ?r0;
  match goal with a : _, r0 : _ |- _ => destruct a, r0; reflexivity end.

Ltac deleted HP :=
  match goal with
  | |- context [Pg.delete_returning ?pk ?ref ?id ?t] =>
      let E := fresh "E" in
      destruct (Pg.delete_returning pk ref id t) as [[?table ?rows]|?e] eqn:E;
      cbn [bind catch fst]; [|exact HP];
      apply delete_returning_Ok in E; destruct E as [-> | [-> _]];
      match goal with
      | |- context [match ?rows with _ => _ end] => destruct rows
      end; cbn [fst]
  end.

Ltac updated_old HP :=
  match goal with
  | |- context [Pg.update_returning ?pk ?cv ?asg ?f ?id ?t] =>
      let E := fresh "E" in
      destruct (Pg.update_returning pk cv asg f id t) as [[?table ?rows]|?e] eqn:E;
      cbn [bind catch fst]; [|exact HP];
      apply update_returning_Ok in E; destruct E as (?bound & -> & _);
      match goal with
      | |- context [match ?rows with _ => _ end] => destruct rows
      end; cbn [fst]
  end.

Ltac parsed_old HP :=
  match goal with
  | |- context [catch _ (bind ?s _)] => destruct s; cbn [bind catch fst]; [|exact HP]
  end.

Ltac parsed_new HP :=
  match goal with
  | |- context [and_then (attempted ?s) _] =>
      destruct s; cbn [attempted and_then rescue fst]; [|exact HP]
  end.

Ltac inserted HP :=
  match goal with
  | |- context [Sql.insert_returning ?pk ?m ?t ?d ?row ?table] =>
      let E := fresh "E" in
      destruct (Sql.insert_returning pk m t d row table) as [[?table' ?row']|?x] eqn:E;
      cbn [and_then rescue fst];
      [|match goal with x : exception |- _ => destruct x; exact HP end];
      apply insert_returning_Done in E;
      destruct E as (-> & -> & ?Hfresh & ?Htaken & ?Hdangling)
  end.

Section Keys.
Context `{Env} `{Services}.

Lemma put_clients_id_keys (db : Db) (id : string) (body : object) (now : string) :
  keys_unique db = true -> keys_unique (fst (put_clients_id db id body now)) = true.
Proof.
  intros HP. unfold put_clients_id. parsed_old HP. updated_old HP;
    (keys_with; [exact HP|]; intros Hd; rewrite map_key_updated; [exact Hd | keeps_pk]).
Qed.


Ltac update_keeps_keys HP :=
  updated_old HP;
  (keys_with; [exact HP|]; intros Hd; rewrite map_key_updated; [exact Hd | keeps_pk]).

Ltac delete_keeps_keys HP :=
  deleted HP;
  (keys_with; [exact HP|]; intros Hd; first [exact Hd | apply distinct_filter; exact Hd]).

Ltac insert_keeps_keys HP :=
  inserted HP;
  (keys_with; [exact HP|]; intros Hd; apply distinct_app_fresh; [exact Hd | assumption]).

Lemma put_client_property_interests_id_keys (db : Db) (id : string) (body : object) :
  keys_unique db = true ->
  keys_unique (fst (put_client_property_interests_id db id body)) = true.
Proof.
  intros HP. unfold put_client_property_interests_id. parsed_old HP. update_keeps_keys HP.
Qed.

Lemma put_communication_logs_id_keys (db : Db) (id : string) (body : object) :
  keys_unique db = true -> keys_unique (fst (put_communication_logs_id db id body)) = true.
Proof. intros HP. unfold put_communication_logs_id. parsed_old HP. update_keeps_keys HP. Qed.

Lemma put_client_documents_id_keys (db : Db) (id : string) (body : object) :
  keys_unique db = true -> keys_unique (fst (put_client_documents_id db id body)) = true.
Proof. intros HP. unfold put_client_documents_id. parsed_old HP. update_keeps_keys HP. Qed.

Lemma put_properties_id_keys (db : Db) (id : string) (body : object) (now : string) :
  keys_unique db = true -> keys_unique (fst (put_properties_id db id body now)) = true.
Proof.
  intros HP. unfold put_properties_id. parsed_new HP.
  match goal with
  | |- context [Pg.update_returning ?pk ?cv ?asg ?f ?i ?t] =>
      destruct (Pg.update_returning pk cv asg f i t) as [[table rows]|e] eqn:E
  end; cbn [attempted and_then rescue fst]; [|exact HP].
  apply update_returning_Ok in E. destruct E as (bound & -> & _).
  destruct rows; cbn [rescue fst];
    (keys_with; [exact HP|]; intros Hd; rewrite map_key_updated; [exact Hd | keeps_pk]).
Qed.

Lemma put_appointments_id_keys (db : Db) (id : string) (body : object) (now : string) :
  keys_unique db = true -> keys_unique (fst (put_appointments_id db id body now)) = true.
Proof.
  intros HP. unfold put_appointments_id. parsed_new HP.
  match goal with
  | |- context [Pg.update_returning ?pk ?cv ?asg ?f ?i ?t] =>
      destruct (Pg.update_returning pk cv asg f i t) as [[table rows]|e] eqn:E
  end; cbn [attempted and_then rescue fst]; [|exact HP].
  apply update_returning_Ok in E. destruct E as (bound & -> & ->).
  destruct (existsb _ _); [exact HP|].
  destruct (map _ (Pg.where_id _ _ _)); cbn [rescue fst];
    (keys_with; [exact HP|]; intros Hd; rewrite map_key_updated; [exact Hd | keeps_pk]).
Qed.

Lemma put_user_settings_id_keys (db : Db) (id : string) (body : object) (now : string) :
  keys_unique db = true -> keys_unique (fst (put_user_settings_id db id body now)) = true.
Proof.
  intros HP. unfold put_user_settings_id. parsed_new HP.
  match goal with
  | |- context [Pg.update_returning ?pk ?cv ?asg ?f ?i ?t] =>
      destruct (Pg.update_returning pk cv asg f i t) as [[table rows]|e] eqn:E
  end; cbn [attempted and_then rescue fst]; [|exact HP].
  apply update_returning_Ok in E. destruct E as (bound & -> & _).
  destruct rows; cbn [rescue fst];
    (keys_with; [exact HP|]; intros Hd; rewrite map_key_updated; [exact Hd | keeps_pk]).
Qed.

Lemma put_users_id_keys (db : Db) (user : JwtPayload) (id : string) (body : object)
    (now : string) (rt : Runtime) :
  keys_unique db = true -> keys_unique (fst (put_users_id db user id body now rt)) = true.
Proof.
  intros HP. unfold put_users_id. destruct (negb _); [exact HP|]. parsed_new HP.
  match goal with
  | |- context [Pg.update_returning ?pk ?cv ?asg ?f ?i ?t] =>
      destruct (Pg.update_returning pk cv asg f i t) as [[table rows]|e] eqn:E
  end; cbn [attempted and_then rescue fst]; [|exact HP].
  apply update_returning_Ok in E. destruct E as (bound & -> & ->).
  destruct (Sql.shared User.username _ _) eqn:Su; [exact HP|].
  destruct (Sql.shared User.email _ _) eqn:Se; [exact HP|]. cbn [orb].
  assert (Hkeys : keys_unique
                    (with_users db
                       (map (fun r => if String.eqb (User.id r) id
                                      then fold_left (fun r a => UserSet.assign a r) bound r
                                      else r) (users db))) = true).
  { apply keys_with_users; [exact HP|]. intros (Hi & Hu & He). split; [|split].
    - rewrite map_key_updated; [exact Hi | keeps_pk].
    - apply distinct_updated; assumption.
    - apply distinct_updated; assumption. }
  destruct (map _ (Pg.where_id _ _ _)); exact Hkeys.
Qed.

Lemma delete_users_id_keys (db : Db) (user : JwtPayload) (id : string) :
  keys_unique db = true -> keys_unique (fst (delete_users_id db user id)) = true.
Proof.
  intros HP. unfold delete_users_id. destruct (negb _); [exact HP|].
  deleted HP;
    (apply keys_with_users; [exact HP|]; intros (Hi & Hu & He);
     first [ repeat split; assumption
           | repeat split; apply distinct_filter; assumption ]).
Qed.

Lemma delete_clients_id_keys (db : Db) (id : string) :
  keys_unique db = true -> keys_unique (fst (delete_clients_id db id)) = true.
Proof. intros HP. unfold delete_clients_id. delete_keeps_keys HP. Qed.

Lemma delete_client_property_interests_id_keys (db : Db) (id : string) :
  keys_unique db = true ->
  keys_unique (fst (delete_client_property_interests_id db id)) = true.
Proof. intros HP. unfold delete_client_property_interests_id. delete_keeps_keys HP. Qed.

Lemma delete_properties_id_keys (db : Db) (id : string) :
  keys_unique db = true -> keys_unique (fst (delete_properties_id db id)) = true.
Proof. intros HP. unfold delete_properties_id. delete_keeps_keys HP. Qed.

Lemma delete_appointments_id_keys (db : Db) (id : string) :
  keys_unique db = true -> keys_unique (fst (delete_appointments_id db id)) = true.
Proof. intros HP. unfold delete_appointments_id. delete_keeps_keys HP. Qed.

Lemma delete_communication_logs_id_keys (db : Db) (id : string) :
  keys_unique db = true -> keys_unique (fst (delete_communication_logs_id db id)) = true.
Proof. intros HP. unfold delete_communication_logs_id. delete_keeps_keys HP. Qed.

Lemma delete_client_documents_id_keys (db : Db) (id : string) :
  keys_unique db = true -> keys_unique (fst (delete_client_documents_id db id)) = true.
Proof. intros HP. unfold delete_client_documents_id. delete_keeps_keys HP. Qed.

Lemma post_users_keys (db : Db) (user : JwtPayload) (body : object) (now : string)
    (rt : Runtime) :
  keys_unique db = true -> keys_unique (fst (post_users db user body now rt)) = true.
Proof.
  intros HP. unfold post_users. destruct (negb _); [exact HP|]. parsed_new HP.
  inserted HP. apply orb_false_iff in Htaken. destruct Htaken as [Hu He].
  apply keys_with_users; [exact HP|]. intros (Di & Du & De).
  repeat split; apply distinct_app_fresh; assumption.
Qed.

Lemma post_clients_keys (db : Db) (body : object) (now : string) (rt : Runtime) :
  keys_unique db = true -> keys_unique (fst (post_clients db body now rt)) = true.
Proof.
  intros HP. unfold post_clients. parsed_new HP.
  destruct (json_parameter _) as [details|x]; cbn [and_then rescue fst];
    [|destruct x; exact HP].
  insert_keeps_keys HP.
Qed.

Lemma post_client_property_interests_keys (db : Db) (body : object) (now : string)
    (rt : Runtime) :
  keys_unique db = true ->
  keys_unique (fst (post_client_property_interests db body now rt)) = true.
Proof.
  intros HP. unfold post_client_property_interests. parsed_new HP. insert_keeps_keys HP.
Qed.

Lemma post_properties_keys (db : Db) (body : object) (now : string) (rt : Runtime) :
  keys_unique db = true -> keys_unique (fst (post_properties db body now rt)) = true.
Proof. intros HP. unfold post_properties. parsed_new HP. insert_keeps_keys HP. Qed.

Lemma post_appointments_keys (db : Db) (body : object) (now : string) (rt : Runtime) :
  keys_unique db = true -> keys_unique (fst (post_appointments db body now rt)) = true.
Proof. intros HP. unfold post_appointments. parsed_new HP. insert_keeps_keys HP. Qed.

Lemma post_communication_logs_keys (db : Db) (body : object) (rt : Runtime) :
  keys_unique db = true -> keys_unique (fst (post_communication_logs db body rt)) = true.
Proof. intros HP. unfold post_communication_logs. parsed_new HP. insert_keeps_keys HP. Qed.

End Keys.

Section KeysKept.
Context `{Env} `{Services}.

(** X24: no request breaks a key. If every PRIMARY KEY column and the two
    UNIQUE columns of [users] hold distinct values before a request, they do
    after it, whichever route takes the request and whatever it carries. *)
Theorem api_keeps_keys_unique (db db' : Db) (req : Request) (clock : Clock) (rt : Runtime)
    (r : Reply) :
  api db req clock rt = Some (db', r) -> keys_unique db = true -> keys_unique db' = true.
Proof.
  exact (@api_preserves _ _ (fun d => keys_unique d = true)
           post_users_keys put_users_id_keys delete_users_id_keys
           post_clients_keys put_clients_id_keys delete_clients_id_keys
           post_client_property_interests_keys put_client_property_interests_id_keys
           delete_client_property_interests_id_keys
           post_properties_keys put_properties_id_keys delete_properties_id_keys
           post_appointments_keys put_appointments_id_keys delete_appointments_id_keys
           post_communication_logs_keys put_communication_logs_id_keys
           delete_communication_logs_id_keys
           put_client_documents_id_keys delete_client_documents_id_keys
           put_user_settings_id_keys db db' req clock rt r).
Qed.

End KeysKept.

(** ** References stay valid *)

Lemma has_id_app {R : Type} (pk : R -> string) (id : string) (a b : list R) :
  has_id pk id (a ++ b) = has_id pk id a || has_id pk id b.
Proof. unfold has_id. apply existsb_app. Qed.

Lemma has_id_updated {R : Type} (pk : R -> string) (f : R -> R) (id id' : string)
    (table : list R) :
  (forall r, pk (f r) = pk r) ->
  has_id pk id' (map (fun r => if String.eqb (pk r) id then f r else r) table)
  = has_id pk id' table.
Proof.
  intros Hf. unfold has_id. induction table as [|r rest IH]; simpl; [reflexivity|].
  rewrite IH. destruct (String.eqb (pk r) id); [rewrite Hf|]; reflexivity.
Qed.

Lemma has_id_where_not_id {R : Type} (pk : R -> string) (id id' : string) (table : list R) :
  id' <> id -> has_id pk id' (Pg.where_not_id pk id table) = has_id pk id' table.
Proof.
  intros Hne. unfold has_id, Pg.where_not_id.
  induction table as [|r rest IH]; simpl; [reflexivity|].
  destruct (String.eqb (pk r) id) eqn:E; simpl; rewrite IH; [|reflexivity].
  apply String.eqb_eq in E. apply not_eq_sym in Hne. rewrite <- E in Hne.
  apply String.eqb_neq in Hne. rewrite String.eqb_sym in Hne.
  rewrite String.eqb_sym, Hne. reflexivity.
Qed.

Lemma existsb_In {R : Type} (column : R -> string) (r : R) (table : list R) :
  In r table -> existsb (fun s => String.eqb (column s) (column r)) table = true.
Proof. intros Hr. apply existsb_exists. exists r. split; [exact Hr | apply String.eqb_refl]. Qed.

(** What is left of a table without a row that nothing names still has
    every row that something names. *)
Lemma named_rows_stay {R : Type} (pk : R -> string) (referenced : string -> bool)
    (id id' : string) (table : list R) :
  referenced id = false -> referenced id' = true ->
  has_id pk id' table = true -> has_id pk id' (Pg.where_not_id pk id table) = true.
Proof.
  intros Hfree Hnamed Hthere. rewrite has_id_where_not_id; [exact Hthere|].
  intros ->. congruence.
Qed.

Ltac unfold_references :=
  unfold references_hold, appointment_dangling in *;
  cbn [users clients client_property_interests properties appointments communication_logs
       client_documents user_settings with_users with_clients
       with_client_property_interests with_properties with_appointments
       with_communication_logs with_client_documents with_user_settings] in *;
  rewrite ?andb_true_iff, ?forallb_forall in *.

Lemma references_with_clients (db : Db) (t : list Client.t) :
  references_hold db = true ->
  (forall id, has_id Client.id id (clients db) = true -> client_referenced db id = true ->
              has_id Client.id id t = true) ->
  references_hold (with_clients db t) = true.
Proof.
  intros HR Hsup. unfold_references.
  destruct HR as ((((Hi & Ha) & Hl) & Hd) & Hs).
  assert (Hnamed : forall id, has_id Client.id id (clients db) = true ->
                              client_referenced db id = true ->
                              has_id Client.id id t = true) by exact Hsup.
  unfold client_referenced in Hnamed. repeat split.
  - intros i Hin. apply Hnamed; [apply Hi; exact Hin|].
    rewrite (existsb_In ClientPropertyInterest.client_id i _ Hin). reflexivity.
  - intros a Hin. specialize (Ha a Hin).
    rewrite negb_true_iff, !orb_false_iff, !negb_false_iff in *.
    destruct Ha as ((Hc & Hp) & Hu). repeat split; try assumption.
    apply Hnamed; [exact Hc|].
    rewrite (existsb_In Appointment.client_id a _ Hin), !orb_true_r. reflexivity.
  - intros l Hin. specialize (Hl l Hin). rewrite andb_true_iff in *.
    destruct Hl as [Hc Hu]. split; [|exact Hu].
    apply Hnamed; [exact Hc|].
    rewrite (existsb_In CommunicationLog.client_id l _ Hin), !orb_true_r. reflexivity.
  - intros d Hin. apply Hnamed; [apply Hd; exact Hin|].
    rewrite (existsb_In ClientDocument.client_id d _ Hin), !orb_true_r. reflexivity.
  - exact Hs.
Qed.

Lemma references_with_users (db : Db) (t : list User.t) :
  references_hold db = true ->
  (forall id, has_id User.id id (users db) = true -> user_referenced db id = true ->
              has_id User.id id t = true) ->
  references_hold (with_users db t) = true.
Proof.
  intros HR Hsup. unfold_references.
  destruct HR as ((((Hi & Ha) & Hl) & Hd) & Hs).
  assert (Hnamed : forall id, has_id User.id id (users db) = true ->
                              user_referenced db id = true ->
                              has_id User.id id t = true) by exact Hsup.
  unfold user_referenced in Hnamed. repeat split.
  - exact Hi.
  - intros a Hin. specialize (Ha a Hin).
    rewrite negb_true_iff, !orb_false_iff, !negb_false_iff in *.
    destruct Ha as ((Hc & Hp) & Hu). repeat split; try assumption.
    apply Hnamed; [exact Hu|].
    rewrite (existsb_In Appointment.agent_id a _ Hin). reflexivity.
  - intros l Hin. specialize (Hl l Hin). rewrite andb_true_iff in *.
    destruct Hl as [Hc Hu]. split; [exact Hc|].
    apply Hnamed; [exact Hu|].
    rewrite (existsb_In CommunicationLog.user_id l _ Hin), !orb_true_r. reflexivity.
  - exact Hd.
  - intros s Hin. apply Hnamed; [apply Hs; exact Hin|].
    rewrite (existsb_In UserSettings.user_id s _ Hin), !orb_true_r. reflexivity.
Qed.

Lemma references_with_properties (db : Db) (t : list Property.t) :
  references_hold db = true ->
  (forall id, has_id Property.id id (properties db) = true ->
              property_referenced db id = true -> has_id Property.id id t = true) ->
  references_hold (with_properties db t) = true.
Proof.
  intros HR Hsup. unfold_references.
  destruct HR as ((((Hi & Ha) & Hl) & Hd) & Hs).
  assert (Hnamed : forall id, has_id Property.id id (properties db) = true ->
                              property_referenced db id = true ->
                              has_id Property.id id t = true) by exact Hsup.
  unfold property_referenced in Hnamed. repeat split; try assumption.
  intros a Hin. specialize (Ha a Hin).
  rewrite negb_true_iff, !orb_false_iff, !negb_false_iff in *.
  destruct Ha as ((Hc & Hp) & Hu). repeat split; try assumption.
  destruct (Appointment.property_id a) as [p|] eqn:Ep; [|reflexivity].
  rewrite negb_false_iff in *. apply Hnamed; [exact Hp|].
  apply existsb_exists. exists a. split; [exact Hin|]. rewrite Ep. apply String.eqb_refl.
Qed.

Lemma references_with_client_property_interests (db : Db)
    (t : list ClientPropertyInterest.t) :
  references_hold db = true ->
  (forall i, In i t -> has_id Client.id (ClientPropertyInterest.client_id i) (clients db) = true
                       \/ exists j, In j (client_property_interests db)
                                    /\ ClientPropertyInterest.client_id j
                                       = ClientPropertyInterest.client_id i) ->
  references_hold (with_client_property_interests db t) = true.
Proof.
  intros HR Ht. unfold_references.
  destruct HR as ((((Hi & Ha) & Hl) & Hd) & Hs). repeat split; try assumption.
  intros i Hin. destruct (Ht i Hin) as [Hc | (j & Hj & <-)]; [exact Hc | apply Hi; exact Hj].
Qed.

Lemma references_with_appointments (db : Db) (t : list Appointment.t) :
  references_hold db = true ->
  (forall a, In a t -> appointment_dangling db a = false \/ In a (appointments db)) ->
  references_hold (with_appointments db t) = true.
Proof.
  intros HR Ht.
  assert (Hold : forall a, In a (appointments db) -> appointment_dangling db a = false).
  { intros a Hin. unfold references_hold in HR. rewrite !andb_true_iff, !forallb_forall in HR.
    destruct HR as ((((_ & Ha) & _) & _) & _). apply negb_true_iff. apply Ha. exact Hin. }
  assert (Hnew : forall a, In a t -> negb (appointment_dangling db a) = true).
  { intros a Hin. apply negb_true_iff. destruct (Ht a Hin); auto. }
  unfold references_hold in *. rewrite !andb_true_iff, !forallb_forall in *.
  destruct HR as ((((Hi & Ha) & Hl) & Hd) & Hs).
  cbn [users clients client_property_interests properties appointments communication_logs
       client_documents user_settings with_appointments].
  repeat split; try assumption.
Qed.

Lemma references_with_communication_logs (db : Db) (t : list CommunicationLog.t) :
  references_hold db = true ->
  (forall l, In l t ->
     (has_id Client.id (CommunicationLog.client_id l) (clients db) = true
      /\ has_id User.id (CommunicationLog.user_id l) (users db) = true)
     \/ exists m, In m (communication_logs db)
                  /\ CommunicationLog.client_id m = CommunicationLog.client_id l
                  /\ CommunicationLog.user_id m = CommunicationLog.user_id l) ->
  references_hold (with_communication_logs db t) = true.
Proof.
  intros HR Ht. unfold_references.
  destruct HR as ((((Hi & Ha) & Hl) & Hd) & Hs). repeat split; try assumption.
  intros l Hin. rewrite andb_true_iff.
  destruct (Ht l Hin) as [Hc | (m & Hm & <- & <-)]; [exact Hc|].
  specialize (Hl m Hm). rewrite andb_true_iff in Hl. exact Hl.
Qed.

Lemma references_with_client_documents (db : Db) (t : list ClientDocument.t) :
  references_hold db = true ->
  (forall d, In d t -> exists e, In e (client_documents db)
                                 /\ ClientDocument.client_id e = ClientDocument.client_id d) ->
  references_hold (with_client_documents db t) = true.
Proof.
  intros HR Ht. unfold_references.
  destruct HR as ((((Hi & Ha) & Hl) & Hd) & Hs). repeat split; try assumption.
  intros d Hin. destruct (Ht d Hin) as (e & He & <-). apply Hd. exact He.
Qed.

Lemma references_with_user_settings (db : Db) (t : list UserSettings.t) :
  references_hold db = true ->
  (forall s, In s t -> exists u, In u (user_settings db)
                                 /\ UserSettings.user_id u = UserSettings.user_id s) ->
  references_hold (with_user_settings db t) = true.
Proof.
  intros HR Ht. unfold_references.
  destruct HR as ((((Hi & Ha) & Hl) & Hd) & Hs). repeat split; try assumption.
  intros s Hin. destruct (Ht s Hin) as (u & Hu & <-). apply Hs. exact Hu.
Qed.

Ltac keeps_column :=
  apply fold_assign_keeps; intros ?a ?r0;
  match goal with a : _, r0 : _ |- _ => destruct a, r0; reflexivity end.

(** A row of an updated table, and the row it was. *)
Ltac was_row Hin :=
  apply in_map_iff in Hin; destruct Hin as (?r & <- & Hin).

Section References.
Context `{Env} `{Services}.

(** *** The tables that others name *)

Lemma post_users_references (db : Db) (user : JwtPayload) (body : object) (now : string)
    (rt : Runtime) :
  references_hold db = true -> references_hold (fst (post_users db user body now rt)) = true.
Proof.
  intros HP. unfold post_users. destruct (negb _); [exact HP|]. parsed_new HP. inserted HP.
  apply references_with_users; [exact HP|]. intros id Hid _.
  rewrite has_id_app, Hid. reflexivity.
Qed.

Lemma post_clients_references (db : Db) (body : object) (now : string) (rt : Runtime) :
  references_hold db = true -> references_hold (fst (post_clients db body now rt)) = true.
Proof.
  intros HP. unfold post_clients. parsed_new HP.
  destruct (json_parameter _) as [details|x]; cbn [and_then rescue fst];
    [|destruct x; exact HP].
  inserted HP. apply references_with_clients; [exact HP|]. intros id Hid _.
  rewrite has_id_app, Hid. reflexivity.
Qed.

Lemma post_properties_references (db : Db) (body : object) (now : string) (rt : Runtime) :
  references_hold db = true -> references_hold (fst (post_properties db body now rt)) = true.
Proof.
  intros HP. unfold post_properties. parsed_new HP. inserted HP.
  apply references_with_properties; [exact HP|]. intros id Hid _.
  rewrite has_id_app, Hid. reflexivity.
Qed.

Lemma put_users_id_references (db : Db) (user : JwtPayload) (id : string) (body : object)
    (now : string) (rt : Runtime) :
  references_hold db = true ->
  references_hold (fst (put_users_id db user id body now rt)) = true.
Proof.
  intros HP. unfold put_users_id. destruct (negb _); [exact HP|]. parsed_new HP.
  match goal with
  | |- context [Pg.update_returning ?pk ?cv ?asg ?f ?i ?t] =>
      destruct (Pg.update_returning pk cv asg f i t) as [[table rows]|e] eqn:E
  end; cbn [attempted and_then rescue fst]; [|exact HP].
  apply update_returning_Ok in E. destruct E as (bound & -> & _).
  destruct (_ || _); [exact HP|].
  destruct rows; cbn [rescue fst];
    (apply references_with_users; [exact HP|]; intros id' Hid _;
     rewrite has_id_updated; [exact Hid | intros r; keeps_column]).
Qed.

Lemma put_clients_id_references (db : Db) (id : string) (body : object) (now : string) :
  references_hold db = true -> references_hold (fst (put_clients_id db id body now)) = true.
Proof.
  intros HP. unfold put_clients_id. parsed_old HP. updated_old HP;
    (apply references_with_clients; [exact HP|]; intros id' Hid _;
     rewrite has_id_updated; [exact Hid | intros r; keeps_column]).
Qed.

Lemma put_properties_id_references (db : Db) (id : string) (body : object) (now : string) :
  references_hold db = true ->
  references_hold (fst (put_properties_id db id body now)) = true.
Proof.
  intros HP. unfold put_properties_id. parsed_new HP.
  match goal with
  | |- context [Pg.update_returning ?pk ?cv ?asg ?f ?i ?t] =>
      destruct (Pg.update_returning pk cv asg f i t) as [[table rows]|e] eqn:E
  end; cbn [attempted and_then rescue fst]; [|exact HP].
  apply update_returning_Ok in E. destruct E as (bound & -> & _).
  destruct rows; cbn [rescue fst];
    (apply references_with_properties; [exact HP|]; intros id' Hid _;
     rewrite has_id_updated; [exact Hid | intros r; keeps_column]).
Qed.

Ltac deleted_named HP :=
  match goal with
  | |- context [Pg.delete_returning ?pk ?ref ?id ?t] =>
      let E := fresh "E" in
      destruct (Pg.delete_returning pk ref id t) as [[?table ?rows]|?e] eqn:E;
      cbn [bind catch fst]; [|exact HP];
      apply delete_returning_Ok in E; destruct E as [-> | [-> ?Hfree]];
      match goal with
      | |- context [match ?rows with _ => _ end] => destruct rows
      end; cbn [fst]
  end.

Lemma delete_users_id_references (db : Db) (user : JwtPayload) (id : string) :
  references_hold db = true -> references_hold (fst (delete_users_id db user id)) = true.
Proof.
  intros HP. unfold delete_users_id. destruct (negb _); [exact HP|].
  deleted_named HP; (apply references_with_users; [exact HP|]; intros id' Hid Hnamed);
    first [ exact Hid
          | exact (@named_rows_stay _ User.id (user_referenced db) _ _ _ Hfree Hnamed Hid) ].
Qed.

Lemma delete_clients_id_references (db : Db) (id : string) :
  references_hold db = true -> references_hold (fst (delete_clients_id db id)) = true.
Proof.
  intros HP. unfold delete_clients_id.
  deleted_named HP; (apply references_with_clients; [exact HP|]; intros id' Hid Hnamed);
    first [ exact Hid
          | exact (@named_rows_stay _ Client.id (client_referenced db) _ _ _ Hfree Hnamed Hid) ].
Qed.

Lemma delete_properties_id_references (db : Db) (id : string) :
  references_hold db = true -> references_hold (fst (delete_properties_id db id)) = true.
Proof.
  intros HP. unfold delete_properties_id.
  deleted_named HP; (apply references_with_properties; [exact HP|]; intros id' Hid Hnamed);
    first [ exact Hid
          | exact (@named_rows_stay _ Property.id (property_referenced db) _ _ _ Hfree Hnamed Hid) ].
Qed.

(** *** The tables that name others *)

Lemma post_client_property_interests_references (db : Db) (body : object) (now : string)
    (rt : Runtime) :
  references_hold db = true ->
  references_hold (fst (post_client_property_interests db body now rt)) = true.
Proof.
  intros HP. unfold post_client_property_interests. parsed_new HP. inserted HP.
  apply references_with_client_property_interests; [exact HP|]. intros i Hin.
  apply in_app_or in Hin. destruct Hin as [Hin | [<- | []]]; [right; eauto | left].
  apply negb_false_iff in Hdangling. exact Hdangling.
Qed.

Lemma put_client_property_interests_id_references (db : Db) (id : string) (body : object) :
  references_hold db = true ->
  references_hold (fst (put_client_property_interests_id db id body)) = true.
Proof.
  intros HP. unfold put_client_property_interests_id. parsed_old HP. updated_old HP;
    (apply references_with_client_property_interests; [exact HP|]; intros i Hin;
     was_row Hin; right; exists r; split; [exact Hin|];
     destruct (String.eqb _ _); [symmetry; keeps_column | reflexivity]).
Qed.

Lemma delete_client_property_interests_id_references (db : Db) (id : string) :
  references_hold db = true ->
  references_hold (fst (delete_client_property_interests_id db id)) = true.
Proof.
  intros HP. unfold delete_client_property_interests_id.
  deleted_named HP;
    (apply references_with_client_property_interests; [exact HP|]; intros i Hin; right;
     exists i; split; [|reflexivity]);
    first [exact Hin | apply filter_In in Hin; tauto].
Qed.

Lemma post_appointments_references (db : Db) (body : object) (now : string) (rt : Runtime) :
  references_hold db = true ->
  references_hold (fst (post_appointments db body now rt)) = true.
Proof.
  intros HP. unfold post_appointments. parsed_new HP. inserted HP.
  apply references_with_appointments; [exact HP|]. intros appt Hin.
  apply in_app_or in Hin. destruct Hin as [Hin | [<- | []]]; [right; exact Hin | left].
  exact Hdangling.
Qed.

Lemma put_appointments_id_references (db : Db) (id : string) (body : object) (now : string) :
  references_hold db = true ->
  references_hold (fst (put_appointments_id db id body now)) = true.
Proof.
  intros HP. unfold put_appointments_id. parsed_new HP.
  match goal with
  | |- context [Pg.update_returning ?pk ?cv ?asg ?f ?i ?t] =>
      destruct (Pg.update_returning pk cv asg f i t) as [[table rows]|e] eqn:E
  end; cbn [attempted and_then rescue fst]; [|exact HP].
  apply update_returning_Ok in E. destruct E as (bound & -> & ->).
  destruct (existsb _ _) eqn:Ed; [exact HP|].
  assert (Hrefs : references_hold
                    (with_appointments db
                       (map (fun r => if String.eqb (Appointment.id r) id
                                      then fold_left (fun r a => AppointmentSet.assign a r)
                                             bound r
                                      else r) (appointments db))) = true).
  { apply references_with_appointments; [exact HP|]. intros appt Hin. was_row Hin.
    destruct (String.eqb (Appointment.id r) id) eqn:Eid; [left | right; exact Hin].
    destruct (appointment_dangling db _) eqn:Ea; [|reflexivity].
    match type of Ed with
    | existsb _ ?rows = false =>
        assert (Hrows : existsb (appointment_dangling db) rows = true)
    end.
    { apply existsb_exists. eexists. split; [|exact Ea].
      apply (in_map (fun r => fold_left (fun r a => AppointmentSet.assign a r) bound r)).
      apply filter_In. split; assumption. }
    congruence. }
  destruct (map _ (Pg.where_id _ _ _)); exact Hrefs.
Qed.

Lemma delete_appointments_id_references (db : Db) (id : string) :
  references_hold db = true -> references_hold (fst (delete_appointments_id db id)) = true.
Proof.
  intros HP. unfold delete_appointments_id.
  deleted_named HP;
    (apply references_with_appointments; [exact HP|]; intros appt Hin; right);
    first [exact Hin | apply filter_In in Hin; tauto].
Qed.

Lemma post_communication_logs_references (db : Db) (body : object) (rt : Runtime) :
  references_hold db = true ->
  references_hold (fst (post_communication_logs db body rt)) = true.
Proof.
  intros HP. unfold post_communication_logs. parsed_new HP. inserted HP.
  apply references_with_communication_logs; [exact HP|]. intros l Hin.
  apply in_app_or in Hin. destruct Hin as [Hin | [<- | []]]; [right; eauto | left].
  apply orb_false_iff in Hdangling. rewrite !negb_false_iff in Hdangling. exact Hdangling.
Qed.

Lemma put_communication_logs_id_references (db : Db) (id : string) (body : object) :
  references_hold db = true ->
  references_hold (fst (put_communication_logs_id db id body)) = true.
Proof.
  intros HP. unfold put_communication_logs_id. parsed_old HP. updated_old HP;
    (apply references_with_communication_logs; [exact HP|]; intros l Hin;
     was_row Hin; right; exists r; split; [exact Hin|];
     destruct (String.eqb _ _); [split; symmetry; keeps_column | split; reflexivity]).
Qed.

Lemma delete_communication_logs_id_references (db : Db) (id : string) :
  references_hold db = true ->
  references_hold (fst (delete_communication_logs_id db id)) = true.
Proof.
  intros HP. unfold delete_communication_logs_id.
  deleted_named HP;
    (apply references_with_communication_logs; [exact HP|]; intros l Hin; right;
     exists l; split; [|split; reflexivity]);
    first [exact Hin | apply filter_In in Hin; tauto].
Qed.

Lemma put_client_documents_id_references (db : Db) (id : string) (body : object) :
  references_hold db = true ->
  references_hold (fst (put_client_documents_id db id body)) = true.
Proof.
  intros HP. unfold put_client_documents_id. parsed_old HP. updated_old HP;
    (apply references_with_client_documents; [exact HP|]; intros d Hin;
     was_row Hin; exists r; split; [exact Hin|];
     destruct (String.eqb _ _); [symmetry; keeps_column | reflexivity]).
Qed.

Lemma delete_client_documents_id_references (db : Db) (id : string) :
  references_hold db = true ->
  references_hold (fst (delete_client_documents_id db id)) = true.
Proof.
  intros HP. unfold delete_client_documents_id.
  deleted_named HP;
    (apply references_with_client_documents; [exact HP|]; intros d Hin;
     exists d; split; [|reflexivity]);
    first [exact Hin | apply filter_In in Hin; tauto].
Qed.

Lemma put_user_settings_id_references (db : Db) (id : string) (body : object)
    (now : string) :
  references_hold db = true ->
  references_hold (fst (put_user_settings_id db id body now)) = true.
Proof.
  intros HP. unfold put_user_settings_id. parsed_new HP.
  match goal with
  | |- context [Pg.update_returning ?pk ?cv ?asg ?f ?i ?t] =>
      destruct (Pg.update_returning pk cv asg f i t) as [[table rows]|e] eqn:E
  end; cbn [attempted and_then rescue fst]; [|exact HP].
  apply update_returning_Ok in E. destruct E as (bound & -> & _).
  destruct rows; cbn [rescue fst];
    (apply references_with_user_settings; [exact HP|]; intros s Hin;
     was_row Hin; exists r; split; [exact Hin|];
     destruct (String.eqb _ _); [symmetry; keeps_column | reflexivity]).
Qed.

(** X25: no request leaves a dangling reference. If every FOREIGN KEY
    value names a stored row before a request, it does after it: a row is
    stored only with references that resolve, and a row that another names
    is not deleted. *)
Theorem api_keeps_references (db db' : Db) (req : Request) (clock : Clock) (rt : Runtime)
    (r : Reply) :
  api db req clock rt = Some (db', r) ->
  references_hold db = true -> references_hold db' = true.
Proof.
  exact (@api_preserves _ _ (fun d => references_hold d = true)
           post_users_references put_users_id_references delete_users_id_references
           post_clients_references put_clients_id_references delete_clients_id_references
           post_client_property_interests_references
           put_client_property_interests_id_references
           delete_client_property_interests_id_references
           post_properties_references put_properties_id_references
           delete_properties_id_references
           post_appointments_references put_appointments_id_references
           delete_appointments_id_references
           post_communication_logs_references put_communication_logs_id_references
           delete_communication_logs_id_references
           put_client_documents_id_references delete_client_documents_id_references
           put_user_settings_id_references db db' req clock rt r).
Qed.

End References.

(** ** Create, update, read *)

Section Scenario.
Context `{Env}.

(** X26: a client created, then given a new status, then read. After a
    POST that stores a client and a PUT to the new identifier whose body is
    only a non-empty [status], a GET of that identifier returns the client
    as created, with the new status, [created_at] from the first clock
    reading and [updated_at] from the second. *)
Theorem create_update_read (db : Db) (body : object) (now later : string) (rt : Runtime)
    (parsed : CreateClientInput.t) (details : json) (status : string) :
  createClientInputSchema body = Ok parsed ->
  pg_json_in (json_or_null (CreateClientInput.additional_details parsed)) = Some details ->
  has_id Client.id (uuidv4 rt) (clients db) = false ->
  status <> "" ->
  let db1 := fst (post_clients db body now rt) in
  let db2 := fst (put_clients_id db1 (uuidv4 rt) [("status", JStr status)] later) in
  get_clients_id db2 (uuidv4 rt)
  = (db2, res_json (client_row
       (Client.Build_t (uuidv4 rt) (CreateClientInput.first_name parsed)
          (CreateClientInput.last_name parsed) (CreateClientInput.email parsed)
          (CreateClientInput.phone parsed) (CreateClientInput.address parsed)
          status details now later))).
Proof.
  intros Hparse Hdetails Hfree Hstatus db1 db2.
  set (row := Client.Build_t (uuidv4 rt) (CreateClientInput.first_name parsed)
                (CreateClientInput.last_name parsed) (CreateClientInput.email parsed)
                (CreateClientInput.phone parsed) (CreateClientInput.address parsed)
                (CreateClientInput.status parsed) details now now).
  assert (Hpost : db1 = with_clients db (clients db ++ [row])).
  { unfold db1, post_clients. rewrite Hparse. cbn [attempted and_then].
    unfold json_parameter. rewrite Hdetails. cbn [and_then]. unfold Sql.insert_returning.
    unfold has_id in Hfree. cbn [Client.id]. rewrite Hfree. reflexivity. }
  assert (Hrow : Pg.where_id Client.id (uuidv4 rt) (clients db1) = [row]).
  { rewrite Hpost. cbn [clients with_clients]. rewrite where_id_app.
    apply has_id_where_id in Hfree. rewrite Hfree. unfold Pg.where_id, row.
    cbn [filter Client.id]. rewrite String.eqb_refl. reflexivity. }
  assert (Hschema : updateClientInputSchema (spread "id" (JStr (uuidv4 rt))
                                               [("status", JStr status)])
                    = Ok (UpdateClientInput.Build_t (uuidv4 rt) None None None None None
                            (Some status) None)).
  { destruct status; [congruence | reflexivity]. }
  assert (Htruthy : truthy (Some status) = Some status)
    by (destruct status; [congruence | reflexivity]).
  destruct (@put_clients_id_parsed _ db1 (uuidv4 rt) [("status", JStr status)] later row []
              _ None Hrow Hschema eq_refl eq_refl eq_refl eq_refl eq_refl Htruthy eq_refl)
    as [Hput Hget].
  unfold db2. rewrite Hput. cbn [fst]. rewrite Hget. reflexivity.
Qed.

End Scenario.

(** ** The properties above, on the seed data *)

(** X2 at a token the reference environment signs: sent under the scheme
    word [Basic], with or without more words after it, it is read as under
    [Bearer]. *)
Lemma authenticateToken_reads_second_word_witness :
  avoids " " "Basic"
  /\ avoids " " (Demo.sign admin_u1 "your_jwt_secret" 3600 0)
  /\ authenticateToken
       (Some ("Basic" ++ " " ++ Demo.sign admin_u1 "your_jwt_secret" 3600 0)%string) 10
     = authenticateToken
         (Some ("Bearer " ++ Demo.sign admin_u1 "your_jwt_secret" 3600 0)%string) 10
  /\ authenticateToken
       (Some ("Basic" ++ " " ++ Demo.sign admin_u1 "your_jwt_secret" 3600 0
              ++ " " ++ "and more")%string) 10
     = authenticateToken
         (Some ("Bearer " ++ Demo.sign admin_u1 "your_jwt_secret" 3600 0)%string) 10.
Proof.
  assert (Hne : "Basic" <> "") by discriminate.
  assert (Hs : avoids " " "Basic") by (simpl; tauto).
  assert (Ht : avoids " " (Demo.sign admin_u1 "your_jwt_secret" 3600 0))
    by apply sign_avoids_space.
  exact (conj Hs (conj Ht
           (@authenticateToken_reads_second_word Demo.env "Basic"
              (Demo.sign admin_u1 "your_jwt_secret" 3600 0) "and more" 10 Hne Hs Ht))).
Defined.

(** X4 on the seed data: an agent's new client is stored under the minted
    identifier and read back. *)
Lemma post_clients_round_trip_witness :
  has_id Client.id (uuidv4 demo_runtime) (clients Demo.seed) = false
  /\ exists row,
       post_clients Demo.seed dora first_of_may demo_runtime
       = (with_clients Demo.seed (clients Demo.seed ++ [row]), reply 201 (client_row row))
       /\ Client.first_name row = "Dora"
       /\ get_clients_id (with_clients Demo.seed (clients Demo.seed ++ [row]))
            (uuidv4 demo_runtime)
          = (with_clients Demo.seed (clients Demo.seed ++ [row]), res_json (client_row row)).
Proof.
  assert (Hfree : has_id Client.id (uuidv4 demo_runtime) (clients Demo.seed) = false)
    by reflexivity.
  split; [exact Hfree|].
  destruct (@post_clients_round_trip Demo.env demo_laws Demo.seed dora first_of_may
              demo_runtime _ JNull eq_refl eq_refl Hfree)
    as (row & Hpost & _ & _ & _ & Hname & _ & _ & _ & _ & _ & _ & Hget & _).
  exists row. split; [exact Hpost|]. split; [|exact Hget].
  simpl in Hname. congruence.
Defined.

(** X5 on the seed data: a client without an e-mail address is refused. *)
Lemma post_clients_requires_every_field_witness :
  exists issues,
    post_clients Demo.seed [("first_name", JStr "Dora")] first_of_may demo_runtime
    = (Demo.seed, reply 400 (error_message (ZodError issues)))
    /\ exists why, In (Zod.Issue "email" why) issues.
Proof.
  apply (@post_clients_requires_every_field Demo.env demo_laws Demo.seed
           [("first_name", JStr "Dora")] first_of_may demo_runtime "email").
  - simpl. tauto.
  - intros s Hs. discriminate Hs.
Defined.

(** X3 on the seed data: an agent creates a client; the answer is 201 to a
    POST. *)
Lemma api_writes_only_on_success_witness :
  exists db' r,
    api Demo.seed (request POST ["api"; "clients"] (bearer agent_u2) [] dora) noon
        demo_runtime = Some (db', r)
    /\ (db' = Demo.seed
        \/ (POST = POST /\ code r = 201%Z)
        \/ ((POST = PUT \/ POST = DELETE) /\ code r = 200%Z)).
Proof.
  eexists. eexists.
  match goal with
  | |- ?A /\ _ => assert (E : A) by (lazy; reflexivity)
  end.
  exact (conj E (@api_writes_only_on_success Demo.env demo_services _ _ _ _ _ _ E)).
Defined.

(** X6 on the seed data: the administrator creates an agent, who then
    logs in. *)
Lemma post_users_then_login_witness :
  users_by_login "agent_eve" (users Demo.seed) = []
  /\ exists row db' token,
       post_users Demo.seed admin_u1 eve first_of_may demo_runtime
       = (db', reply 201 (user_row row))
       /\ User.password_hash row <> "correct horse"
       /\ post_auth_login db' (credentials "agent_eve" "correct horse") 60
          = (db', res_json (token_and_user token row)).
Proof.
  assert (Hnew : users_by_login "agent_eve" (users Demo.seed) = []) by reflexivity.
  split; [exact Hnew|].
  assert (Hname : "agent_eve" <> "") by discriminate.
  assert (Hpass : "correct horse" <> "") by discriminate.
  assert (Hrole : "agent" <> "") by discriminate.
  destruct (@post_users_then_login Demo.env demo_services demo_more_laws
              Demo.seed admin_u1 eve first_of_may demo_runtime 60
              "agent_eve" "eve@estatehub.co.uk" "correct horse" "agent"
              eq_refl eq_refl eq_refl eq_refl eq_refl Hname eq_refl Hpass Hrole
              eq_refl Hnew eq_refl) as [Hpost Hlogin].
  eexists. eexists. eexists. split; [exact Hpost|]. split; [discriminate | exact Hlogin].
Defined.


(** X9 on the seed data: an interest of client c1 is recorded; client c1
    then cannot be deleted; deleting the interest restores the database. *)
Lemma interest_names_a_client_witness :
  has_id Client.id "c1" (clients Demo.seed) = true
  /\ exists row db',
       post_client_property_interests Demo.seed flat_in_leeds first_of_may demo_runtime
       = (db', reply 201 (interest_row row))
       /\ delete_clients_id db' "c1"
          = (db', res_status_json 400 (error_message (DatabaseError foreign_key_violation)))
       /\ delete_client_property_interests_id db' (uuidv4 demo_runtime)
          = (Demo.seed, res_json (message "Record deleted successfully")).
Proof.
  assert (Hclient : has_id Client.id "c1" (clients Demo.seed) = true) by reflexivity.
  split; [exact Hclient|].
  destruct (@interest_names_a_client Demo.seed flat_in_leeds first_of_may
              demo_runtime _ eq_refl eq_refl) as [_ Hsome].
  destruct (Hsome Hclient) as (row & Hpost & _ & _ & Hclientkept & Hdelete).
  exists row. eexists. split; [exact Hpost|]. split; [exact Hclientkept | exact Hdelete].
Defined.


(** X11 on the seed data: a property sent with an empty description is
    stored without one. *)
Lemma post_properties_description_witness :
  exists row,
    post_properties Demo.seed bare_plot first_of_may demo_runtime
    = (with_properties Demo.seed (properties Demo.seed ++ [row]),
       {| code := 201; content_of := property_row row |})
    /\ Property.description row = None.
Proof.
  destruct (@post_properties_description Demo.seed bare_plot first_of_may
              demo_runtime _ eq_refl eq_refl) as (row & Hpost & Hdescription).
  exists row. split; [exact Hpost | exact Hdescription].
Defined.

(** X12 on the seed data: the settings of user u1 are read under u1 and
    cannot be written under u1. *)
Lemma settings_read_by_user_written_by_id_witness :
  has_id UserSettings.id "u1" (user_settings Demo.seed) = false
  /\ exists row,
       get_user_settings Demo.seed "u1"
       = (Demo.seed, {| code := 200; content_of := settings_row row |})
       /\ put_user_settings_id Demo.seed "u1" [("configuration", JObj [])] first_of_may
          = (Demo.seed, reply 404 (message "Settings not found")).
Proof.
  assert (Hnone : has_id UserSettings.id "u1" (user_settings Demo.seed) = false)
    by reflexivity.
  split; [exact Hnone|].
  destruct (@settings_read_by_user_written_by_id Demo.env demo_services demo_more_laws
              Demo.seed "u1" [("configuration", JObj [])] first_of_may _ _ _
              eq_refl Hnone eq_refl) as [Hget Hput].
  eexists. split; [exact Hget | exact Hput].
Defined.

(** X13 on the seed data: [null] sent for the configuration of the
    settings row us1 leaves the configuration as it is. *)
Lemma put_user_settings_id_cannot_clear_witness :
  exists db' row,
    put_user_settings_id Demo.seed "us1" [("configuration", JNull)] first_of_may
    = (db', {| code := 200; content_of := settings_row row |})
    /\ UserSettings.configuration row = JObj [("language", JStr "en-UK")]
    /\ UserSettings.updated_at row = first_of_may.
Proof.
  assert (Hfalsy : forall k,
            In k ["dashboard_preferences"; "notification_settings"; "configuration"] ->
            match get k [("configuration", JNull)] with
            | Some j => truthy_json j = false
            | None => True
            end).
  { intros k [<-|[<-|[<-|[]]]]; simpl; auto. }
  destruct (@put_user_settings_id_cannot_clear demo_services Demo.seed "us1"
              [("configuration", JNull)] first_of_may _ eq_refl eq_refl eq_refl Hfalsy)
    as (db' & Hput & _).
  exists db'. eexists. split; [exact Hput|]. split; reflexivity.
Defined.

(** X15 on the seed data: the default page holds the three clients, newest
    first. *)
Lemma get_clients_page_witness :
  get_clients Demo.seed []
  = (Demo.seed, res_json (client_rows [Demo.charlie; Demo.bob; Demo.alice]))
  /\ length [Demo.charlie; Demo.bob; Demo.alice] <= 10
  /\ Sorted (fun a b => String.leb (Client.created_at b) (Client.created_at a) = true)
       [Demo.charlie; Demo.bob; Demo.alice].
Proof.
  assert (Hget : get_clients Demo.seed []
                 = (Demo.seed, res_json (client_rows [Demo.charlie; Demo.bob; Demo.alice])))
    by reflexivity.
  split; [exact Hget|].
  destruct (@get_clients_page Demo.env Demo.seed Demo.seed [] _ (NoDup_nil _)
              String.leb_total Hget)
    as (Hlength & _ & Hsorted).
  split; [exact Hlength | exact Hsorted].
Defined.


(** X18 on the seed data: user u2 logs in under the e-mail address as
    under the username. *)
Lemma login_by_email_as_by_username_witness :
  post_auth_login Demo.seed (credentials "agent_john" "john") 60
  = post_auth_login Demo.seed (credentials "john.doe@estatehub.co.uk" "john") 60.
Proof.
  assert (Hname : User.username john <> "") by discriminate.
  assert (Hmail : User.email john <> "") by discriminate.
  exact (@login_by_email_as_by_username Demo.env Demo.seed john "john" 60 [] []
           Hname Hmail eq_refl eq_refl).
Defined.

(** X24 on the seed data, whose keys are unique: so are those of the
    database an agent's new client leaves. *)
Lemma api_keeps_keys_unique_witness :
  keys_unique Demo.seed = true
  /\ exists db' r,
       api Demo.seed (request POST ["api"; "clients"] (bearer agent_u2) [] dora) noon
           demo_runtime = Some (db', r)
       /\ keys_unique db' = true.
Proof.
  assert (Hkeys : keys_unique Demo.seed = true) by reflexivity.
  split; [exact Hkeys|]. eexists. eexists.
  match goal with
  | |- ?A /\ _ => assert (E : A) by (lazy; reflexivity)
  end.
  exact (conj E (@api_keeps_keys_unique Demo.env demo_services _ _ _ _ _ _ E Hkeys)).
Defined.

(** X25 on the seed data: deleting appointment a1 leaves every reference
    resolved. *)
Lemma api_keeps_references_witness :
  references_hold Demo.seed = true
  /\ exists db' r,
       api Demo.seed (request DELETE ["api"; "appointments"; "a1"] (bearer agent_u2) [] [])
           noon demo_runtime = Some (db', r)
       /\ references_hold db' = true.
Proof.
  assert (Hrefs : references_hold Demo.seed = true) by reflexivity.
  split; [exact Hrefs|]. eexists. eexists.
  match goal with
  | |- ?A /\ _ => assert (E : A) by (lazy; reflexivity)
  end.
  exact (conj E (@api_keeps_references Demo.env demo_services _ _ _ _ _ _ E Hrefs)).
Defined.

(** X26 on the seed data: the new client, made prospective, is read back
    so. *)
Lemma create_update_read_witness :
  exists row,
    get_clients_id
      (fst (put_clients_id (fst (post_clients Demo.seed dora first_of_may demo_runtime))
              (uuidv4 demo_runtime) [("status", JStr "prospective")]
              "2024-05-02T09:00:00.000Z"))
      (uuidv4 demo_runtime)
    = (fst (put_clients_id (fst (post_clients Demo.seed dora first_of_may demo_runtime))
              (uuidv4 demo_runtime) [("status", JStr "prospective")]
              "2024-05-02T09:00:00.000Z"),
       res_json (client_row row))
    /\ Client.status row = "prospective"
    /\ Client.created_at row = first_of_may
    /\ Client.updated_at row = "2024-05-02T09:00:00.000Z".
Proof.
  assert (Hstatus : "prospective" <> "") by discriminate.
  eexists. split.
  - exact (@create_update_read Demo.env Demo.seed dora first_of_may
             "2024-05-02T09:00:00.000Z" demo_runtime _ JNull "prospective"
             eq_refl eq_refl eq_refl Hstatus).
  - repeat split.
Defined.

(** X14 on the seed data: the appointments of agent u2, asked for with a
    [limit] that is ignored. *)
Lemma get_appointments_filters_witness :
  NoDup (map fst [("agent_id", "u2"); ("limit", "10000")])
  /\ exists rows,
       get_appointments Demo.seed [("agent_id", "u2"); ("limit", "10000")]
       = (Demo.seed, {| code := 200; content_of := appointment_rows rows |})
       /\ forall a, In a rows -> Appointment.agent_id a = "u2".
Proof.
  assert (Hquery : NoDup (map fst [("agent_id", "u2"); ("limit", "10000")])).
  { repeat constructor; simpl; intuition discriminate. }
  split; [exact Hquery|].
  destruct (@get_appointments_filters Demo.seed [("agent_id", "u2"); ("limit", "10000")]
              Hquery) as (rows & Hget & Hrows & _).
  exists rows. split; [exact Hget|].
  intros a Ha. apply Hrows in Ha. destruct Ha as (_ & _ & Hagent & _).
  apply Hagent. reflexivity.
Defined.
